(** * The arena layer of mimalloc ([src/arena.c]): a shallow embedding

    The live part of [arena.c] (everything before its [#if 0] appendix) is
    embedded as state-passing functions over a registry of arena
    descriptors.  The embedding is sequential: one thread runs one
    operation at a time, so every atomic access is a plain read or write.

    - [size_t] values are [Z]; where the source arithmetic can wrap
      ([_mi_align_up], [_mi_divide_up], [mi_size_of_blocks],
      [mi_mul_overflow]) the reduction modulo [2^MI_SIZE_BITS] is written
      out with [wrap].
    - A bitmap is a bit field held in a [Z]: bit [i] is [Z.testbit b i].
    - The registry [mi_arenas] is a finite map from slot index to
      descriptor; an absent key is a [NULL] slot.
    - Calls into the OS layer, the option store and the message log are
      taken from an environment record ([mi_os]); every call the arena
      layer makes is appended to the state's [trace]. *)

From Stdlib Require Import ZArith Lia List Bool String.
From stdpp Require Import base option gmap.
From coqutil Require Import Z.bitblast.

Local Open Scope Z_scope.
Local Open Scope bool_scope.

(** ** Compile-time constants

    [bitmap.h], [mimalloc/types.h] and [mimalloc/internal.h] fix these
    values; [arena.c] only names them, so they are taken as parameters. *)
Record mi_config := {
  MI_SIZE_BITS : Z;            (* width of [size_t] in bits *)
  MI_ARENA_BLOCK_SIZE : Z;
  MI_ARENA_BLOCK_ALIGN : Z;
  MI_ARENA_MIN_OBJ_SIZE : Z;
  MI_ARENA_MAX_OBJ_SIZE : Z;
  MI_BITMAP_CHUNK_BITS : Z;
  MI_BITMAP_CHUNK_COUNT : Z;
  sizeof_mi_arena_t : Z;       (* sizeof(mi_arena_t) *)
  _mi_os_page_size : Z;        (* the platform's page size *)
}.

(* #define MI_MAX_ARENAS (1024) *)
Definition MI_MAX_ARENAS : Z := 1024.

Definition EINVAL : Z := 22.
Definition ENOMEM : Z := 12.
Definition EAGAIN : Z := 11.
Definition EFAULT : Z := 14.

(** ** Bitmaps *)

Definition mi_bitmap := Z.

Inductive mi_bit_t := MI_BIT_CLEAR | MI_BIT_SET.

(** The bits [idx, idx+n) as a mask. *)
Definition mi_bits_mask (idx n : Z) : Z := Z.shiftl (Z.ones n) idx.

(** Modelled from the spec: [mi_bitmap_is_xsetN] of [bitmap.h] (absent
    from the sources at hand), the probe "is_range_set(start, n)" and its
    CLEAR twin: are all bits of [idx, idx+n) set (resp. clear)? *)
Definition mi_bitmap_is_xsetN (set : mi_bit_t) (b : mi_bitmap) (idx n : Z) : bool :=
  match set with
  | MI_BIT_SET => Z.land b (mi_bits_mask idx n) =? mi_bits_mask idx n
  | MI_BIT_CLEAR => Z.land b (mi_bits_mask idx n) =? 0
  end.

(** Modelled from the spec: [mi_bitmap_xsetN(set, bitmap, idx, n, already_xset)]
    of [bitmap.h], the multi-bit write "xset_range(SET|CLEAR, start, n)".
    It sets (clears) the bits [idx, idx+n).  As [arena.c] uses it, the
    returned flag tells that every bit changed (for SET: all were clear
    before, so "returns false only when the range was already free"), and
    the out-parameter [already_xset] tells that every bit already had the
    requested value ([all_already_committed]).
    The result is (new bitmap, returned flag, already_xset). *)
Definition mi_bitmap_xsetN (set : mi_bit_t) (b : mi_bitmap) (idx n : Z)
  : mi_bitmap * bool * bool :=
  match set with
  | MI_BIT_SET =>
      (Z.lor b (mi_bits_mask idx n),
       mi_bitmap_is_xsetN MI_BIT_CLEAR b idx n,
       mi_bitmap_is_xsetN MI_BIT_SET b idx n)
  | MI_BIT_CLEAR =>
      (Z.ldiff b (mi_bits_mask idx n),
       mi_bitmap_is_xsetN MI_BIT_SET b idx n,
       mi_bitmap_is_xsetN MI_BIT_CLEAR b idx n)
  end.

(** Modelled from the spec: [mi_bitmap_unsafe_xsetN], the non-atomic write
    used while the arena is not yet published; sequentially it is the same
    write as [mi_bitmap_xsetN]. *)
Definition mi_bitmap_unsafe_xsetN (set : mi_bit_t) (b : mi_bitmap) (idx n : Z) : mi_bitmap :=
  fst (fst (mi_bitmap_xsetN set b idx n)).

(** Modelled from the spec: [mi_bitmap_init] leaves a bitmap with every
    bit clear ("the bitmaps exist, are zero-initialized"). *)
Definition mi_bitmap_init : mi_bitmap := 0.

(** Lowest start offset [s' >= s] such that the [n] bits of [chunk] from
    [s'] on are all set; [k] candidates are tried. *)
Fixpoint mi_bitmap_chunk_find (chunk : Z) (n : Z) (k : nat) (s : Z) : option Z :=
  match k with
  | O => None
  | S k' =>
      if mi_bitmap_is_xsetN MI_BIT_SET chunk s n then Some s
      else mi_bitmap_chunk_find chunk n k' (s + 1)
  end.

Section Bitmap.
Context (cfg : mi_config).

(** Modelled from the spec: the hard cap on blocks per arena is
    "dictated by the bitmap's chunk array". *)
Definition MI_BITMAP_MAX_BITS : Z :=
  MI_BITMAP_CHUNK_COUNT cfg * MI_BITMAP_CHUNK_BITS cfg.

(** [bitmap->chunks[c]], as a bit field of [MI_BITMAP_CHUNK_BITS] bits. *)
Definition mi_bitmap_chunk (b : mi_bitmap) (c : Z) : Z :=
  Z.land (Z.shiftr b (c * MI_BITMAP_CHUNK_BITS cfg)) (Z.ones (MI_BITMAP_CHUNK_BITS cfg)).

(** Modelled from the spec: a chunk's "try_find_and_clear_n": the lowest
    run of [n] set bits that lies inside chunk [c], as a bit index of the
    whole bitmap; runs that straddle a chunk boundary are rejected. *)
Definition mi_bitmap_chunk_try_find (b : mi_bitmap) (c n : Z) : option Z :=
  match mi_bitmap_chunk_find (mi_bitmap_chunk b c) n
          (Z.to_nat (MI_BITMAP_CHUNK_BITS cfg - n + 1)) 0 with
  | Some s => Some (c * MI_BITMAP_CHUNK_BITS cfg + s)
  | None => None
  end.

(** Chunks are visited from [c], wrapping at the chunk count, [k] of them. *)
Fixpoint mi_bitmap_find_from (b : mi_bitmap) (n : Z) (k : nat) (c : Z) : option Z :=
  match k with
  | O => None
  | S k' =>
      match mi_bitmap_chunk_try_find b (c mod MI_BITMAP_CHUNK_COUNT cfg) n with
      | Some i => Some i
      | None => mi_bitmap_find_from b n k' (c + 1)
      end
  end.

(** Modelled from the spec: [mi_bitmap_try_find_and_clearN(bitmap, tseq, n, &idx)]
    "iterates chunks beginning at tseq mod chunk_count"; on success the
    [n] bits found are cleared.  The result is (new bitmap, index). *)
Definition mi_bitmap_try_find_and_clearN (b : mi_bitmap) (tseq n : Z)
  : option (mi_bitmap * Z) :=
  if (n <=? 0) || (MI_BITMAP_CHUNK_BITS cfg <? n) then None
  else
    match mi_bitmap_find_from b n (Z.to_nat (MI_BITMAP_CHUNK_COUNT cfg))
            (tseq mod MI_BITMAP_CHUNK_COUNT cfg) with
    | Some i => Some (Z.ldiff b (mi_bits_mask i n), i)
    | None => None
    end.
End Bitmap.

(** ** Memory ids and arena descriptors *)

(* [mi_memkind_t]; [mi_memkind_is_os] holds of [MI_MEM_OS] alone here. *)
Inductive mi_memkind_t :=
  MI_MEM_NONE | MI_MEM_EXTERNAL | MI_MEM_STATIC | MI_MEM_OS | MI_MEM_ARENA.

Definition mi_memkind_is_os (k : mi_memkind_t) : bool :=
  match k with MI_MEM_OS => true | _ => false end.

Record mi_memid_t := {
  memkind : mi_memkind_t;
  mem_arena_id : Z;              (* memid.mem.arena.id *)
  mem_arena_block_index : Z;     (* memid.mem.arena.block_index *)
  mem_arena_is_exclusive : bool; (* memid.mem.arena.is_exclusive *)
  is_pinned : bool;
  initially_committed : bool;
  initially_zero : bool;
}.

Definition _mi_memid_create (k : mi_memkind_t) : mi_memid_t :=
  {| memkind := k; mem_arena_id := 0; mem_arena_block_index := 0;
     mem_arena_is_exclusive := false; is_pinned := false;
     initially_committed := false; initially_zero := false |}.

Definition _mi_memid_none : mi_memid_t := _mi_memid_create MI_MEM_NONE.

Definition set_is_pinned (m : mi_memid_t) (v : bool) : mi_memid_t :=
  {| memkind := memkind m; mem_arena_id := mem_arena_id m;
     mem_arena_block_index := mem_arena_block_index m;
     mem_arena_is_exclusive := mem_arena_is_exclusive m; is_pinned := v;
     initially_committed := initially_committed m;
     initially_zero := initially_zero m |}.

Definition set_initially_committed (m : mi_memid_t) (v : bool) : mi_memid_t :=
  {| memkind := memkind m; mem_arena_id := mem_arena_id m;
     mem_arena_block_index := mem_arena_block_index m;
     mem_arena_is_exclusive := mem_arena_is_exclusive m;
     is_pinned := is_pinned m; initially_committed := v;
     initially_zero := initially_zero m |}.

Definition set_initially_zero (m : mi_memid_t) (v : bool) : mi_memid_t :=
  {| memkind := memkind m; mem_arena_id := mem_arena_id m;
     mem_arena_block_index := mem_arena_block_index m;
     mem_arena_is_exclusive := mem_arena_is_exclusive m;
     is_pinned := is_pinned m; initially_committed := initially_committed m;
     initially_zero := v |}.

(* static mi_memid_t mi_memid_create_arena(id, is_exclusive, block_index) *)
Definition mi_memid_create_arena (id : Z) (is_exclusive : bool) (block_index : Z)
  : mi_memid_t :=
  {| memkind := MI_MEM_ARENA; mem_arena_id := id;
     mem_arena_block_index := block_index;
     mem_arena_is_exclusive := is_exclusive; is_pinned := false;
     initially_committed := false; initially_zero := false |}.

(** [mi_arena_t].  The descriptor sits at the start of its own memory, so
    its address [arena_start] is the arena's base.  The visit lock and the
    per-bin [blocks_abandoned] bitmaps are left out: no function embedded
    here reads them. *)
Record mi_arena_t := {
  arena_start : Z;
  arena_memid : mi_memid_t;
  arena_ident : Z;          (* id *)
  block_count : Z;
  arena_numa_node : Z;      (* numa_node *)
  exclusive : bool;
  is_large : bool;
  purge_expire : Z;
  blocks_free : mi_bitmap;
  blocks_committed : mi_bitmap;
  blocks_purge : mi_bitmap;
  blocks_dirty : mi_bitmap;
}.

Definition set_arena_id (a : mi_arena_t) (v : Z) : mi_arena_t :=
  {| arena_start := arena_start a; arena_memid := arena_memid a; arena_ident := v;
     block_count := block_count a; arena_numa_node := arena_numa_node a;
     exclusive := exclusive a; is_large := is_large a;
     purge_expire := purge_expire a; blocks_free := blocks_free a;
     blocks_committed := blocks_committed a; blocks_purge := blocks_purge a;
     blocks_dirty := blocks_dirty a |}.

Definition set_blocks_free (a : mi_arena_t) (v : mi_bitmap) : mi_arena_t :=
  {| arena_start := arena_start a; arena_memid := arena_memid a;
     arena_ident := arena_ident a; block_count := block_count a;
     arena_numa_node := arena_numa_node a; exclusive := exclusive a; is_large := is_large a;
     purge_expire := purge_expire a; blocks_free := v;
     blocks_committed := blocks_committed a; blocks_purge := blocks_purge a;
     blocks_dirty := blocks_dirty a |}.

Definition set_blocks_committed (a : mi_arena_t) (v : mi_bitmap) : mi_arena_t :=
  {| arena_start := arena_start a; arena_memid := arena_memid a;
     arena_ident := arena_ident a; block_count := block_count a;
     arena_numa_node := arena_numa_node a; exclusive := exclusive a; is_large := is_large a;
     purge_expire := purge_expire a; blocks_free := blocks_free a;
     blocks_committed := v; blocks_purge := blocks_purge a;
     blocks_dirty := blocks_dirty a |}.

Definition set_blocks_purge (a : mi_arena_t) (v : mi_bitmap) : mi_arena_t :=
  {| arena_start := arena_start a; arena_memid := arena_memid a;
     arena_ident := arena_ident a; block_count := block_count a;
     arena_numa_node := arena_numa_node a; exclusive := exclusive a; is_large := is_large a;
     purge_expire := purge_expire a; blocks_free := blocks_free a;
     blocks_committed := blocks_committed a; blocks_purge := v;
     blocks_dirty := blocks_dirty a |}.

Definition set_blocks_dirty (a : mi_arena_t) (v : mi_bitmap) : mi_arena_t :=
  {| arena_start := arena_start a; arena_memid := arena_memid a;
     arena_ident := arena_ident a; block_count := block_count a;
     arena_numa_node := arena_numa_node a; exclusive := exclusive a; is_large := is_large a;
     purge_expire := purge_expire a; blocks_free := blocks_free a;
     blocks_committed := blocks_committed a; blocks_purge := blocks_purge a;
     blocks_dirty := v |}.

(** ** Events, state and environment *)

(** What the arena layer does to its collaborators.  [_mi_verbose_message]
    and the memory-tracking hooks are not recorded. *)
Inductive event :=
| EvError (code : Z) (msg : string)            (* _mi_error_message *)
| EvWarning (msg : string)                     (* _mi_warning_message *)
| EvOsAllocAligned (size alignment : Z) (commit allow_large : bool)
| EvOsAllocAlignedAtOffset (size alignment offset : Z) (commit allow_large : bool)
| EvOsAllocHuge (pages node timeout : Z)       (* _mi_os_alloc_huge_os_pages *)
| EvOsCommit (p size : Z)
| EvOsPurge (p size : Z)
| EvOsPurgeEx (p size : Z) (allow_reset : bool)
| EvOsFree (p size : Z)
| EvStatCommitted (delta : Z)                  (* _mi_stats_main.committed *)
| EvStatArenaCount (delta : Z).                (* stats->arena_count *)

(** The two file-level statics of [arena.c], [errno], and the log. *)
Record mi_state := {
  mi_arenas : gmap Z mi_arena_t;
  mi_arena_count : Z;
  errno : Z;
  trace : list event;
}.

Definition emit (e : event) (s : mi_state) : mi_state :=
  {| mi_arenas := mi_arenas s; mi_arena_count := mi_arena_count s;
     errno := errno s; trace := trace s ++ [e] |}.

Definition set_errno (v : Z) (s : mi_state) : mi_state :=
  {| mi_arenas := mi_arenas s; mi_arena_count := mi_arena_count s;
     errno := v; trace := trace s |}.

Definition set_arena_count (v : Z) (s : mi_state) : mi_state :=
  {| mi_arenas := mi_arenas s; mi_arena_count := v;
     errno := errno s; trace := trace s |}.

(* mi_atomic_store_ptr_release(mi_arena_t, &mi_arenas[i], arena).
   In the source a slot holds a pointer to the descriptor, which lies at
   the start of the arena's own memory; here a slot holds the value of
   that descriptor.  The two agree as long as the descriptors of
   different slots do not overlap ([registry_separate] below): then a
   write to a descriptor is seen through its own slot only.  Memory that
   is registered a second time breaks this, and the statements that
   depend on it exclude it by hypothesis. *)
Definition store_arena (i : Z) (a : mi_arena_t) (s : mi_state) : mi_state :=
  {| mi_arenas := <[i := a]> (mi_arenas s); mi_arena_count := mi_arena_count s;
     errno := errno s; trace := trace s |}.

(** The option store, the calling thread and the OS layer, as one call of
    the arena layer sees them.  An OS call's outcome may depend on all that
    happened before, so each oracle is given the trace. *)
Record mi_os := {
  _mi_preloading : bool;
  mi_option_purge_delay : Z;
  mi_option_arena_purge_mult : Z;
  mi_option_arena_reserve : Z;          (* mi_option_get_size(mi_option_arena_reserve) *)
  mi_option_arena_eager_commit : Z;
  mi_option_disallow_arena_alloc : bool;
  mi_option_disallow_os_alloc : bool;
  _mi_os_has_virtual_reserve : bool;
  _mi_os_has_overcommit : bool;
  _mi_os_numa_node_count : Z;
  _mi_os_numa_node : Z;                 (* of the calling thread *)
  _mi_thread_seq_id : Z;
  (* (success, is_zero) *)
  _mi_os_commit : list event -> Z -> Z -> bool * bool;
  (* needs_recommit *)
  _mi_os_purge : list event -> Z -> Z -> bool;
  _mi_os_purge_ex : list event -> Z -> Z -> bool -> bool;
  (* (pointer, memid); pointer 0 is NULL *)
  _mi_os_alloc_aligned : list event -> Z -> Z -> bool -> bool -> Z * mi_memid_t;
  _mi_os_alloc_aligned_at_offset :
    list event -> Z -> Z -> Z -> bool -> bool -> Z * mi_memid_t;
  (* (pointer, pages_reserved, hsize, memid) *)
  _mi_os_alloc_huge_os_pages : list event -> Z -> Z -> Z -> Z * Z * Z * mi_memid_t;
}.

(** ** The arena layer *)

Section Arena.
Context (cfg : mi_config).

(** [size_t] arithmetic is modulo [2^MI_SIZE_BITS]. *)
Definition wrap (x : Z) : Z := x mod 2 ^ MI_SIZE_BITS cfg.

(** Modelled from the spec: [_mi_align_up] of [internal.h], "round up
    to" a multiple of [alignment], in [size_t]. *)
Definition _mi_align_up (sz alignment : Z) : Z :=
  wrap (sz + (alignment - 1)) / alignment * alignment.

(** Modelled from the spec: [_mi_divide_up] of [internal.h], the
    ceiling of [sz / divider], in [size_t]. *)
Definition _mi_divide_up (sz divider : Z) : Z :=
  if divider =? 0 then sz else wrap (sz + divider - 1) / divider.

Definition _mi_is_aligned (p alignment : Z) : bool := p mod alignment =? 0.

(** Modelled from the spec: [_mi_clamp] of [internal.h]. *)
Definition _mi_clamp (sz lo hi : Z) : Z :=
  if sz <? lo then lo else if hi <? sz then hi else sz.

(** Modelled from the spec: [mi_mul_overflow(count, size, &total)] of
    [internal.h]: the flag tells that [count * size] does not fit in a
    [size_t]; [total] is the wrapped product. *)
Definition mi_mul_overflow (count size : Z) : bool * Z :=
  (2 ^ MI_SIZE_BITS cfg <=? count * size, wrap (count * size)).

(* As in the appendix of arena.c:
     mi_block_count_of_size(size) = _mi_divide_up(size, MI_ARENA_BLOCK_SIZE)
     mi_size_of_blocks(bcount)    = bcount * MI_ARENA_BLOCK_SIZE *)
Definition mi_block_count_of_size (size : Z) : Z :=
  _mi_divide_up size (MI_ARENA_BLOCK_SIZE cfg).

Definition mi_size_of_blocks (bcount : Z) : Z :=
  wrap (bcount * MI_ARENA_BLOCK_SIZE cfg).

(* size_t mi_arena_id_index(mi_arena_id_t id) *)
Definition mi_arena_id_index (id : Z) : Z :=
  if id <=? 0 then MI_MAX_ARENAS else id - 1.

(* static mi_arena_id_t mi_arena_id_create(size_t arena_index) *)
Definition mi_arena_id_create (arena_index : Z) : Z := arena_index + 1.

Definition _mi_arena_id_none : Z := 0.

Definition mi_arena_id_is_suitable (arena_id : Z) (arena_is_exclusive : bool)
  (req_arena_id : Z) : bool :=
  (negb arena_is_exclusive && (req_arena_id =? _mi_arena_id_none))
  || (arena_id =? req_arena_id).

(* mi_arena_t* mi_arena_from_index(size_t idx); [None] is NULL *)
Definition mi_arena_from_index (idx : Z) (s : mi_state) : option mi_arena_t :=
  mi_arenas s !! idx.

(* void* mi_arena_block_start(mi_arena_t* arena, size_t block_index) *)
Definition mi_arena_block_start (arena : mi_arena_t) (block_index : Z) : Z :=
  arena_start arena + mi_size_of_blocks block_index.

(* returns [is_exclusive], [*arena_index] and [*block_index] *)
Definition mi_arena_memid_indices (memid : mi_memid_t) : bool * Z * Z :=
  (mem_arena_is_exclusive memid,
   mi_arena_id_index (mem_arena_id memid),
   mem_arena_block_index memid).

(* static size_t mi_arena_info_blocks(void) *)
Definition mi_arena_info_blocks : Z :=
  let os_page_size := _mi_os_page_size cfg in
  let info_size :=
    wrap (_mi_align_up (sizeof_mi_arena_t cfg) os_page_size + os_page_size) in
  mi_block_count_of_size info_size.

Context (os : mi_os).

(** *** Arena allocation *)

(* static void* mi_arena_try_alloc_at(arena, arena_index, needed_bcount,
     commit, tseq, memid, tld); the arena is the one in slot
   [arena_index], and its updated descriptor is written back there. *)
Definition mi_arena_try_alloc_at (arena : mi_arena_t)
  (arena_index needed_bcount : Z) (commit : bool) (tseq : Z) (s : mi_state)
  : option (Z * mi_memid_t) * mi_state :=
  match mi_bitmap_try_find_and_clearN cfg (blocks_free arena) tseq needed_bcount with
  | None => (None, s)
  | Some (bfree, block_index) =>
      (* claimed it! *)
      let arena := set_blocks_free arena bfree in
      let p := mi_arena_block_start arena block_index in
      let memid :=
        mi_memid_create_arena (arena_ident arena) (exclusive arena) block_index in
      let memid := set_is_pinned memid (is_pinned (arena_memid arena)) in
      (* set the dirty bits *)
      let '(arena, memid) :=
        if initially_zero (arena_memid arena) then
          let '(dirty, all_clear, _) :=
            mi_bitmap_xsetN MI_BIT_SET (blocks_dirty arena) block_index needed_bcount in
          (set_blocks_dirty arena dirty, set_initially_zero memid all_clear)
        else (arena, memid) in
      (* set commit state *)
      if commit then
        let memid := set_initially_committed memid true in
        let '(committed, _, all_already_committed) :=
          mi_bitmap_xsetN MI_BIT_SET (blocks_committed arena) block_index needed_bcount in
        let arena := set_blocks_committed arena committed in
        if negb all_already_committed then
          let size := mi_size_of_blocks needed_bcount in
          let '(ok, commit_zero) := _mi_os_commit os (trace s) p size in
          let s := emit (EvOsCommit p size) s in
          let memid :=
            if negb ok then set_initially_committed memid false
            else if commit_zero then set_initially_zero memid true else memid in
          (Some (p, memid), store_arena arena_index arena s)
        else (Some (p, memid), store_arena arena_index arena s)
      else
        let memid :=
          set_initially_committed memid
            (mi_bitmap_is_xsetN MI_BIT_SET (blocks_committed arena)
               block_index needed_bcount) in
        (Some (p, memid), store_arena arena_index arena s)
  end.

(* static void* mi_arena_try_alloc_at_id(arena_id, match_numa_node,
     numa_node, size, alignment, commit, allow_large, req_arena_id, tseq,
     memid, tld) *)
Definition mi_arena_try_alloc_at_id (arena_id : Z) (match_numa_node : bool)
  (numa_node size alignment : Z) (commit allow_large : bool)
  (req_arena_id tseq : Z) (s : mi_state) : option (Z * mi_memid_t) * mi_state :=
  if MI_ARENA_BLOCK_ALIGN cfg <? alignment then (None, s)
  else
    let bcount := mi_block_count_of_size size in
    let arena_index := mi_arena_id_index arena_id in
    match mi_arena_from_index arena_index s with
    | None => (None, s)
    | Some arena =>
        if negb allow_large && is_large arena then (None, s)
        else if negb (mi_arena_id_is_suitable (arena_ident arena) (exclusive arena)
                        req_arena_id) then (None, s)
        else
          let numa_suitable :=
            (numa_node <? 0) || (arena_numa_node arena <? 0)
            || (arena_numa_node arena =? numa_node) in
          if (req_arena_id =? _mi_arena_id_none)
             && (if match_numa_node then negb numa_suitable else numa_suitable)
          then (None, s)
          else mi_arena_try_alloc_at arena arena_index bcount commit tseq s
    end.

(** One [for (size_t i = 0; i < max_arena; i++)] loop of
    [mi_arena_try_alloc]: [k] slots are tried, from [i] on. *)
Fixpoint mi_arena_try_alloc_loop (match_numa_node : bool)
  (numa_node size alignment : Z) (commit allow_large : bool)
  (req_arena_id tseq : Z) (k : nat) (i : Z) (s : mi_state)
  : option (Z * mi_memid_t) * mi_state :=
  match k with
  | O => (None, s)
  | S k' =>
      match mi_arena_try_alloc_at_id (mi_arena_id_create i) match_numa_node
              numa_node size alignment commit allow_large req_arena_id tseq s with
      | (Some r, s') => (Some r, s')
      | (None, s') =>
          mi_arena_try_alloc_loop match_numa_node numa_node size alignment
            commit allow_large req_arena_id tseq k' (i + 1) s'
      end
  end.

(* static void* mi_arena_try_alloc(numa_node, size, alignment, commit,
     allow_large, req_arena_id, tseq, memid, tld) *)
Definition mi_arena_try_alloc (numa_node size alignment : Z)
  (commit allow_large : bool) (req_arena_id tseq : Z) (s : mi_state)
  : option (Z * mi_memid_t) * mi_state :=
  if MI_ARENA_BLOCK_ALIGN cfg <? alignment then (None, s)
  else
    let max_arena := mi_arena_count s in
    if max_arena =? 0 then (None, s)
    else if negb (req_arena_id =? _mi_arena_id_none) then
      (* try a specific arena if requested *)
      if mi_arena_id_index req_arena_id <? max_arena then
        mi_arena_try_alloc_at_id req_arena_id true numa_node size alignment
          commit allow_large req_arena_id tseq s
      else (None, s)
    else
      (* try numa affine allocation *)
      match mi_arena_try_alloc_loop true numa_node size alignment commit
              allow_large req_arena_id tseq (Z.to_nat max_arena) 0 s with
      | (Some r, s') => (Some r, s')
      | (None, s') =>
          (* try from another numa node instead.. *)
          if 0 <=? numa_node then
            mi_arena_try_alloc_loop false numa_node size alignment commit
              allow_large req_arena_id tseq (Z.to_nat max_arena) 0 s'
          else (None, s')
      end.

(** *** Adding an arena *)

(* static bool mi_arena_add(arena, arena_id, stats); the result carries
   the value left in [*arena_id]. *)
Definition mi_arena_add (arena : mi_arena_t) (s : mi_state) : bool * Z * mi_state :=
  let i := mi_arena_count s in
  let s := set_arena_count (i + 1) s in
  if MI_MAX_ARENAS <=? i then (false, -1, set_arena_count i s)
  else
    let s := emit (EvStatArenaCount 1) s in
    let arena := set_arena_id arena (mi_arena_id_create i) in
    (true, arena_ident arena, store_arena i arena s).

(* static bool mi_manage_os_memory_ex2(start, size, is_large, numa_node,
     exclusive, memid, arena_id); [aid] is the value [*arena_id] holds on
   entry, the result carries the value it holds on return.
   The source writes the descriptor in place at [start]; the value built
   here is what that memory holds afterwards.  If [start] is the start of
   an arena that is registered already, the source thereby rewrites the
   descriptor the older slot points to as well, which the value in the
   older slot does not show: see [store_arena]. *)
Definition mi_manage_os_memory_ex2 (start size : Z) (is_large : bool)
  (numa_node : Z) (exclusive : bool) (memid : mi_memid_t) (aid : Z)
  (s : mi_state) : bool * Z * mi_state :=
  if start =? 0 then (false, aid, s)
  else if negb (_mi_is_aligned start (MI_ARENA_BLOCK_SIZE cfg)) then
    (false, aid,
     emit (EvWarning "cannot use OS memory since it is not aligned") s)
  else
    let aid := _mi_arena_id_none in
    let info_blocks := mi_arena_info_blocks in
    let bcount := size / MI_ARENA_BLOCK_SIZE cfg in   (* divide down *)
    if bcount <? info_blocks + 1 then
      (false, aid,
       emit (EvWarning "cannot use OS memory since it is not large enough") s)
    else if MI_BITMAP_MAX_BITS cfg <? bcount then
      (false, aid,
       emit (EvWarning "cannot use OS memory since it is too large") s)
    else
      (* commit & zero if needed *)
      let s :=
        if negb (initially_committed memid)
        then emit (EvOsCommit start (mi_size_of_blocks info_blocks)) s
        else s in
      (* init, and reserve our meta info *)
      let arena :=
        {| arena_start := start;
           arena_memid := memid;
           arena_ident := _mi_arena_id_none;
           block_count := bcount;
           arena_numa_node := numa_node;
           exclusive := exclusive;
           is_large := is_large;
           purge_expire := 0;
           blocks_free :=
             mi_bitmap_unsafe_xsetN MI_BIT_SET mi_bitmap_init
               info_blocks (bcount - info_blocks);
           blocks_committed :=
             if initially_committed memid
             then mi_bitmap_unsafe_xsetN MI_BIT_SET mi_bitmap_init 0 bcount
             else fst (fst (mi_bitmap_xsetN MI_BIT_SET mi_bitmap_init 0 info_blocks));
           blocks_purge := mi_bitmap_init;
           blocks_dirty :=
             fst (fst (mi_bitmap_xsetN MI_BIT_SET mi_bitmap_init 0 info_blocks)) |} in
      mi_arena_add arena s.

(* bool mi_manage_os_memory_ex(start, size, is_committed, is_large,
     is_zero, numa_node, exclusive, arena_id) *)
Definition mi_manage_os_memory_ex (start size : Z)
  (is_committed is_large is_zero : bool) (numa_node : Z) (exclusive : bool)
  (aid : Z) (s : mi_state) : bool * Z * mi_state :=
  let memid := _mi_memid_create MI_MEM_EXTERNAL in
  let memid := set_initially_committed memid is_committed in
  let memid := set_initially_zero memid is_zero in
  let memid := set_is_pinned memid is_large in
  mi_manage_os_memory_ex2 start size is_large numa_node exclusive memid aid s.

(* int mi_reserve_os_memory_ex(size, commit, allow_large, exclusive, arena_id) *)
Definition mi_reserve_os_memory_ex (size : Z) (commit allow_large exclusive : bool)
  (s : mi_state) : Z * Z * mi_state :=
  let aid := _mi_arena_id_none in
  let size := _mi_align_up size (MI_ARENA_BLOCK_SIZE cfg) in  (* at least one block *)
  let '(start, memid) :=
    _mi_os_alloc_aligned os (trace s) size (MI_ARENA_BLOCK_ALIGN cfg)
      commit allow_large in
  let s := emit (EvOsAllocAligned size (MI_ARENA_BLOCK_ALIGN cfg) commit allow_large) s in
  if start =? 0 then (ENOMEM, aid, s)
  else
    let is_large := is_pinned memid in
    match mi_manage_os_memory_ex2 start size is_large (-1) exclusive memid aid s with
    | (false, aid, s) => (ENOMEM, aid, emit (EvOsFree start size) s)
    | (true, aid, s) => (0, aid, s)
    end.

(** Lines 291-313 of [mi_arena_reserve]: the size of the next arena,
    from the arena count and the (non-zero) [arena_reserve] option. *)
Definition mi_arena_reserve_size (arena_count arena_reserve : Z) : Z :=
  let arena_reserve :=
    if negb (_mi_os_has_virtual_reserve os) then arena_reserve / 4
    else arena_reserve in
  let arena_reserve := _mi_align_up arena_reserve (MI_ARENA_BLOCK_SIZE cfg) in
  let arena_reserve :=
    if (8 <=? arena_count) && (arena_count <=? 128) then
      (* scale up the arena sizes exponentially every 8 entries *)
      let multiplier := Z.shiftl 1 (_mi_clamp (arena_count / 8) 0 16) in
      let '(overflow, reserve) := mi_mul_overflow multiplier arena_reserve in
      if negb overflow then reserve else arena_reserve
    else arena_reserve in
  (* check arena bounds *)
  let min_reserve := mi_size_of_blocks (mi_arena_info_blocks + 1) in
  let max_reserve := wrap (MI_BITMAP_MAX_BITS cfg * MI_ARENA_BLOCK_SIZE cfg) in
  if arena_reserve <? min_reserve then min_reserve
  else if max_reserve <? arena_reserve then max_reserve
  else arena_reserve.

(* static bool mi_arena_reserve(req_size, allow_large, req_arena_id,
     arena_id); the caller's [*arena_id] is 0 on entry. *)
Definition mi_arena_reserve (req_size : Z) (allow_large : bool)
  (req_arena_id : Z) (s : mi_state) : bool * Z * mi_state :=
  if _mi_preloading os then (false, 0, s)
  else if negb (req_arena_id =? _mi_arena_id_none) then (false, 0, s)
  else
    let arena_count := mi_arena_count s in
    if MI_MAX_ARENAS - 4 <? arena_count then (false, 0, s)
    else
      let arena_reserve := mi_option_arena_reserve os in
      if arena_reserve =? 0 then (false, 0, s)
      else
        let arena_reserve := mi_arena_reserve_size arena_count arena_reserve in
        if arena_reserve <? req_size then (false, 0, s)
        else
          (* commit eagerly? *)
          let arena_commit :=
            if mi_option_arena_eager_commit os =? 2 then _mi_os_has_overcommit os
            else if mi_option_arena_eager_commit os =? 1 then true
            else false in
          let '(err, aid, s) :=
            mi_reserve_os_memory_ex arena_reserve arena_commit allow_large false s in
          (err =? 0, aid, s).

(** The tail of [_mi_arena_alloc_aligned]: no arena served the request. *)
Definition mi_arena_alloc_fallback (size alignment align_offset : Z)
  (commit allow_large : bool) (req_arena_id : Z) (s : mi_state)
  : (Z * mi_memid_t) * mi_state :=
  (* if we cannot use OS allocation, return NULL *)
  if mi_option_disallow_os_alloc os || negb (req_arena_id =? _mi_arena_id_none)
  then ((0, _mi_memid_none), set_errno ENOMEM s)
  (* finally, fall back to the OS *)
  else if 0 <? align_offset then
    (_mi_os_alloc_aligned_at_offset os (trace s) size alignment align_offset
       commit allow_large,
     emit (EvOsAllocAlignedAtOffset size alignment align_offset commit allow_large) s)
  else
    (_mi_os_alloc_aligned os (trace s) size alignment commit allow_large,
     emit (EvOsAllocAligned size alignment commit allow_large) s).

(* void* _mi_arena_alloc_aligned(size, alignment, align_offset, commit,
     allow_large, req_arena_id, memid, tld); the result is the pointer
   (0 is NULL) and [*memid]. *)
Definition _mi_arena_alloc_aligned (size alignment align_offset : Z)
  (commit allow_large : bool) (req_arena_id : Z) (s : mi_state)
  : (Z * mi_memid_t) * mi_state :=
  let tseq := _mi_thread_seq_id os in
  let numa_node := _mi_os_numa_node os in   (* current numa node *)
  if (negb (mi_option_disallow_arena_alloc os)
      || negb (req_arena_id =? _mi_arena_id_none))
     && ((MI_ARENA_MIN_OBJ_SIZE cfg <=? size)
         && (size <=? MI_ARENA_MAX_OBJ_SIZE cfg)
         && (alignment <=? MI_ARENA_BLOCK_ALIGN cfg)
         && (align_offset =? 0))
  then
    match mi_arena_try_alloc numa_node size alignment commit allow_large
            req_arena_id tseq s with
    | (Some r, s) => (r, s)
    | (None, s) =>
        (* otherwise, try to first eagerly reserve a new arena *)
        let '(r, s) :=
          if req_arena_id =? _mi_arena_id_none then
            match mi_arena_reserve size allow_large req_arena_id s with
            | (true, arena_id, s) =>
                (* and try allocate in there *)
                mi_arena_try_alloc_at_id arena_id true numa_node size alignment
                  commit allow_large req_arena_id tseq s
            | (false, _, s) => (None, s)
            end
          else (None, s) in
        match r with
        | Some r => (r, s)
        | None =>
            mi_arena_alloc_fallback size alignment align_offset commit
              allow_large req_arena_id s
        end
    end
  else
    mi_arena_alloc_fallback size alignment align_offset commit allow_large
      req_arena_id s.

(* void* _mi_arena_alloc(size, commit, allow_large, req_arena_id, memid, tld) *)
Definition _mi_arena_alloc (size : Z) (commit allow_large : bool)
  (req_arena_id : Z) (s : mi_state) : (Z * mi_memid_t) * mi_state :=
  _mi_arena_alloc_aligned size (MI_ARENA_BLOCK_SIZE cfg) 0 commit allow_large
    req_arena_id s.

(** *** Arena purge *)

(** The product of two [long]s, in [long]: it wraps around, here at the
    64 bits of the LP64 platforms. *)
Definition to_long (x : Z) : Z := (x + 2 ^ 63) mod 2 ^ 64 - 2 ^ 63.

(* static long mi_arena_purge_delay(void)
   <0 = no purging allowed, 0 = immediate purging, >0 = milli-second delay *)
Definition mi_arena_purge_delay : Z :=
  to_long (mi_option_purge_delay os * mi_option_arena_purge_mult os).

(* static void mi_arena_purge(arena, block_idx, blocks, stats).
   The two clearing calls pass [blocks, block_idx] in this order, as the
   source does. *)
Definition mi_arena_purge (arena : mi_arena_t) (block_idx blocks : Z)
  (s : mi_state) : mi_arena_t * mi_state :=
  let size := mi_size_of_blocks blocks in
  let p := mi_arena_block_start arena block_idx in
  let '(needs_recommit, s) :=
    if mi_bitmap_is_xsetN MI_BIT_SET (blocks_committed arena) block_idx blocks then
      (* all blocks are committed, we can purge freely *)
      (_mi_os_purge os (trace s) p size, emit (EvOsPurge p size) s)
    else
      (* some blocks are not committed *)
      let needs_recommit := _mi_os_purge_ex os (trace s) p size false in
      let s := emit (EvOsPurgeEx p size false) s in
      (needs_recommit,
       if needs_recommit then emit (EvStatCommitted size) s else s) in
  (* clear the purged blocks *)
  let arena :=
    set_blocks_purge arena
      (fst (fst (mi_bitmap_xsetN MI_BIT_CLEAR (blocks_purge arena) blocks block_idx))) in
  (* update committed bitmap *)
  let arena :=
    if needs_recommit then
      set_blocks_committed arena
        (fst (fst (mi_bitmap_xsetN MI_BIT_CLEAR (blocks_committed arena)
                     blocks block_idx)))
    else arena in
  (arena, s).

(* static void mi_arena_schedule_purge(arena, block_idx, blocks, stats) *)
Definition mi_arena_schedule_purge (arena : mi_arena_t) (block_idx blocks : Z)
  (s : mi_state) : mi_arena_t * mi_state :=
  let delay := mi_arena_purge_delay in
  if delay <? 0 then (arena, s)   (* is purging allowed at all? *)
  else if _mi_preloading os || (delay =? 0) then
    (* decommit directly *)
    mi_arena_purge arena block_idx blocks s
  else
    (* schedule decommit *)
    (arena, emit (EvError EFAULT "purging not yet implemented") s).

(* static void mi_arenas_try_purge(force, visit_all, stats) *)
Definition mi_arenas_try_purge (force visit_all : bool) (s : mi_state) : mi_state :=
  if _mi_preloading os || (mi_arena_purge_delay <=? 0) then s
  else
    let max_arena := mi_arena_count s in
    if max_arena =? 0 then s
    else emit (EvError EFAULT "purging not yet implemented") s.

(* void _mi_arenas_collect(bool force_purge, mi_stats_t* stats) *)
Definition _mi_arenas_collect (force_purge : bool) (s : mi_state) : mi_state :=
  mi_arenas_try_purge force_purge force_purge s.

(** *** Arena free *)

(* void _mi_arena_free(p, size, committed_size, memid, stats).  The
   descriptor, changed in place by the source, is written back to its
   slot before the double-free check returns.  The call that clears the
   committed bits passes [blocks, block_idx] in this order, as line 429
   of the source does; the call that sets the free bits passes
   [block_idx, blocks], as line 445 does. *)
Definition _mi_arena_free (p size committed_size : Z) (memid : mi_memid_t)
  (s : mi_state) : mi_state :=
  if p =? 0 then s
  else if size =? 0 then s
  else
    let all_committed := committed_size =? size in
    if mi_memkind_is_os (memkind memid) then
      (* was a direct OS allocation, pass through *)
      let s :=
        if negb all_committed && (0 <? committed_size)
        then emit (EvStatCommitted (- committed_size)) s else s in
      let s := emit (EvOsFree p size) s in
      mi_arenas_try_purge false false s
    else
      match memkind memid with
      | MI_MEM_ARENA =>
          (* allocated in an arena *)
          let '(_, arena_idx, block_idx) := mi_arena_memid_indices memid in
          let blocks := mi_block_count_of_size size in
          match mi_arenas s !! arena_idx with
          | None =>
              emit (EvError EINVAL "trying to free from an invalid arena") s
          | Some arena =>
              if (block_idx <=? mi_arena_info_blocks)
                 || (block_count arena <? block_idx) then
                emit (EvError EINVAL "trying to free from an invalid arena block") s
              else
                (* potentially decommit *)
                let '(arena, s) :=
                  if is_pinned (arena_memid arena)
                     || initially_committed (arena_memid arena)
                  then (arena, s)
                  else
                    let '(arena, s) :=
                      if negb all_committed then
                        (* mark the entire range as no longer committed *)
                        (set_blocks_committed arena
                           (fst (fst (mi_bitmap_xsetN MI_BIT_CLEAR
                                        (blocks_committed arena) blocks block_idx))),
                         if 0 <? committed_size
                         then emit (EvStatCommitted (- committed_size)) s else s)
                      else (arena, s) in
                    (* (delay) purge the entire range *)
                    mi_arena_schedule_purge arena block_idx blocks s in
                (* and make it available to others again *)
                let '(bfree, all_inuse, _) :=
                  mi_bitmap_xsetN MI_BIT_SET (blocks_free arena) block_idx blocks in
                let s := store_arena arena_idx (set_blocks_free arena bfree) s in
                if negb all_inuse then
                  emit (EvError EAGAIN "trying to free an already freed arena block") s
                else
                  (* purge expired decommits *)
                  mi_arenas_try_purge false false s
          end
      | _ =>
          (* arena was none, external, or static; nothing to do *)
          mi_arenas_try_purge false false s
      end.

(** *** Reserve a huge page arena *)

(* (int)x for a [size_t] x *)
Definition to_int (x : Z) : Z := (x + 2 ^ 31) mod 2 ^ 32 - 2 ^ 31.

(** Lines 703-704 of [mi_reserve_huge_os_pages_at_ex]: the node that is
    asked of the OS. *)
Definition mi_huge_numa_node (numa_node : Z) : Z :=
  let numa_node := if numa_node <? -1 then -1 else numa_node in
  if 0 <=? numa_node then Z.rem numa_node (_mi_os_numa_node_count os)
  else numa_node.

(* int mi_reserve_huge_os_pages_at_ex(pages, numa_node, timeout_msecs,
     exclusive, arena_id) *)
Definition mi_reserve_huge_os_pages_at_ex (pages numa_node timeout_msecs : Z)
  (exclusive : bool) (s : mi_state) : Z * Z * mi_state :=
  let aid := -1 in
  if pages =? 0 then (0, aid, s)
  else
    let numa_node := mi_huge_numa_node numa_node in
    let '(p, pages_reserved, hsize, memid) :=
      _mi_os_alloc_huge_os_pages os (trace s) pages numa_node timeout_msecs in
    let s := emit (EvOsAllocHuge pages numa_node timeout_msecs) s in
    if (p =? 0) || (pages_reserved =? 0) then
      (ENOMEM, aid, emit (EvWarning "failed to reserve huge pages") s)
    else
      match mi_manage_os_memory_ex2 p hsize true numa_node exclusive memid aid s with
      | (false, aid, s) => (ENOMEM, aid, emit (EvOsFree p hsize) s)
      | (true, aid, s) => (0, aid, s)
      end.

(* int mi_reserve_huge_os_pages_at(pages, numa_node, timeout_msecs) *)
Definition mi_reserve_huge_os_pages_at (pages numa_node timeout_msecs : Z)
  (s : mi_state) : Z * mi_state :=
  let '(err, _, s) :=
    mi_reserve_huge_os_pages_at_ex pages numa_node timeout_msecs false s in
  (err, s).

(** The loop of [mi_reserve_huge_os_pages_interleave]
    [for (numa_node = 0; numa_node < numa_count && pages > 0; numa_node++)],
    with at most [k] rounds left. *)
Fixpoint mi_reserve_huge_interleave_loop (numa_count pages_per pages_mod
  timeout_per : Z) (k : nat) (numa_node pages : Z) (s : mi_state)
  : Z * mi_state :=
  match k with
  | O => (0, s)
  | S k' =>
      if (numa_node <? numa_count) && (0 <? pages) then
        let node_pages := pages_per in   (* can be 0 *)
        let node_pages :=
          if numa_node <? pages_mod then node_pages + 1 else node_pages in
        let '(err, s) :=
          mi_reserve_huge_os_pages_at node_pages (to_int numa_node) timeout_per s in
        if negb (err =? 0) then (err, s)
        else
          let pages := if pages <? node_pages then 0 else pages - node_pages in
          mi_reserve_huge_interleave_loop numa_count pages_per pages_mod
            timeout_per k' (numa_node + 1) pages s
      else (0, s)
  end.

(* int mi_reserve_huge_os_pages_interleave(pages, numa_nodes, timeout_msecs) *)
Definition mi_reserve_huge_os_pages_interleave (pages numa_nodes timeout_msecs : Z)
  (s : mi_state) : Z * mi_state :=
  if pages =? 0 then (0, s)
  else
    (* pages per numa node *)
    let numa_count :=
      if 0 <? numa_nodes then numa_nodes else _mi_os_numa_node_count os in
    let numa_count := if numa_count <=? 0 then 1 else numa_count in
    let pages_per := pages / numa_count in
    let pages_mod := pages mod numa_count in
    let timeout_per :=
      if timeout_msecs =? 0 then 0 else timeout_msecs / numa_count + 50 in
    (* reserve evenly among numa nodes *)
    mi_reserve_huge_interleave_loop numa_count pages_per pages_mod timeout_per
      (Z.to_nat numa_count) 0 pages s.
End Arena.

(** ** Sequences of operations

    The entry points of the arena layer as one datatype; each call comes
    with the environment it runs in (the calling thread, the options and
    the OS as they are at that moment). *)
Inductive arena_op :=
| OpAllocAligned (size alignment align_offset : Z) (commit allow_large : bool)
    (req_arena_id : Z)
| OpFree (p size committed_size : Z) (memid : mi_memid_t)
| OpCollect (force_purge : bool)
| OpReserveOsMemory (size : Z) (commit allow_large exclusive : bool)
| OpManageOsMemory (start size : Z) (is_committed is_large is_zero : bool)
    (numa_node : Z) (exclusive : bool)
| OpReserveHugeAt (pages numa_node timeout_msecs : Z) (exclusive : bool)
| OpReserveHugeInterleave (pages numa_nodes timeout_msecs : Z).

Definition run_op (cfg : mi_config) (os : mi_os) (op : arena_op) (s : mi_state)
  : mi_state :=
  match op with
  | OpAllocAligned size alignment align_offset commit allow_large req_arena_id =>
      snd (_mi_arena_alloc_aligned cfg os size alignment align_offset commit
             allow_large req_arena_id s)
  | OpFree p size committed_size memid =>
      _mi_arena_free cfg os p size committed_size memid s
  | OpCollect force_purge => _mi_arenas_collect os force_purge s
  | OpReserveOsMemory size commit allow_large exclusive =>
      snd (mi_reserve_os_memory_ex cfg os size commit allow_large exclusive s)
  | OpManageOsMemory start size is_committed is_large is_zero numa_node exclusive =>
      snd (mi_manage_os_memory_ex cfg start size is_committed is_large is_zero
             numa_node exclusive 0 s)
  | OpReserveHugeAt pages numa_node timeout_msecs exclusive =>
      snd (mi_reserve_huge_os_pages_at_ex cfg os pages numa_node timeout_msecs
             exclusive s)
  | OpReserveHugeInterleave pages numa_nodes timeout_msecs =>
      snd (mi_reserve_huge_os_pages_interleave cfg os pages numa_nodes
             timeout_msecs s)
  end.

Fixpoint run_ops (cfg : mi_config) (ops : list (mi_os * arena_op)) (s : mi_state)
  : mi_state :=
  match ops with
  | [] => s
  | (os, op) :: ops => run_ops cfg ops (run_op cfg os op s)
  end.

(** ** Properties the statements below are phrased with *)

(** No block of the descriptor prefix [0, info_blocks) is marked free. *)
Definition prefix_not_free (cfg : mi_config) (a : mi_arena_t) : Prop :=
  forall i, 0 <= i < mi_arena_info_blocks cfg -> Z.testbit (blocks_free a) i = false.

Definition registry_prefix_not_free (cfg : mi_config) (s : mi_state) : Prop :=
  forall idx a, mi_arenas s !! idx = Some a -> prefix_not_free cfg a.

(** The admission filter of [_mi_arena_alloc_aligned], in the words of the
    specification. *)
Definition arena_admissible (cfg : mi_config) (os : mi_os)
  (size alignment align_offset req_arena_id : Z) : Prop :=
  (mi_option_disallow_arena_alloc os = false \/ req_arena_id <> 0)
  /\ MI_ARENA_MIN_OBJ_SIZE cfg <= size <= MI_ARENA_MAX_OBJ_SIZE cfg
  /\ alignment <= MI_ARENA_BLOCK_ALIGN cfg
  /\ align_offset = 0.

(** The request is handed to the OS layer: the OS allocation call that
    matches the request is the one event added to the trace, and its
    outcome is the result. *)
Definition delegated_to_os (os : mi_os) (size alignment align_offset : Z)
  (commit allow_large : bool) (s : mi_state) (r : (Z * mi_memid_t) * mi_state)
  : Prop :=
  if 0 <? align_offset then
    fst r = _mi_os_alloc_aligned_at_offset os (trace s) size alignment align_offset
              commit allow_large
    /\ trace (snd r)
       = trace s ++ [EvOsAllocAlignedAtOffset size alignment align_offset commit allow_large]
  else
    fst r = _mi_os_alloc_aligned os (trace s) size alignment commit allow_large
    /\ trace (snd r) = trace s ++ [EvOsAllocAligned size alignment commit allow_large].

(** The next arena size as the claim words it: the [arena_reserve]
    option (a quarter of it without virtual reserve) rounded up to whole
    blocks, times [2^clamp(arena_count/8, 0, 16)] exactly when
    [arena_count] is in [8, 128], clamped into [min_reserve, max_reserve]. *)
Definition claimed_next_arena_size (cfg : mi_config) (os : mi_os)
  (arena_count arena_reserve : Z) : Z :=
  let bs := MI_ARENA_BLOCK_SIZE cfg in
  let base := if _mi_os_has_virtual_reserve os then arena_reserve else arena_reserve / 4 in
  let base := (base + bs - 1) / bs * bs in
  let scaled :=
    if (8 <=? arena_count) && (arena_count <=? 128)
    then base * 2 ^ Z.max 0 (Z.min 16 (arena_count / 8))
    else base in
  let min_reserve := (mi_arena_info_blocks cfg + 1) * bs in
  let max_reserve := MI_BITMAP_MAX_BITS cfg * bs in
  Z.max min_reserve (Z.min max_reserve scaled).

(** The same rule with the proviso the code makes: the size is scaled
    only when the product fits in a [size_t]. *)
Definition spec_next_arena_size (cfg : mi_config) (os : mi_os)
  (arena_count arena_reserve : Z) : Z :=
  let bs := MI_ARENA_BLOCK_SIZE cfg in
  let base := if _mi_os_has_virtual_reserve os then arena_reserve else arena_reserve / 4 in
  let base := (base + bs - 1) / bs * bs in
  let product := base * 2 ^ Z.max 0 (Z.min 16 (arena_count / 8)) in
  let scaled :=
    if (8 <=? arena_count) && (arena_count <=? 128)
       && (product <? 2 ^ MI_SIZE_BITS cfg)
    then product
    else base in
  let min_reserve := (mi_arena_info_blocks cfg + 1) * bs in
  let max_reserve := MI_BITMAP_MAX_BITS cfg * bs in
  Z.max min_reserve (Z.min max_reserve scaled).

(** The huge-page requests made of the OS, as (pages, node), in order. *)
Definition huge_requests (tr : list event) : list (Z * Z) :=
  flat_map (fun e => match e with
                     | EvOsAllocHuge pages node _ => [(pages, node)]
                     | _ => []
                     end) tr.

(** The share of node [k] when [pages] are spread over [n] nodes:
    [pages / n], and one more for the first [pages mod n] nodes. *)
Definition node_share (pages n k : Z) : Z :=
  pages / n + (if k <? pages mod n then 1 else 0).

Definition sum_pages (l : list (Z * Z)) : Z := foldr (fun r acc => fst r + acc) 0 l.

(** The shares of the nodes [l], as (share, node index), given the quotient
    and the remainder; a node whose share is 0 is left out. *)
Definition share_of (per md k : Z) : Z := per + (if k <? md then 1 else 0).

Definition split_for (per md : Z) (l : list Z) : list (Z * Z) :=
  map (fun k => (share_of per md k, k)) (filter (fun k => 0 < share_of per md k) l).

Definition shares_sum (per md : Z) (l : list Z) : Z :=
  foldr (fun k acc => share_of per md k + acc) 0 l.

(** The node count [N] of an interleaved reservation: the one given, or
    the one the OS detects, and at least 1. *)
Definition interleave_numa_count (os : mi_os) (numa_nodes : Z) : Z :=
  let numa_count := if 0 <? numa_nodes then numa_nodes else _mi_os_numa_node_count os in
  if numa_count <=? 0 then 1 else numa_count.

(** The node that stands for node index [k]: node [k], counted modulo the
    number of nodes the OS reports. *)
Definition spec_node (os : mi_os) (k : Z) : Z := k mod _mi_os_numa_node_count os.

(** The split of [pages] over [n] nodes in the words of the
    specification, as (share, node index); a node whose share is 0 is
    left out. *)
Definition spec_interleave_split (pages n : Z) : list (Z * Z) :=
  map (fun k => (node_share pages n k, k))
      (filter (fun k => 0 < node_share pages n k) (seqZ 0 n)).

(** What the OS is asked for the shares [split]: (pages, node). *)
Definition spec_asks (os : mi_os) (split : list (Z * Z)) : list (Z * Z) :=
  map (fun q => (fst q, spec_node os (snd q))) split.

(** An interleaved reservation in the words of the specification: the
    shares are reserved node by node, each through
    [mi_reserve_huge_os_pages_at], as long as every earlier reservation
    succeeded; the first error is returned at once and no further node is
    asked. *)
Fixpoint spec_interleave (cfg : mi_config) (os : mi_os) (timeout_per : Z)
  (split : list (Z * Z)) (s : mi_state) : Z * mi_state :=
  match split with
  | [] => (0, s)
  | (node_pages, k) :: split =>
      let '(err, s') := mi_reserve_huge_os_pages_at cfg os node_pages k timeout_per s in
      if err =? 0 then spec_interleave cfg os timeout_per split s' else (err, s')
  end.

(** The events [s'] adds to the log of [s] hold no huge-page request. *)
Definition no_huge_request (s s' : mi_state) : Prop :=
  exists evs, trace s' = trace s ++ evs /\ huge_requests evs = [].

(** ** A concrete platform, for the examples

    A 64-bit platform with the literal values of the specification's
    scenarios: 4 MiB blocks, 4 KiB pages, and a descriptor that fits in
    one block. *)
Definition cfg64 : mi_config :=
  {| MI_SIZE_BITS := 64;
     MI_ARENA_BLOCK_SIZE := 4194304;
     MI_ARENA_BLOCK_ALIGN := 4194304;
     MI_ARENA_MIN_OBJ_SIZE := 4194304;
     MI_ARENA_MAX_OBJ_SIZE := 512 * 4194304;
     MI_BITMAP_CHUNK_BITS := 512;
     MI_BITMAP_CHUNK_COUNT := 64;
     sizeof_mi_arena_t := 320000;
     _mi_os_page_size := 4096 |}.

(** OS memory as the OS layer hands it out: committed as asked, zeroed,
    not pinned. *)
Definition os_memid (commit : bool) : mi_memid_t :=
  set_initially_zero (set_initially_committed (_mi_memid_create MI_MEM_OS) commit) true.

(** An environment whose OS calls all succeed; every OS allocation lands
    at a fresh 4 GiB boundary.  The option values are the arguments. *)
Definition os_ok (purge_delay arena_reserve : Z) (disallow_os_alloc : bool) : mi_os :=
  {| _mi_preloading := false;
     mi_option_purge_delay := purge_delay;
     mi_option_arena_purge_mult := 10;
     mi_option_arena_reserve := arena_reserve;
     mi_option_arena_eager_commit := 2;
     mi_option_disallow_arena_alloc := false;
     mi_option_disallow_os_alloc := disallow_os_alloc;
     _mi_os_has_virtual_reserve := true;
     _mi_os_has_overcommit := true;
     _mi_os_numa_node_count := 2;
     _mi_os_numa_node := 0;
     _mi_thread_seq_id := 0;
     _mi_os_commit := fun _ _ _ => (true, false);
     _mi_os_purge := fun _ _ _ => true;
     _mi_os_purge_ex := fun _ _ _ _ => true;
     _mi_os_alloc_aligned := fun tr _ _ commit _ =>
       (2 ^ 32 * (1 + Z.of_nat (length tr)), os_memid commit);
     _mi_os_alloc_aligned_at_offset := fun tr _ _ _ commit _ =>
       (2 ^ 32 * (1 + Z.of_nat (length tr)), os_memid commit);
     _mi_os_alloc_huge_os_pages := fun tr pages _ _ =>
       (2 ^ 32 * (1 + Z.of_nat (length tr)), pages, pages * 2 ^ 30,
        set_is_pinned (os_memid true) true) |}.

(** An environment whose OS refuses every allocation. *)
Definition os_fail : mi_os :=
  {| _mi_preloading := false;
     mi_option_purge_delay := 10;
     mi_option_arena_purge_mult := 10;
     mi_option_arena_reserve := 0;
     mi_option_arena_eager_commit := 0;
     mi_option_disallow_arena_alloc := false;
     mi_option_disallow_os_alloc := false;
     _mi_os_has_virtual_reserve := true;
     _mi_os_has_overcommit := true;
     _mi_os_numa_node_count := 2;
     _mi_os_numa_node := 0;
     _mi_thread_seq_id := 0;
     _mi_os_commit := fun _ _ _ => (false, false);
     _mi_os_purge := fun _ _ _ => false;
     _mi_os_purge_ex := fun _ _ _ _ => false;
     _mi_os_alloc_aligned := fun _ _ _ _ _ => (0, _mi_memid_none);
     _mi_os_alloc_aligned_at_offset := fun _ _ _ _ _ _ => (0, _mi_memid_none);
     _mi_os_alloc_huge_os_pages := fun _ _ _ _ => (0, 0, 0, _mi_memid_none) |}.

(** The state of a process that has not touched the arena layer yet. *)
Definition s_init : mi_state :=
  {| mi_arenas := ∅; mi_arena_count := 0; errno := 0; trace := [] |}.

(** [s_init] after [mi_reserve_os_memory(64 MiB, commit = false)]: one
    arena of 16 blocks in slot 0, blocks 1..15 free, nothing committed but
    the descriptor block. *)
Definition s_arena16 : mi_state :=
  snd (mi_reserve_os_memory_ex cfg64 (os_ok (-1) 0 false) (64 * 1048576) false false false s_init).

(** Purging disabled (effective delay -10), delayed (100 ms), immediate. *)
Definition os_nopurge : mi_os := os_ok (-1) 0 false.
Definition os_delayed : mi_os := os_ok 10 0 false.
Definition os_immediate : mi_os := os_ok 0 0 false.

Definition MiB : Z := 1048576.

(** Two allocations of 8 MiB (two blocks each), committed, from [s_arena16]. *)
Definition alloc1 : (Z * mi_memid_t) * mi_state :=
  _mi_arena_alloc cfg64 os_nopurge (8 * MiB) true false 0 s_arena16.
Definition alloc2 : (Z * mi_memid_t) * mi_state :=
  _mi_arena_alloc cfg64 os_nopurge (8 * MiB) true false 0 (snd alloc1).

(** [s'] differs from [s] by log entries only. *)
Definition log_only (s s' : mi_state) : Prop :=
  mi_arenas s' = mi_arenas s
  /\ mi_arena_count s' = mi_arena_count s
  /\ errno s' = errno s
  /\ exists evs, trace s' = trace s ++ evs.

(** [alloc2]'s range freed once, with purging disabled. *)
Definition s_freed2 : mi_state :=
  _mi_arena_free cfg64 os_nopurge (fst (fst alloc2)) (8 * MiB) (8 * MiB)
    (snd (fst alloc2)) (snd alloc2).

(** The same state, reached as a sequence of operations. *)
Definition ops_example : list (mi_os * arena_op) :=
  [(os_nopurge, OpReserveOsMemory (64 * MiB) false false false);
   (os_nopurge, OpAllocAligned (8 * MiB) (4 * MiB) 0 true false 0);
   (os_nopurge, OpAllocAligned (8 * MiB) (4 * MiB) 0 true false 0);
   (os_nopurge, OpFree (fst (fst alloc2)) (8 * MiB) (8 * MiB) (snd (fst alloc2)))].

(** Sixteen arenas of 64 MiB. *)
Definition s_16arenas : mi_state :=
  run_ops cfg64
    (replicate 16 (os_nopurge, OpReserveOsMemory (64 * MiB) false false false)) s_init.

(** 1 GiB of [arena_reserve], purging disabled, OS allocation allowed. *)
Definition os_reserve_1g : mi_os := os_ok (-1) (1024 * MiB) false.

(** OS allocation disallowed. *)
Definition os_no_os_alloc : mi_os := os_ok (-1) 0 true.

(** The descriptor in slot 0 of [s_freed2]. *)
Definition arena_freed2 : mi_arena_t :=
  {| arena_start := 4294967296;
     arena_memid := os_memid false;
     arena_ident := 1;
     block_count := 16;
     arena_numa_node := -1;
     exclusive := false;
     is_large := false;
     purge_expire := 0;
     blocks_free := 65528;
     blocks_committed := 31;
     blocks_purge := 0;
     blocks_dirty := 31 |}.

(** A 32-bit platform: 32 KiB blocks, bitmaps of 8192 bits, so arenas of
    at most 256 MiB; 128 MiB of [arena_reserve]. *)
Definition cfg32 : mi_config :=
  {| MI_SIZE_BITS := 32;
     MI_ARENA_BLOCK_SIZE := 32768;
     MI_ARENA_BLOCK_ALIGN := 32768;
     MI_ARENA_MIN_OBJ_SIZE := 32768;
     MI_ARENA_MAX_OBJ_SIZE := 256 * 32768;
     MI_BITMAP_CHUNK_BITS := 256;
     MI_BITMAP_CHUNK_COUNT := 32;
     sizeof_mi_arena_t := 81920;
     _mi_os_page_size := 4096 |}.

Definition os_reserve_128m : mi_os := os_ok (-1) (128 * MiB) false.

(** ** The rest of the arena layer

    The functions of [arena.c] that the statements above did not need. *)

Section ArenaRest.
Context (cfg : mi_config).

(* size_t mi_arena_get_count(void) *)
Definition mi_arena_get_count (s : mi_state) : Z := mi_arena_count s.

(* static uint8_t* mi_arena_start(mi_arena_t* arena): the descriptor's own
   address *)
Definition mi_arena_start (arena : mi_arena_t) : Z := arena_start arena.

(* static size_t mi_arena_size(mi_arena_t* arena) *)
Definition mi_arena_size (arena : mi_arena_t) : Z :=
  mi_size_of_blocks cfg (block_count arena).

(* bool _mi_arena_memid_is_suitable(mi_memid_t memid, mi_arena_id_t request_arena_id) *)
Definition _mi_arena_memid_is_suitable (memid : mi_memid_t) (request_arena_id : Z)
  : bool :=
  match memkind memid with
  | MI_MEM_ARENA =>
      mi_arena_id_is_suitable (mem_arena_id memid) (mem_arena_is_exclusive memid)
        request_arena_id
  | _ => mi_arena_id_is_suitable _mi_arena_id_none false request_arena_id
  end.

(* void* mi_arena_area(mi_arena_id_t arena_id, size_t* size): the result
   is the pointer (0 is NULL) and [*size]. *)
Definition mi_arena_area (arena_id : Z) (s : mi_state) : Z * Z :=
  let arena_index := mi_arena_id_index arena_id in
  if MI_MAX_ARENAS <=? arena_index then (0, 0)
  else
    match mi_arenas s !! arena_index with
    | None => (0, 0)
    | Some arena => (mi_arena_start arena, mi_size_of_blocks cfg (block_count arena))
    end.

(** The loop of [_mi_arena_contains]: [k] slots are looked at, from [i] on. *)
Fixpoint mi_arena_contains_loop (p : Z) (s : mi_state) (k : nat) (i : Z) : bool :=
  match k with
  | O => false
  | S k' =>
      match mi_arenas s !! i with
      | Some arena =>
          if (mi_arena_start arena <=? p)
             && (p <? mi_arena_start arena + mi_size_of_blocks cfg (block_count arena))
          then true
          else mi_arena_contains_loop p s k' (i + 1)
      | None => mi_arena_contains_loop p s k' (i + 1)
      end
  end.

(* bool _mi_arena_contains(const void* p) *)
Definition _mi_arena_contains (p : Z) (s : mi_state) : bool :=
  let max_arena := mi_arena_count s in
  mi_arena_contains_loop p s (Z.to_nat max_arena) 0.

(* mi_atomic_store_ptr_release(mi_arena_t, &mi_arenas[i], NULL) *)
Definition clear_arena (i : Z) (s : mi_state) : mi_state :=
  {| mi_arenas := delete i (mi_arenas s); mi_arena_count := mi_arena_count s;
     errno := errno s; trace := trace s |}.

(** The loop of [mi_arenas_unsafe_destroy]: an arena whose memory came from
    the OS is taken out of its slot and its memory is freed; [k] slots are
    visited, from [i] on. *)
Fixpoint mi_arenas_unsafe_destroy_loop (k : nat) (i : Z) (s : mi_state) : mi_state :=
  match k with
  | O => s
  | S k' =>
      let s :=
        match mi_arenas s !! i with
        | Some arena =>
            if mi_memkind_is_os (memkind (arena_memid arena)) then
              emit (EvOsFree (mi_arena_start arena) (mi_arena_size arena))
                (clear_arena i s)
            else s
        | None => s
        end in
      mi_arenas_unsafe_destroy_loop k' (i + 1) s
  end.

(* static void mi_arenas_unsafe_destroy(void); [new_max_arena] is 0, and
   the final compare-and-swap stores it if the count is still the one read
   at the start. *)
Definition mi_arenas_unsafe_destroy (s : mi_state) : mi_state :=
  let max_arena := mi_arena_count s in
  let new_max_arena := 0 in
  let s := mi_arenas_unsafe_destroy_loop (Z.to_nat max_arena) 0 s in
  (* try to lower the max arena. *)
  if mi_arena_count s =? max_arena then set_arena_count new_max_arena s else s.

Context (os : mi_os).

(* void _mi_arena_unsafe_destroy_all(mi_stats_t* stats) *)
Definition _mi_arena_unsafe_destroy_all (s : mi_state) : mi_state :=
  let s := mi_arenas_unsafe_destroy s in
  _mi_arenas_collect os true s.   (* purge non-owned arenas *)

(* bool mi_manage_os_memory(start, size, is_committed, is_large, is_zero, numa_node) *)
Definition mi_manage_os_memory (start size : Z) (is_committed is_large is_zero : bool)
  (numa_node : Z) (s : mi_state) : bool * mi_state :=
  let '(ok, _, s) :=
    mi_manage_os_memory_ex cfg start size is_committed is_large is_zero numa_node
      false 0 s in
  (ok, s).

(* int mi_reserve_os_memory(size_t size, bool commit, bool allow_large) *)
Definition mi_reserve_os_memory (size : Z) (commit allow_large : bool) (s : mi_state)
  : Z * mi_state :=
  let '(err, _, s) := mi_reserve_os_memory_ex cfg os size commit allow_large false s in
  (err, s).
End ArenaRest.

(** The entry points again, with the teardown. *)
Inductive arena_call :=
| CallOp (op : arena_op)
| CallDestroyAll.

Definition run_call (cfg : mi_config) (os : mi_os) (c : arena_call) (s : mi_state)
  : mi_state :=
  match c with
  | CallOp op => run_op cfg os op s
  | CallDestroyAll => _mi_arena_unsafe_destroy_all cfg os s
  end.

Fixpoint run_calls (cfg : mi_config) (calls : list (mi_os * arena_call)) (s : mi_state)
  : mi_state :=
  match calls with
  | [] => s
  | (os, c) :: calls => run_calls cfg calls (run_call cfg os c s)
  end.

(** ** More examples *)

(** One reservation of 64 MiB: the state is [s_arena16]. *)
Definition calls_reserve : list (mi_os * arena_call) :=
  [(os_nopurge, CallOp (OpReserveOsMemory (64 * MiB) false false false))].

(** A reservation, two allocations of 8 MiB and, under a purge delay of
    100 ms, the free of the second one. *)
Definition calls_example : list (mi_os * arena_call) :=
  [(os_nopurge, CallOp (OpReserveOsMemory (64 * MiB) false false false));
   (os_nopurge, CallOp (OpAllocAligned (8 * MiB) (4 * MiB) 0 true false 0));
   (os_nopurge, CallOp (OpAllocAligned (8 * MiB) (4 * MiB) 0 true false 0));
   (os_delayed,
    CallOp (OpFree (fst (fst alloc2)) (8 * MiB) (8 * MiB) (snd (fst alloc2))))].

(** The descriptor in slot 0 of [s_arena16]. *)
Definition arena16 : mi_arena_t :=
  {| arena_start := 4294967296;
     arena_memid := os_memid false;
     arena_ident := 1;
     block_count := 16;
     arena_numa_node := -1;
     exclusive := false;
     is_large := false;
     purge_expire := 0;
     blocks_free := 65534;
     blocks_committed := 1;
     blocks_purge := 0;
     blocks_dirty := 1 |}.

(** The memid of a committed claim at block [bi] of arena 1. *)
Definition memid_arena1 (bi : Z) (zero : bool) : mi_memid_t :=
  {| memkind := MI_MEM_ARENA; mem_arena_id := 1; mem_arena_block_index := bi;
     mem_arena_is_exclusive := false; is_pinned := false;
     initially_committed := true; initially_zero := zero |}.

(** The address of block [bi] of the arena of [s_arena16]. *)
Definition block_addr (bi : Z) : Z := 4294967296 + bi * 4194304.

(** Two claims of 8 MiB from [s_arena16], one after the other. *)
Definition try1 : option (Z * mi_memid_t) * mi_state :=
  mi_arena_try_alloc cfg64 os_nopurge 0 (8 * MiB) (4 * MiB) true false 0 0 s_arena16.
Definition try2 : option (Z * mi_memid_t) * mi_state :=
  mi_arena_try_alloc cfg64 os_nopurge 0 (8 * MiB) (4 * MiB) true false 0 0 (snd try1).



(** Two arenas on external memory: 64 MiB at 4 GiB on node 0 in slot 0,
    and 8 MiB at 8 GiB on node 1 in slot 1, which has one free block. *)
Definition s_numa : mi_state :=
  snd (mi_manage_os_memory_ex cfg64 (2 ^ 33) (8 * MiB) true false false 1 false 0
         (snd (mi_manage_os_memory_ex cfg64 (2 ^ 32) (64 * MiB) true false false 0
                 false 0 s_init))).

(** The descriptors in the slots of [s_numa]. *)
Definition arena_node0 : mi_arena_t :=
  {| arena_start := 4294967296;
     arena_memid :=
       set_initially_committed (_mi_memid_create MI_MEM_EXTERNAL) true;
     arena_ident := 1;
     block_count := 16;
     arena_numa_node := 0;
     exclusive := false;
     is_large := false;
     purge_expire := 0;
     blocks_free := 65534;
     blocks_committed := 65535;
     blocks_purge := 0;
     blocks_dirty := 1 |}.

Definition arena_node1 : mi_arena_t :=
  {| arena_start := 8589934592;
     arena_memid :=
       set_initially_committed (_mi_memid_create MI_MEM_EXTERNAL) true;
     arena_ident := 2;
     block_count := 2;
     arena_numa_node := 1;
     exclusive := false;
     is_large := false;
     purge_expire := 0;
     blocks_free := 2;
     blocks_committed := 3;
     blocks_purge := 0;
     blocks_dirty := 1 |}.

(** The memid of a claim at block 1 of arena 1 in [s_numa]. *)
Definition memid_node0 : mi_memid_t :=
  {| memkind := MI_MEM_ARENA; mem_arena_id := 1; mem_arena_block_index := 1;
     mem_arena_is_exclusive := false; is_pinned := false;
     initially_committed := true; initially_zero := false |}.

(** A claim of 8 MiB for node 1 from [s_numa], and the state after
    [calls_reserve2]. *)
Definition try_numa : option (Z * mi_memid_t) * mi_state :=
  mi_arena_try_alloc cfg64 os_nopurge 1 (8 * MiB) (4 * MiB) true false 0 0 s_numa.

(** ** More properties the statements are phrased with *)

(** [a'] is [a] after claims, frees and purges: the same descriptor but for
    its bitmaps, with no purge bit gained and no dirty bit lost. *)
Definition arena_evolves (a a' : mi_arena_t) : Prop :=
  arena_start a' = arena_start a
  /\ arena_memid a' = arena_memid a
  /\ arena_ident a' = arena_ident a
  /\ block_count a' = block_count a
  /\ arena_numa_node a' = arena_numa_node a
  /\ exclusive a' = exclusive a
  /\ is_large a' = is_large a
  /\ purge_expire a' = purge_expire a
  /\ (forall i, Z.testbit (blocks_purge a') i = true -> Z.testbit (blocks_purge a) i = true)
  /\ (forall i, Z.testbit (blocks_dirty a) i = true -> Z.testbit (blocks_dirty a') i = true).

(** No arena is added or removed, and each one evolves. *)
Definition registry_evolves (s s' : mi_state) : Prop :=
  mi_arena_count s' = mi_arena_count s
  /\ forall idx, option_Forall2 arena_evolves (mi_arenas s !! idx) (mi_arenas s' !! idx).

(** A well-formed descriptor in slot [idx]. *)
Definition arena_wf (cfg : mi_config) (idx : Z) (a : mi_arena_t) : Prop :=
  arena_ident a = mi_arena_id_create idx
  /\ purge_expire a = 0
  /\ blocks_purge a = 0
  /\ mi_arena_info_blocks cfg + 1 <= block_count a <= MI_BITMAP_MAX_BITS cfg
  /\ (forall i, 0 <= i < mi_arena_info_blocks cfg -> Z.testbit (blocks_dirty a) i = true).

Definition registry_wf (cfg : mi_config) (s : mi_state) : Prop :=
  0 <= mi_arena_count s <= MI_MAX_ARENAS
  /\ forall idx a, mi_arenas s !! idx = Some a ->
       0 <= idx < MI_MAX_ARENAS /\ arena_wf cfg idx a.

(** The free bits of [a] all lie below its block count. *)
Definition free_within_blocks (a : mi_arena_t) : Prop :=
  forall i, Z.testbit (blocks_free a) i = true -> 0 <= i < block_count a.

(** [arena'] is [arena] after a claim of [n] blocks at [bi]: the range was
    free before and is in use afterwards, every other free bit is as it
    was. *)
Definition claims_range (cfg : mi_config) (arena arena' : mi_arena_t) (bi n : Z)
  : Prop :=
  0 < n /\ 0 <= bi /\ bi + n <= MI_BITMAP_MAX_BITS cfg
  /\ mi_bitmap_is_xsetN MI_BIT_SET (blocks_free arena) bi n = true
  /\ blocks_free arena' = Z.ldiff (blocks_free arena) (mi_bits_mask bi n)
  /\ block_count arena' = block_count arena
  /\ arena_start arena' = arena_start arena.


(** Every arena's free bits lie below its block count. *)
Definition registry_free_within (s : mi_state) : Prop :=
  forall idx a, mi_arenas s !! idx = Some a -> free_within_blocks a.

(** The free blocks of [a] are exactly those from [info_blocks] up to its
    block count, as in an arena that was just set up. *)
Definition fresh_arena (cfg : mi_config) (a : mi_arena_t) : Prop :=
  forall i, Z.testbit (blocks_free a) i
            = (mi_arena_info_blocks cfg <=? i) && (i <? block_count a).

(** [s'] is [s] with at most one arena more, a fresh one in the slot at
    the arena count of [s]. *)
Definition registry_adds (cfg : mi_config) (s s' : mi_state) : Prop :=
  (mi_arenas s' = mi_arenas s /\ mi_arena_count s' = mi_arena_count s)
  \/ (exists a,
        mi_arenas s' = <[mi_arena_count s := a]> (mi_arenas s)
        /\ mi_arena_count s' = mi_arena_count s + 1
        /\ fresh_arena cfg a).

(** The range that a free of [size] bytes with [memid] gives back lies
    inside the arena that [memid] names. *)
Definition free_in_range (cfg : mi_config) (size : Z) (memid : mi_memid_t)
  (s : mi_state) : Prop :=
  forall arena,
    memkind memid = MI_MEM_ARENA ->
    mi_arenas s !! mi_arena_id_index (mem_arena_id memid) = Some arena ->
    mem_arena_block_index memid + mi_block_count_of_size cfg size <= block_count arena.

Definition call_in_range (cfg : mi_config) (c : arena_call) (s : mi_state) : Prop :=
  match c with
  | CallOp (OpFree p size committed_size memid) => free_in_range cfg size memid s
  | _ => True
  end.

(** Every free among [calls], run from [s], gives back a range inside its
    arena. *)
Fixpoint calls_in_range (cfg : mi_config) (calls : list (mi_os * arena_call))
  (s : mi_state) : Prop :=
  match calls with
  | [] => True
  | (os, c) :: calls =>
      call_in_range cfg c s /\ calls_in_range cfg calls (run_call cfg os c s)
  end.

(** Two descriptors, each [info_blocks] blocks from its arena's start,
    do not overlap. *)
Definition starts_apart (cfg : mi_config) (p q : Z) : Prop :=
  p <> q
  /\ (p + mi_size_of_blocks cfg (mi_arena_info_blocks cfg) <= q
      \/ q + mi_size_of_blocks cfg (mi_arena_info_blocks cfg) <= p).



(** What a request may be served from: the arena [a] that served [memid]
    at [p], under the request's constraints. *)
Definition placed_in (cfg : mi_config) (alignment : Z) (allow_large : bool)
  (req_arena_id : Z) (a : mi_arena_t) (p : Z) (memid : mi_memid_t) : Prop :=
  memkind memid = MI_MEM_ARENA
  /\ mem_arena_id memid = arena_ident a
  /\ mem_arena_is_exclusive memid = exclusive a
  /\ is_pinned memid = is_pinned (arena_memid a)
  /\ p = mi_arena_block_start cfg a (mem_arena_block_index memid)
  /\ alignment <= MI_ARENA_BLOCK_ALIGN cfg
  /\ mi_arena_id_is_suitable (arena_ident a) (exclusive a) req_arena_id = true
  /\ (allow_large = false -> is_large a = false).
(** ** Bitmap facts *)

Lemma mi_bits_mask_testbit (idx n i : Z) :
  0 <= idx -> 0 <= n ->
  Z.testbit (mi_bits_mask idx n) i = (idx <=? i) && (i <? idx + n).
Proof.
  intros Hidx Hn. unfold mi_bits_mask.
  destruct (Z.ltb_spec i 0) as [Hneg|Hpos].
  - rewrite Z.testbit_neg_r by lia.
    destruct (Z.leb_spec idx i); [lia|reflexivity].
  - rewrite Z.shiftl_spec by lia.
    destruct (Z.leb_spec idx i) as [Hle|Hlt].
    + rewrite Z.testbit_ones_nonneg by lia.
      destruct (Z.ltb_spec (i - idx) n), (Z.ltb_spec i (idx + n)); simpl; lia || reflexivity.
    + rewrite Z.testbit_neg_r by lia. reflexivity.
Qed.

Lemma mi_bits_mask_low (idx n i : Z) :
  i < idx -> Z.testbit (mi_bits_mask idx n) i = false.
Proof.
  intros Hlt. unfold mi_bits_mask.
  destruct (Z.ltb_spec i 0).
  - apply Z.testbit_neg_r; lia.
  - rewrite Z.shiftl_spec by lia. apply Z.testbit_neg_r; lia.
Qed.

Lemma land_eq_lor_id (b m : Z) : Z.land b m = m -> Z.lor b m = b.
Proof.
  intros H. rewrite <- H. Z.bitblast.
Qed.

Lemma mi_bitmap_set_already (b : mi_bitmap) (idx n : Z) :
  mi_bitmap_is_xsetN MI_BIT_SET b idx n = true ->
  mi_bitmap_xsetN MI_BIT_SET b idx n
  = (b, mi_bitmap_is_xsetN MI_BIT_CLEAR b idx n, true).
Proof.
  intros H. unfold mi_bitmap_xsetN. rewrite H.
  unfold mi_bitmap_is_xsetN in H. apply Z.eqb_eq in H.
  rewrite (land_eq_lor_id _ _ H). reflexivity.
Qed.


(** ** The bitmap search returns a run of set bits *)

Lemma mi_bitmap_is_set_iff (b : mi_bitmap) (idx n : Z) :
  0 <= idx -> 0 <= n ->
  mi_bitmap_is_xsetN MI_BIT_SET b idx n = true
  <-> forall i, idx <= i < idx + n -> Z.testbit b i = true.
Proof.
  intros Hidx Hn. unfold mi_bitmap_is_xsetN. rewrite Z.eqb_eq. split.
  - intros H i Hi.
    assert (Hm : Z.testbit (mi_bits_mask idx n) i = true).
    { rewrite mi_bits_mask_testbit by lia.
      apply andb_true_intro; split; [apply Z.leb_le | apply Z.ltb_lt]; lia. }
    rewrite <- H, Z.land_spec in Hm. by apply andb_true_iff in Hm as [Hb _].
  - intros H. apply Z.bits_inj'. intros i Hi.
    rewrite Z.land_spec, mi_bits_mask_testbit by lia.
    destruct (Z.leb_spec idx i), (Z.ltb_spec i (idx + n)); simpl;
      try apply andb_false_r.
    rewrite H by lia. reflexivity.
Qed.

Lemma mi_bitmap_chunk_testbit cfg (b : mi_bitmap) (c i : Z) :
  0 <= MI_BITMAP_CHUNK_BITS cfg -> 0 <= i ->
  Z.testbit (mi_bitmap_chunk cfg b c) i
  = Z.testbit b (i + c * MI_BITMAP_CHUNK_BITS cfg) && (i <? MI_BITMAP_CHUNK_BITS cfg).
Proof.
  intros Hcb Hi. unfold mi_bitmap_chunk.
  by rewrite Z.land_spec, Z.shiftr_spec, Z.testbit_ones_nonneg by lia.
Qed.

Lemma mi_bitmap_chunk_find_sound (chunk n : Z) (k : nat) : forall s s',
  mi_bitmap_chunk_find chunk n k s = Some s' ->
  s <= s' < s + Z.of_nat k /\ mi_bitmap_is_xsetN MI_BIT_SET chunk s' n = true.
Proof.
  induction k as [|k IH]; intros s s'; cbn [mi_bitmap_chunk_find]; [discriminate|].
  destruct (mi_bitmap_is_xsetN MI_BIT_SET chunk s n) eqn:E.
  - intros H. injection H as H. subst s'. split; [lia | exact E].
  - intros H. apply IH in H as [Hr Hs]. split; [lia | exact Hs].
Qed.

Lemma mi_bitmap_chunk_try_find_sound cfg (b : mi_bitmap) (c n i : Z) :
  0 <= c -> 0 < n ->
  mi_bitmap_chunk_try_find cfg b c n = Some i ->
  c * MI_BITMAP_CHUNK_BITS cfg <= i
  /\ i + n <= (c + 1) * MI_BITMAP_CHUNK_BITS cfg
  /\ mi_bitmap_is_xsetN MI_BIT_SET b i n = true.
Proof.
  intros Hc Hn. unfold mi_bitmap_chunk_try_find.
  destruct (mi_bitmap_chunk_find _ _ _ _) as [s|] eqn:E; [|discriminate].
  intros [= <-]. apply mi_bitmap_chunk_find_sound in E as [Hs Hset].
  set (cb := MI_BITMAP_CHUNK_BITS cfg) in *.
  assert (Hk : s + n <= cb) by lia.
  assert (Hcb : 0 <= cb) by lia.
  split; [lia|]. split; [lia|].
  apply mi_bitmap_is_set_iff; [nia | lia |]. intros j Hj.
  rewrite mi_bitmap_is_set_iff in Hset by lia.
  specialize (Hset (j - c * cb) ltac:(lia)).
  rewrite mi_bitmap_chunk_testbit in Hset by (fold cb; lia). fold cb in Hset.
  apply andb_true_iff in Hset as [Hb _].
  by replace (j - c * cb + c * cb) with j in Hb by lia.
Qed.

Lemma mi_bitmap_find_from_sound cfg (b : mi_bitmap) (n : Z) (k : nat) : forall c i,
  0 < MI_BITMAP_CHUNK_COUNT cfg ->
  mi_bitmap_find_from cfg b n k c = Some i ->
  exists c', 0 <= c' < MI_BITMAP_CHUNK_COUNT cfg
             /\ mi_bitmap_chunk_try_find cfg b c' n = Some i.
Proof.
  induction k as [|k IH]; intros c i Hcc; cbn [mi_bitmap_find_from]; [discriminate|].
  destruct (mi_bitmap_chunk_try_find cfg b (c mod MI_BITMAP_CHUNK_COUNT cfg) n)
    as [j|] eqn:E.
  - intros [= <-]. exists (c mod MI_BITMAP_CHUNK_COUNT cfg).
    split; [by apply Z.mod_pos_bound | exact E].
  - by apply IH.
Qed.

(** A successful search returns the index of [n] set bits inside the
    bitmap, and clears exactly those. *)
Lemma mi_bitmap_try_find_and_clearN_sound cfg (b b' : mi_bitmap) (tseq n i : Z) :
  0 < MI_BITMAP_CHUNK_COUNT cfg ->
  mi_bitmap_try_find_and_clearN cfg b tseq n = Some (b', i) ->
  0 < n /\ 0 <= i /\ i + n <= MI_BITMAP_MAX_BITS cfg
  /\ mi_bitmap_is_xsetN MI_BIT_SET b i n = true
  /\ b' = Z.ldiff b (mi_bits_mask i n).
Proof.
  intros Hcc. unfold mi_bitmap_try_find_and_clearN.
  destruct (Z.leb_spec n 0); [discriminate|].
  destruct (Z.ltb_spec (MI_BITMAP_CHUNK_BITS cfg) n); [discriminate|]. simpl.
  destruct (mi_bitmap_find_from _ _ _ _ _) as [j|] eqn:E; [|discriminate].
  intros [= <- <-].
  apply mi_bitmap_find_from_sound in E as (c & Hc & E); [|done].
  apply mi_bitmap_chunk_try_find_sound in E as (Hlo & Hhi & Hset); [|lia|lia].
  unfold MI_BITMAP_MAX_BITS. repeat split; [lia | nia | nia | exact Hset].
Qed.

(** Setting again the bits a claim cleared restores the bitmap. *)
Lemma mi_bitmap_clear_then_set (b m : Z) :
  Z.land b m = m -> Z.lor (Z.ldiff b m) m = b.
Proof. intros H. rewrite <- H. Z.bitblast. Qed.

(** ** The delayed purge (C1) *)

(** C1.  Claim: on a free with a positive effective purge delay and no
    preloading, schedule-purge stores [now + delay] in [purge_expire] (or
    extends it by [delay/10]) and sets the bits of the freed range in
    [blocks_purge].
    The code does not: with an effective delay of 100 ms,
    [mi_arena_schedule_purge] leaves every descriptor as it is and only
    logs "purging not yet implemented"; after freeing the blocks [3, 5) of
    a 16-block arena, [purge_expire] is still 0 and [blocks_purge] is
    still empty.  (With a negative delay schedule-purge does nothing, as
    the claim says.) *)
Theorem C1_delayed_purge_is_not_scheduled :
  let s := snd alloc2 in
  let s' := _mi_arena_free cfg64 os_delayed (fst (fst alloc2)) (8 * MiB) (8 * MiB)
              (snd (fst alloc2)) s in
  mi_arena_purge_delay os_delayed = 100
  /\ _mi_preloading os_delayed = false
  /\ (forall arena block_idx blocks st,
        mi_arena_schedule_purge cfg64 os_delayed arena block_idx blocks st
        = (arena, emit (EvError EFAULT "purging not yet implemented") st))
  /\ (forall arena block_idx blocks st,
        mi_arena_schedule_purge cfg64 os_nopurge arena block_idx blocks st
        = (arena, st))
  /\ mem_arena_block_index (snd (fst alloc2)) = 3
  /\ mi_block_count_of_size cfg64 (8 * MiB) = 2
  /\ purge_expire <$> (mi_arenas s !! 0) = Some 0
  /\ purge_expire <$> (mi_arenas s' !! 0) = Some 0
  /\ blocks_purge <$> (mi_arenas s' !! 0) = Some 0
  /\ blocks_free <$> (mi_arenas s' !! 0)
     = Some (Z.lor 65504 (mi_bits_mask 3 2))
  /\ trace s' = trace s ++ [EvError EFAULT "purging not yet implemented";
                            EvError EFAULT "purging not yet implemented"].
Proof.
  repeat split; try (vm_compute; reflexivity).
Qed.

(** ** Freeing a partially committed range (C2) *)

(** C2.  Claim: freeing a range that is not entirely committed, in an
    arena that is neither pinned nor initially committed, clears exactly
    the [blocks_committed] bits of [block_idx, block_idx + blocks).
    The code passes [blocks] and [block_idx] to [mi_bitmap_xsetN] in the
    wrong order: freeing the blocks [3, 5) with half of them committed
    clears the bits [2, 5), so block 2, which belongs to a live
    allocation, loses its committed bit. *)
Theorem C2_partial_free_clears_swapped_range :
  let s := snd alloc2 in
  let memid := snd (fst alloc2) in
  let s' := _mi_arena_free cfg64 os_nopurge (fst (fst alloc2)) (8 * MiB) (4 * MiB)
              memid s in
  mem_arena_block_index memid = 3
  /\ mi_block_count_of_size cfg64 (8 * MiB) = 2
  /\ (fun a => is_pinned (arena_memid a) || initially_committed (arena_memid a))
       <$> (mi_arenas s !! 0) = Some false
  /\ blocks_committed <$> (mi_arenas s !! 0) = Some 31
  /\ blocks_committed <$> (mi_arenas s' !! 0) = Some (Z.ldiff 31 (mi_bits_mask 2 3))
  /\ Z.ldiff 31 (mi_bits_mask 2 3) = 3
  /\ Z.ldiff 31 (mi_bits_mask 3 2) = 7
  /\ (fun a => Z.testbit (blocks_committed a) 2) <$> (mi_arenas s !! 0) = Some true
  /\ (fun a => Z.testbit (blocks_committed a) 2) <$> (mi_arenas s' !! 0) = Some false.
Proof.
  repeat split; vm_compute; reflexivity.
Qed.

(** ** The first block after the descriptor (C3, C4) *)

(** C3.  Claim: a successful allocation followed by the free of the same
    range brings [blocks_free ∪ blocks_purge] back to its state before the
    allocation.
    The code does not for the first allocation of a fresh arena: it is
    served at block index [info_blocks] = 1, and [_mi_arena_free] rejects
    that index, so the two blocks stay claimed. *)
Theorem C3_alloc_free_at_info_blocks_not_neutral :
  let union s := (fun a => Z.lor (blocks_free a) (blocks_purge a)) <$> (mi_arenas s !! 0) in
  let p := fst (fst alloc1) in
  let memid := snd (fst alloc1) in
  let s1 := snd alloc1 in
  let s2 := _mi_arena_free cfg64 os_nopurge p (8 * MiB) (8 * MiB) memid s1 in
  mem_arena_block_index memid = mi_arena_info_blocks cfg64
  /\ union s_arena16 = Some 65534
  /\ union s1 = Some (Z.ldiff 65534 (mi_bits_mask 1 2))
  /\ union s2 = Some (Z.ldiff 65534 (mi_bits_mask 1 2))
  /\ union s2 <> union s_arena16.
Proof.
  repeat split; try (vm_compute; reflexivity).
  vm_compute. discriminate.
Qed.

(** C4.  Claim: the invalid-arena-block path of [_mi_arena_free] fires
    only for a null slot or an invalid block index; a range handed out by
    a successful allocation, at any index from [info_blocks] upward, is
    released.
    The code tests [block_idx <= info_blocks]: the range at block index
    [info_blocks] = 1 that the allocation just returned, in the live slot
    0 and well inside the 16 blocks, is rejected with the invalid-block
    diagnostic and nothing is released. *)
Theorem C4_free_rejects_block_at_info_blocks :
  let p := fst (fst alloc1) in
  let memid := snd (fst alloc1) in
  let s1 := snd alloc1 in
  let s2 := _mi_arena_free cfg64 os_nopurge p (8 * MiB) (8 * MiB) memid s1 in
  memkind memid = MI_MEM_ARENA
  /\ mi_arena_id_index (mem_arena_id memid) = 0
  /\ block_count <$> (mi_arenas s1 !! 0) = Some 16
  /\ mem_arena_block_index memid = mi_arena_info_blocks cfg64
  /\ mem_arena_block_index memid + mi_block_count_of_size cfg64 (8 * MiB) <= 16
  /\ trace s2 = trace s1 ++ [EvError EINVAL "trying to free from an invalid arena block"]
  /\ mi_arenas s2 = mi_arenas s1.
Proof.
  repeat split; try (vm_compute; reflexivity).
  vm_compute. discriminate.
Qed.

(** ** Log-only steps *)

Lemma log_only_refl (s : mi_state) : log_only s s.
Proof. repeat split. exists []. by rewrite app_nil_r. Qed.

Lemma log_only_trans (s1 s2 s3 : mi_state) :
  log_only s1 s2 -> log_only s2 s3 -> log_only s1 s3.
Proof.
  intros (Ha & Hc & He & evs & Ht) (Ha' & Hc' & He' & evs' & Ht').
  repeat split; try congruence.
  exists (evs ++ evs'). rewrite Ht', Ht. by rewrite app_assoc.
Qed.

Lemma log_only_emit (e : event) (s : mi_state) : log_only s (emit e s).
Proof. repeat split. by exists [e]. Qed.

Lemma log_only_emit_r (e : event) (s s' : mi_state) :
  log_only s s' -> log_only s (emit e s').
Proof. intros H. eapply log_only_trans; [exact H | apply log_only_emit]. Qed.

Create HintDb arena.

#[local] Hint Resolve log_only_refl log_only_emit log_only_emit_r : arena.

Lemma mi_arena_purge_blocks_free cfg os arena block_idx blocks s :
  blocks_free (fst (mi_arena_purge cfg os arena block_idx blocks s)) = blocks_free arena.
Proof.
  unfold mi_arena_purge.
  destruct (mi_bitmap_is_xsetN _ _ _ _); simpl.
  - destruct (_mi_os_purge os _ _ _); reflexivity.
  - destruct (_mi_os_purge_ex os _ _ _ _); reflexivity.
Qed.

Lemma mi_arena_purge_log_only cfg os arena block_idx blocks s :
  log_only s (snd (mi_arena_purge cfg os arena block_idx blocks s)).
Proof.
  unfold mi_arena_purge.
  destruct (mi_bitmap_is_xsetN _ _ _ _); simpl.
  - auto with arena.
  - destruct (_mi_os_purge_ex os _ _ _ _); simpl; auto with arena.
Qed.

Lemma mi_arena_schedule_purge_blocks_free cfg os arena block_idx blocks s :
  blocks_free (fst (mi_arena_schedule_purge cfg os arena block_idx blocks s))
  = blocks_free arena.
Proof.
  unfold mi_arena_schedule_purge.
  destruct (_ <? 0); [reflexivity|].
  destruct (_ || _); [apply mi_arena_purge_blocks_free | reflexivity].
Qed.

Lemma mi_arena_schedule_purge_log_only cfg os arena block_idx blocks s :
  log_only s (snd (mi_arena_schedule_purge cfg os arena block_idx blocks s)).
Proof.
  unfold mi_arena_schedule_purge.
  destruct (_ <? 0); simpl; auto with arena.
  destruct (_ || _); simpl; auto with arena.
  apply mi_arena_purge_log_only.
Qed.

Lemma mi_arenas_try_purge_log_only os force visit_all s :
  log_only s (mi_arenas_try_purge os force visit_all s).
Proof.
  unfold mi_arenas_try_purge.
  destruct (_ || _); auto with arena.
  destruct (_ =? 0); auto with arena.
Qed.

Lemma mi_bits_mask_nonzero (idx n : Z) :
  0 <= idx -> 0 < n -> mi_bits_mask idx n <> 0.
Proof.
  intros Hidx Hn Hz.
  assert (H : Z.testbit (mi_bits_mask idx n) idx = true).
  { rewrite mi_bits_mask_testbit by lia.
    apply andb_true_intro; split; [apply Z.leb_le | apply Z.ltb_lt]; lia. }
  rewrite Hz, Z.bits_0 in H. discriminate.
Qed.

(** The part of [_mi_arena_free] before the release: the commit update and
    the purge, on a descriptor that passed the checks. *)
Lemma free_decommit_step cfg os (arena : mi_arena_t) (all_committed : bool)
  (committed_size block_idx blocks : Z) (s : mi_state) (arena' : mi_arena_t)
  (s' : mi_state) :
  (if is_pinned (arena_memid arena) || initially_committed (arena_memid arena)
   then (arena, s)
   else
     let '(arena0, s0) :=
       if negb all_committed then
         (set_blocks_committed arena
            (fst (fst (mi_bitmap_xsetN MI_BIT_CLEAR (blocks_committed arena)
                         blocks block_idx))),
          if 0 <? committed_size
          then emit (EvStatCommitted (- committed_size)) s else s)
       else (arena, s) in
     mi_arena_schedule_purge cfg os arena0 block_idx blocks s0) = (arena', s') ->
  blocks_free arena' = blocks_free arena /\ log_only s s'.
Proof.
  destruct (_ || _).
  - intros [= <- <-]. split; [reflexivity | apply log_only_refl].
  - destruct (negb all_committed).
    + intros H.
      pose proof (mi_arena_schedule_purge_blocks_free cfg os
        (set_blocks_committed arena
           (fst (fst (mi_bitmap_xsetN MI_BIT_CLEAR (blocks_committed arena)
                        blocks block_idx)))) block_idx blocks
        (if 0 <? committed_size
         then emit (EvStatCommitted (- committed_size)) s else s)) as Hf.
      pose proof (mi_arena_schedule_purge_log_only cfg os
        (set_blocks_committed arena
           (fst (fst (mi_bitmap_xsetN MI_BIT_CLEAR (blocks_committed arena)
                        blocks block_idx)))) block_idx blocks
        (if 0 <? committed_size
         then emit (EvStatCommitted (- committed_size)) s else s)) as Hl.
      rewrite H in Hf, Hl. simpl in Hf, Hl. split; [exact Hf|].
      eapply log_only_trans; [|exact Hl].
      destruct (0 <? committed_size); auto with arena.
    + intros H.
      pose proof (mi_arena_schedule_purge_blocks_free cfg os arena block_idx blocks s) as Hf.
      pose proof (mi_arena_schedule_purge_log_only cfg os arena block_idx blocks s) as Hl.
      rewrite H in Hf, Hl. simpl in Hf, Hl. split; assumption.
Qed.

(** ** What the live code does on the paths of C1 to C4, in general *)

(** With a positive delay and no preloading, scheduling a purge changes
    no descriptor: it only logs that purging is not implemented. *)
Lemma mi_arena_schedule_purge_delayed cfg os arena block_idx blocks s :
  0 < mi_arena_purge_delay os -> _mi_preloading os = false ->
  mi_arena_schedule_purge cfg os arena block_idx blocks s
  = (arena, emit (EvError EFAULT "purging not yet implemented") s).
Proof.
  intros Hd Hp. unfold mi_arena_schedule_purge. rewrite Hp.
  destruct (Z.ltb_spec (mi_arena_purge_delay os) 0); [lia|].
  destruct (Z.eqb_spec (mi_arena_purge_delay os) 0); [lia | reflexivity].
Qed.

(** With a negative delay it does nothing. *)
Lemma mi_arena_schedule_purge_disabled cfg os arena block_idx blocks s :
  mi_arena_purge_delay os < 0 ->
  mi_arena_schedule_purge cfg os arena block_idx blocks s = (arena, s).
Proof.
  intros Hd. unfold mi_arena_schedule_purge.
  destruct (Z.ltb_spec (mi_arena_purge_delay os) 0); [reflexivity | lia].
Qed.

(** A range at block index [info_blocks], the first block an arena hands
    out, is never released: free takes the invalid-block path. *)
Lemma mi_arena_free_rejects_info_blocks cfg os p size committed_size memid s arena :
  p <> 0 -> size <> 0 ->
  memkind memid = MI_MEM_ARENA ->
  mi_arenas s !! mi_arena_id_index (mem_arena_id memid) = Some arena ->
  mem_arena_block_index memid = mi_arena_info_blocks cfg ->
  _mi_arena_free cfg os p size committed_size memid s
  = emit (EvError EINVAL "trying to free from an invalid arena block") s.
Proof.
  intros Hp Hsize Hkind Hslot Hidx. unfold _mi_arena_free.
  destruct (Z.eqb_spec p 0) as [|_]; [contradiction|].
  destruct (Z.eqb_spec size 0) as [|_]; [contradiction|].
  rewrite Hkind. cbn [mi_memkind_is_os mi_arena_memid_indices].
  rewrite Hslot, Hidx, Z.leb_refl. reflexivity.
Qed.

(** Freeing a range that is not entirely committed, at a valid index of
    an arena that is neither pinned nor initially committed and with
    purging disabled, clears the committed bits [blocks, blocks + block_idx):
    the index and the count are swapped. *)
Lemma mi_arena_free_clears_swapped_range cfg os p size committed_size memid s arena :
  p <> 0 -> size <> 0 -> committed_size <> size ->
  memkind memid = MI_MEM_ARENA ->
  mi_arenas s !! mi_arena_id_index (mem_arena_id memid) = Some arena ->
  mi_arena_info_blocks cfg < mem_arena_block_index memid <= block_count arena ->
  is_pinned (arena_memid arena) = false ->
  initially_committed (arena_memid arena) = false ->
  mi_arena_purge_delay os < 0 ->
  blocks_committed
    <$> (mi_arenas (_mi_arena_free cfg os p size committed_size memid s)
           !! mi_arena_id_index (mem_arena_id memid))
  = Some (Z.ldiff (blocks_committed arena)
            (mi_bits_mask (mi_block_count_of_size cfg size)
               (mem_arena_block_index memid))).
Proof.
  intros Hp Hsize Hcs Hkind Hslot [Hlo Hhi] Hpin Hcom Hd. unfold _mi_arena_free.
  destruct (Z.eqb_spec p 0) as [|_]; [contradiction|].
  destruct (Z.eqb_spec size 0) as [|_]; [contradiction|].
  destruct (Z.eqb_spec committed_size size) as [|_]; [contradiction|].
  rewrite Hkind. cbn [mi_memkind_is_os mi_arena_memid_indices negb].
  rewrite Hslot, Hpin, Hcom.
  destruct (Z.leb_spec (mem_arena_block_index memid) (mi_arena_info_blocks cfg));
    [lia|].
  destruct (Z.ltb_spec (block_count arena) (mem_arena_block_index memid)); [lia|].
  cbn [orb]. rewrite mi_arena_schedule_purge_disabled by done.
  unfold mi_bitmap_xsetN.
  assert (Hpurge : forall st, mi_arenas (mi_arenas_try_purge os false false st)
                              = mi_arenas st).
  { intros st. apply mi_arenas_try_purge_log_only. }
  destruct (negb _); [|rewrite Hpurge]; simpl; by rewrite lookup_insert_eq.
Qed.

(** What a successful claim does to the descriptor in its slot. *)
Lemma mi_arena_try_alloc_at_claims cfg os arena arena_index needed_bcount commit tseq
  s p memid s1 :
  0 < MI_BITMAP_CHUNK_COUNT cfg ->
  mi_arena_try_alloc_at cfg os arena arena_index needed_bcount commit tseq s
  = (Some (p, memid), s1) ->
  exists arena',
    mi_arenas s1 = <[arena_index := arena']> (mi_arenas s)
    /\ memkind memid = MI_MEM_ARENA
    /\ mem_arena_id memid = arena_ident arena
    /\ 0 < needed_bcount
    /\ 0 <= mem_arena_block_index memid
    /\ mem_arena_block_index memid + needed_bcount <= MI_BITMAP_MAX_BITS cfg
    /\ mi_bitmap_is_xsetN MI_BIT_SET (blocks_free arena)
         (mem_arena_block_index memid) needed_bcount = true
    /\ blocks_free arena'
       = Z.ldiff (blocks_free arena)
           (mi_bits_mask (mem_arena_block_index memid) needed_bcount)
    /\ blocks_purge arena' = blocks_purge arena
    /\ arena_memid arena' = arena_memid arena
    /\ block_count arena' = block_count arena.
Proof.
  intros Hcc. unfold mi_arena_try_alloc_at.
  destruct (mi_bitmap_try_find_and_clearN _ _ _ _) as [[bfree block_index]|] eqn:Hfind;
    [|discriminate].
  apply mi_bitmap_try_find_and_clearN_sound in Hfind as (Hn & Hi & Hmax & Hset & ->);
    [|done].
  destruct (initially_zero (arena_memid _)).
  - destruct (mi_bitmap_xsetN MI_BIT_SET (blocks_dirty _) _ _) as [[d r] a].
    destruct commit.
    + destruct (mi_bitmap_xsetN MI_BIT_SET _ _ _) as [[c r'] a'].
      destruct (negb a').
      * destruct (_mi_os_commit os _ _ _) as [[|] [|]]; intros [= <- <- <-];
          eexists; repeat split; done.
      * intros [= <- <- <-]. eexists; repeat split; done.
    + intros [= <- <- <-]. eexists; repeat split; done.
  - destruct commit.
    + destruct (mi_bitmap_xsetN MI_BIT_SET _ _ _) as [[c r'] a'].
      destruct (negb a').
      * destruct (_mi_os_commit os _ _ _) as [[|] [|]]; intros [= <- <- <-];
          eexists; repeat split; done.
      * intros [= <- <- <-]. eexists; repeat split; done.
    + intros [= <- <- <-]. eexists; repeat split; done.
Qed.

(** Apart from the block at [info_blocks], allocation and free are
    neutral on [blocks_free]: a range claimed at a block index above
    [info_blocks] and freed again leaves [blocks_free] as it was before
    the claim, whatever the purge settings at the time of the free. *)
Lemma alloc_free_restores_blocks_free cfg os os' arena arena_index needed_bcount
  commit tseq s p memid s1 size committed_size :
  0 < MI_BITMAP_CHUNK_COUNT cfg ->
  mi_arena_id_index (arena_ident arena) = arena_index ->
  mi_arena_try_alloc_at cfg os arena arena_index needed_bcount commit tseq s
  = (Some (p, memid), s1) ->
  p <> 0 -> size <> 0 ->
  mi_block_count_of_size cfg size = needed_bcount ->
  mi_arena_info_blocks cfg < mem_arena_block_index memid <= block_count arena ->
  blocks_free
    <$> (mi_arenas (_mi_arena_free cfg os' p size committed_size memid s1) !! arena_index)
  = Some (blocks_free arena).
Proof.
  intros Hcc Hid Halloc Hp Hsize Hblocks [Hlo Hhi].
  apply mi_arena_try_alloc_at_claims in Halloc
    as (arena' & Hs1 & Hkind & Hmid & Hn & Hi & Hmax & Hset & Hfree & Hpurge & Hmemid & Hbc);
    [|done].
  unfold _mi_arena_free.
  destruct (Z.eqb_spec p 0) as [|_]; [contradiction|].
  destruct (Z.eqb_spec size 0) as [|_]; [contradiction|].
  rewrite Hkind. cbn [mi_memkind_is_os mi_arena_memid_indices].
  rewrite Hmid, Hid, Hs1, lookup_insert_eq, Hbc, Hblocks.
  destruct (Z.leb_spec (mem_arena_block_index memid) (mi_arena_info_blocks cfg));
    [lia|].
  destruct (Z.ltb_spec (block_count arena) (mem_arena_block_index memid)); [lia|].
  cbn [orb].
  match goal with
  | |- context [let '(_, _) := ?X in _] => destruct X as [arena'' s2] eqn:Hstep
  end.
  apply free_decommit_step in Hstep as [Hfree' (Ha & _)].
  unfold mi_bitmap_xsetN. rewrite Hfree', Hfree.
  unfold mi_bitmap_is_xsetN in Hset. apply Z.eqb_eq in Hset.
  rewrite (mi_bitmap_clear_then_set _ _ Hset).
  assert (Htp : forall st, mi_arenas (mi_arenas_try_purge os' false false st)
                           = mi_arenas st).
  { intros st. apply mi_arenas_try_purge_log_only. }
  destruct (negb _); [|rewrite Htp]; simpl; by rewrite lookup_insert_eq.
Qed.

(** ** Double free (C5) *)

(** C5.  If [_mi_arena_free] is called on a (non-empty) arena range whose
    [blocks_free] bits are already all set, it logs a diagnostic as its
    last action and returns, and [blocks_free] is unchanged, in that arena
    and in every other.  The diagnostic is the double-free message when
    the block index passes the validity check, and the invalid-block
    message otherwise. *)
Theorem C5_double_free_keeps_blocks_free cfg os (p size committed_size : Z)
  (memid : mi_memid_t) (s : mi_state) (arena : mi_arena_t) :
  p <> 0 -> size <> 0 ->
  memkind memid = MI_MEM_ARENA ->
  mi_arenas s !! mi_arena_id_index (mem_arena_id memid) = Some arena ->
  0 <= mem_arena_block_index memid ->
  0 < mi_block_count_of_size cfg size ->
  mi_bitmap_is_xsetN MI_BIT_SET (blocks_free arena)
    (mem_arena_block_index memid) (mi_block_count_of_size cfg size) = true ->
  let s' := _mi_arena_free cfg os p size committed_size memid s in
  (forall i, blocks_free <$> (mi_arenas s' !! i) = blocks_free <$> (mi_arenas s !! i))
  /\ exists evs,
       trace s' = trace s ++ evs ++
         [if (mem_arena_block_index memid <=? mi_arena_info_blocks cfg)
             || (block_count arena <? mem_arena_block_index memid)
          then EvError EINVAL "trying to free from an invalid arena block"
          else EvError EAGAIN "trying to free an already freed arena block"].
Proof.
  intros Hp Hsize Hkind Hslot Hidx Hblocks Hset s'. subst s'.
  unfold _mi_arena_free.
  destruct (Z.eqb_spec p 0) as [|_]; [contradiction|].
  destruct (Z.eqb_spec size 0) as [|_]; [contradiction|].
  rewrite Hkind. cbn [mi_memkind_is_os mi_arena_memid_indices]. rewrite Hslot.
  destruct (_ || _) eqn:Hcheck.
  - split; [reflexivity|]. exists []. reflexivity.
  - match goal with
    | |- context [let '(_, _) := ?X in _] => destruct X as [arena' s1] eqn:Hstep
    end.
    apply free_decommit_step in Hstep as [Hfree (Ha & _ & _ & evs & Ht)].
    rewrite Hfree.
    rewrite (mi_bitmap_set_already _ _ _ Hset).
    assert (Hclear : mi_bitmap_is_xsetN MI_BIT_CLEAR (blocks_free arena)
              (mem_arena_block_index memid) (mi_block_count_of_size cfg size) = false).
    { unfold mi_bitmap_is_xsetN in *. apply Z.eqb_eq in Hset. rewrite Hset.
      apply Z.eqb_neq. apply mi_bits_mask_nonzero; lia. }
    rewrite Hclear. simpl. split.
    + intros i. rewrite Ha.
      destruct (decide (i = mi_arena_id_index (mem_arena_id memid))) as [->|Hne].
      * rewrite lookup_insert_eq, Hslot. simpl. by rewrite <- Hfree.
      * by rewrite lookup_insert_ne.
    + exists evs. rewrite Ht. by rewrite app_assoc.
Qed.

(** ** The admission filter and the fallback (C7, C10) *)

Lemma arena_admissible_true cfg os size alignment align_offset req_arena_id :
  (negb (mi_option_disallow_arena_alloc os) || negb (req_arena_id =? _mi_arena_id_none))
  && ((MI_ARENA_MIN_OBJ_SIZE cfg <=? size) && (size <=? MI_ARENA_MAX_OBJ_SIZE cfg)
      && (alignment <=? MI_ARENA_BLOCK_ALIGN cfg) && (align_offset =? 0)) = true
  <-> arena_admissible cfg os size alignment align_offset req_arena_id.
Proof.
  unfold arena_admissible, _mi_arena_id_none.
  rewrite !andb_true_iff, orb_true_iff, !negb_true_iff.
  rewrite !Z.leb_le, !Z.eqb_eq, Z.eqb_neq. tauto.
Qed.

Lemma mi_arena_alloc_fallback_spec os size alignment align_offset commit
  allow_large req_arena_id s :
  let r := mi_arena_alloc_fallback os size alignment align_offset commit
             allow_large req_arena_id s in
  mi_arenas (snd r) = mi_arenas s
  /\ mi_arena_count (snd r) = mi_arena_count s
  /\ if mi_option_disallow_os_alloc os || negb (req_arena_id =? 0)
     then r = ((0, _mi_memid_none), set_errno ENOMEM s)
          /\ fst r = (0, _mi_memid_none)
          /\ errno (snd r) = ENOMEM
          /\ trace (snd r) = trace s
     else errno (snd r) = errno s
          /\ delegated_to_os os size alignment align_offset commit allow_large s r.
Proof.
  unfold mi_arena_alloc_fallback, delegated_to_os, _mi_arena_id_none.
  destruct (_ || _); simpl; [by repeat split|].
  destruct (0 <? align_offset); simpl; auto.
Qed.

(** A failed claim leaves the state as it was. *)
Lemma mi_arena_try_alloc_at_None cfg os arena arena_index needed_bcount commit tseq s s' :
  mi_arena_try_alloc_at cfg os arena arena_index needed_bcount commit tseq s = (None, s') ->
  s' = s.
Proof.
  unfold mi_arena_try_alloc_at.
  destruct (mi_bitmap_try_find_and_clearN _ _ _ _) as [[bfree block_index]|];
    [|congruence].
  destruct (initially_zero (arena_memid _)).
  - destruct (mi_bitmap_xsetN MI_BIT_SET (blocks_dirty _) _ _) as [[d r] a].
    destruct commit; [|discriminate].
    destruct (mi_bitmap_xsetN MI_BIT_SET _ _ _) as [[c r'] a'].
    destruct (negb a'); [|discriminate].
    destruct (_mi_os_commit os _ _ _); discriminate.
  - destruct commit; [|discriminate].
    destruct (mi_bitmap_xsetN MI_BIT_SET _ _ _) as [[c r'] a'].
    destruct (negb a'); [|discriminate].
    destruct (_mi_os_commit os _ _ _); discriminate.
Qed.

Lemma mi_arena_try_alloc_at_id_None cfg os arena_id match_numa_node numa_node size
  alignment commit allow_large req_arena_id tseq s s' :
  mi_arena_try_alloc_at_id cfg os arena_id match_numa_node numa_node size alignment
    commit allow_large req_arena_id tseq s = (None, s') ->
  s' = s.
Proof.
  unfold mi_arena_try_alloc_at_id.
  destruct (_ <? alignment); [congruence|].
  destruct (mi_arena_from_index _ _); [|congruence].
  destruct (_ && _); [congruence|].
  destruct (negb _); [congruence|].
  destruct (_ && _); [congruence|].
  apply mi_arena_try_alloc_at_None.
Qed.

(** With a specific arena requested, [mi_arena_try_alloc] is one attempt
    in that arena. *)
Lemma mi_arena_try_alloc_specific cfg os numa_node size alignment commit allow_large
  req_arena_id tseq s :
  req_arena_id <> 0 ->
  mi_arena_try_alloc cfg os numa_node size alignment commit allow_large
    req_arena_id tseq s = (None, s)
  \/ mi_arena_try_alloc cfg os numa_node size alignment commit allow_large
       req_arena_id tseq s
     = mi_arena_try_alloc_at_id cfg os req_arena_id true numa_node size alignment
         commit allow_large req_arena_id tseq s.
Proof.
  intros Hreq. unfold mi_arena_try_alloc, _mi_arena_id_none.
  destruct (_ <? alignment); [by left|].
  destruct (_ =? 0); [by left|].
  destruct (Z.eqb_spec req_arena_id 0) as [|_]; [contradiction|]. simpl.
  destruct (_ <? _); [by right | by left].
Qed.

(** C7 (amended).  A request outside the admission bounds (size below
    [MIN_OBJ_SIZE] or above [MAX_OBJ_SIZE], alignment above [BLOCK_ALIGN],
    a non-zero [align_offset], or arena allocation disallowed with no
    arena named) never touches an arena: the registry and every bitmap in
    it stay as they are and no arena is added.  The request is then
    handed to the OS layer, unless OS allocation is disallowed or a
    specific arena was requested: in that case the result is NULL with
    [errno = ENOMEM] and the OS is not called. *)
Theorem C7_inadmissible_request_bypasses_arenas cfg os (size alignment align_offset : Z)
  (commit allow_large : bool) (req_arena_id : Z) (s : mi_state) :
  ~ arena_admissible cfg os size alignment align_offset req_arena_id ->
  let r := _mi_arena_alloc_aligned cfg os size alignment align_offset commit
             allow_large req_arena_id s in
  mi_arenas (snd r) = mi_arenas s
  /\ mi_arena_count (snd r) = mi_arena_count s
  /\ if mi_option_disallow_os_alloc os || negb (req_arena_id =? 0)
     then r = ((0, _mi_memid_none), set_errno ENOMEM s)
          /\ fst r = (0, _mi_memid_none)
          /\ errno (snd r) = ENOMEM
          /\ trace (snd r) = trace s
     else errno (snd r) = errno s
          /\ delegated_to_os os size alignment align_offset commit allow_large s r.
Proof.
  intros Hadm r. subst r. unfold _mi_arena_alloc_aligned.
  destruct (_ && _) eqn:Hc.
  - apply arena_admissible_true in Hc. contradiction.
  - apply mi_arena_alloc_fallback_spec.
Qed.

(** C10.  With a specific arena requested ([req_arena_id <> 0]),
    [_mi_arena_alloc_aligned] either returns the range claimed in that
    arena, or returns NULL with [errno = ENOMEM] and changes nothing else:
    no arena is reserved and the OS allocator is not called. *)
Theorem C10_specific_arena_no_reserve_no_os cfg os (size alignment align_offset : Z)
  (commit allow_large : bool) (req_arena_id : Z) (s : mi_state) :
  req_arena_id <> 0 ->
  let r := _mi_arena_alloc_aligned cfg os size alignment align_offset commit
             allow_large req_arena_id s in
  (r = ((0, _mi_memid_none), set_errno ENOMEM s)
   /\ fst r = (0, _mi_memid_none)
   /\ errno (snd r) = ENOMEM
   /\ trace (snd r) = trace s
   /\ mi_arenas (snd r) = mi_arenas s
   /\ mi_arena_count (snd r) = mi_arena_count s)
  \/ (arena_admissible cfg os size alignment align_offset req_arena_id
      /\ exists p memid,
           mi_arena_try_alloc_at_id cfg os req_arena_id true (_mi_os_numa_node os)
             size alignment commit allow_large req_arena_id (_mi_thread_seq_id os) s
           = (Some (p, memid), snd r)
           /\ fst r = (p, memid)).
Proof.
  intros Hreq r. subst r. unfold _mi_arena_alloc_aligned.
  assert (Hfb : mi_arena_alloc_fallback os size alignment align_offset commit
                  allow_large req_arena_id s = ((0, _mi_memid_none), set_errno ENOMEM s)).
  { unfold mi_arena_alloc_fallback, _mi_arena_id_none.
    destruct (Z.eqb_spec req_arena_id 0) as [|_]; [contradiction|].
    by rewrite orb_true_r. }
  destruct (_ && _) eqn:Hc; [|left; rewrite Hfb; by repeat split].
  apply arena_admissible_true in Hc.
  destruct (mi_arena_try_alloc_specific cfg os (_mi_os_numa_node os) size alignment
              commit allow_large req_arena_id (_mi_thread_seq_id os) s Hreq) as [E|E];
    rewrite E.
  - unfold _mi_arena_id_none.
    destruct (Z.eqb_spec req_arena_id 0) as [|_]; [contradiction|].
    left. rewrite Hfb. by repeat split.
  - destruct (mi_arena_try_alloc_at_id _ _ _ _ _ _ _ _ _ _ _ _) as [[[p memid]|] s1] eqn:Eid.
    + right. split; [exact Hc|]. exists p, memid. by split.
    + apply mi_arena_try_alloc_at_id_None in Eid as ->.
      unfold _mi_arena_id_none.
      destruct (Z.eqb_spec req_arena_id 0) as [|_]; [contradiction|].
      left. rewrite Hfb. by repeat split.
Qed.

(** ** The size of the next arena (C8) *)

Lemma wrap_small cfg (x : Z) : 0 <= x < 2 ^ MI_SIZE_BITS cfg -> wrap cfg x = x.
Proof. intros H. unfold wrap. by apply Z.mod_small. Qed.

Lemma wrap_nonneg cfg (x : Z) : 0 <= MI_SIZE_BITS cfg -> 0 <= wrap cfg x.
Proof.
  intros H. unfold wrap. apply Z.mod_pos_bound. by apply Z.pow_pos_nonneg.
Qed.

Lemma _mi_clamp_max_min (x lo hi : Z) :
  lo <= hi -> _mi_clamp x lo hi = Z.max lo (Z.min hi x).
Proof.
  intros H. unfold _mi_clamp.
  destruct (Z.ltb_spec x lo), (Z.ltb_spec hi x); lia.
Qed.

Lemma mi_arena_info_blocks_nonneg cfg :
  0 <= MI_SIZE_BITS cfg -> 0 < MI_ARENA_BLOCK_SIZE cfg -> 0 <= mi_arena_info_blocks cfg.
Proof.
  intros Hw Hbs. unfold mi_arena_info_blocks, mi_block_count_of_size, _mi_divide_up.
  destruct (Z.eqb_spec (MI_ARENA_BLOCK_SIZE cfg) 0); [lia|].
  apply Z.div_pos; [by apply wrap_nonneg | lia].
Qed.

Lemma _mi_align_up_small cfg (x a : Z) :
  0 < a -> 0 <= x -> x + a <= 2 ^ MI_SIZE_BITS cfg ->
  _mi_align_up cfg x a = (x + a - 1) / a * a.
Proof.
  intros Ha Hx Hfit. unfold _mi_align_up.
  rewrite wrap_small by lia. f_equal. f_equal. lia.
Qed.

(** The size computation of [mi_arena_reserve], where the option (plus a
    block) and the largest arena fit in a [size_t]. *)
Lemma mi_arena_reserve_size_spec cfg os (arena_count arena_reserve : Z) :
  0 <= MI_SIZE_BITS cfg ->
  0 < MI_ARENA_BLOCK_SIZE cfg ->
  0 <= arena_reserve ->
  arena_reserve + MI_ARENA_BLOCK_SIZE cfg <= 2 ^ MI_SIZE_BITS cfg ->
  mi_arena_info_blocks cfg + 1 <= MI_BITMAP_MAX_BITS cfg ->
  MI_BITMAP_MAX_BITS cfg * MI_ARENA_BLOCK_SIZE cfg < 2 ^ MI_SIZE_BITS cfg ->
  mi_arena_reserve_size cfg os arena_count arena_reserve
  = spec_next_arena_size cfg os arena_count arena_reserve.
Proof.
  intros Hw Hbs Hopt Hfit Hminmax Hmax.
  pose proof (mi_arena_info_blocks_nonneg cfg Hw Hbs) as Hib.
  unfold mi_arena_reserve_size, spec_next_arena_size.
  set (bs := MI_ARENA_BLOCK_SIZE cfg) in *.
  set (W := 2 ^ MI_SIZE_BITS cfg) in *.
  set (ib := mi_arena_info_blocks cfg) in *.
  set (mb := MI_BITMAP_MAX_BITS cfg) in *.
  assert (HW : 0 < W) by (by apply Z.pow_pos_nonneg).
  (* the option, or a quarter of it *)
  set (x := if _mi_os_has_virtual_reserve os then arena_reserve else arena_reserve / 4).
  assert (Hx : 0 <= x <= arena_reserve).
  { unfold x. destruct (_mi_os_has_virtual_reserve os); [lia|].
    split; [apply Z.div_pos; lia | apply Z.div_le_upper_bound; lia]. }
  replace (if negb (_mi_os_has_virtual_reserve os) then arena_reserve / 4 else arena_reserve)
    with x by (unfold x; by destruct (_mi_os_has_virtual_reserve os)).
  rewrite (_mi_align_up_small cfg x bs) by (fold W; lia).
  set (base := (x + bs - 1) / bs * bs).
  assert (Hbase : 0 <= base <= x + bs - 1).
  { unfold base. split.
    - apply Z.mul_nonneg_nonneg; [apply Z.div_pos|]; lia.
    - rewrite Z.mul_comm. apply Z.mul_div_le. lia. }
  (* the bounds *)
  assert (Hmb : 0 <= mb * bs) by nia.
  unfold mi_size_of_blocks. fold bs ib mb W.
  rewrite (wrap_small cfg ((ib + 1) * bs)) by (fold W; nia).
  rewrite (wrap_small cfg (mb * bs)) by (fold W; lia).
  assert (Hclamp : forall r,
    (if r <? (ib + 1) * bs then (ib + 1) * bs
     else if mb * bs <? r then mb * bs else r)
    = Z.max ((ib + 1) * bs) (Z.min (mb * bs) r)).
  { intros r. destruct (Z.ltb_spec r ((ib + 1) * bs)), (Z.ltb_spec (mb * bs) r); nia. }
  destruct ((8 <=? arena_count) && (arena_count <=? 128)) eqn:Hrange;
    [|apply Hclamp].
  rewrite _mi_clamp_max_min by lia.
  set (k := Z.max 0 (Z.min 16 (arena_count / 8))).
  assert (Hk : 0 <= k <= 16) by (unfold k; lia).
  rewrite Z.shiftl_1_l.
  assert (Hpow : 1 <= 2 ^ k) by (pose proof (Z.pow_pos_nonneg 2 k); lia).
  unfold mi_mul_overflow. fold W. rewrite (Z.mul_comm (2 ^ k) base).
  cbn [andb].
  destruct (Z.leb_spec W (base * 2 ^ k)) as [Hov|Hno];
    destruct (Z.ltb_spec (base * 2 ^ k) W); try lia; cbn [negb].
  - (* the product does not fit: the size is left unscaled *)
    apply Hclamp.
  - rewrite wrap_small by (fold W; nia). apply Hclamp.
Qed.

(** Where even [2^16] of the largest arenas fit in a [size_t], as on a
    64-bit platform, the proviso never shows: a product that does not fit
    is clamped to [max_reserve] either way. *)
Lemma spec_next_arena_size_claimed cfg os (arena_count arena_reserve : Z) :
  0 <= MI_SIZE_BITS cfg ->
  0 < MI_ARENA_BLOCK_SIZE cfg ->
  0 <= arena_reserve ->
  mi_arena_info_blocks cfg + 1 <= MI_BITMAP_MAX_BITS cfg ->
  MI_BITMAP_MAX_BITS cfg * MI_ARENA_BLOCK_SIZE cfg * 2 ^ 16 <= 2 ^ MI_SIZE_BITS cfg ->
  spec_next_arena_size cfg os arena_count arena_reserve
  = claimed_next_arena_size cfg os arena_count arena_reserve.
Proof.
  intros Hw Hbs Hopt Hminmax Hmax.
  pose proof (mi_arena_info_blocks_nonneg cfg Hw Hbs) as Hib.
  unfold spec_next_arena_size, claimed_next_arena_size.
  set (bs := MI_ARENA_BLOCK_SIZE cfg) in *.
  set (W := 2 ^ MI_SIZE_BITS cfg) in *.
  set (ib := mi_arena_info_blocks cfg) in *.
  set (mb := MI_BITMAP_MAX_BITS cfg) in *.
  set (x := if _mi_os_has_virtual_reserve os then arena_reserve else arena_reserve / 4).
  set (base := (x + bs - 1) / bs * bs).
  set (k := Z.max 0 (Z.min 16 (arena_count / 8))).
  assert (Hk : 0 <= k <= 16) by (unfold k; lia).
  assert (Hpow : 1 <= 2 ^ k <= 2 ^ 16).
  { split; [|apply Z.pow_le_mono_r; lia].
    pose proof (Z.pow_pos_nonneg 2 k). lia. }
  destruct ((8 <=? arena_count) && (arena_count <=? 128)); cbn [andb]; [|reflexivity].
  destruct (Z.ltb_spec (base * 2 ^ k) W) as [|Hov]; [reflexivity|].
  assert (mb * bs <= base) by nia. nia.
Qed.

(** C8 (amended).  [mi_arena_reserve] computes the next arena size as the
    [arena_reserve] option (a quarter of it when virtual reserve is not
    supported) rounded up to [BLOCK_SIZE], times
    [2^clamp(arena_count/8, 0, 16)] when [arena_count] is in [8, 128] and
    the product fits in a [size_t] (when it does not, the size is left
    unscaled), clamped into [(info_blocks+1)*BLOCK_SIZE,
    BITMAP_MAX_BITS*BLOCK_SIZE]; it fails whenever that size is below the
    request, and otherwise reserves an arena of that size.  The option
    plus one block, and the largest arena, are taken to fit in a
    [size_t]. *)
Theorem C8_next_arena_size cfg os (req_size : Z) (allow_large : bool) (s : mi_state) :
  0 <= MI_SIZE_BITS cfg ->
  0 < MI_ARENA_BLOCK_SIZE cfg ->
  0 <= mi_option_arena_reserve os ->
  mi_option_arena_reserve os + MI_ARENA_BLOCK_SIZE cfg <= 2 ^ MI_SIZE_BITS cfg ->
  mi_arena_info_blocks cfg + 1 <= MI_BITMAP_MAX_BITS cfg ->
  MI_BITMAP_MAX_BITS cfg * MI_ARENA_BLOCK_SIZE cfg < 2 ^ MI_SIZE_BITS cfg ->
  let size := spec_next_arena_size cfg os (mi_arena_count s) (mi_option_arena_reserve os) in
  mi_arena_reserve_size cfg os (mi_arena_count s) (mi_option_arena_reserve os) = size
  /\ (size < req_size ->
      mi_arena_reserve cfg os req_size allow_large 0 s = (false, 0, s))
  /\ (req_size <= size ->
      _mi_preloading os = false ->
      mi_arena_count s <= MI_MAX_ARENAS - 4 ->
      mi_option_arena_reserve os <> 0 ->
      mi_arena_reserve cfg os req_size allow_large 0 s
      = let '(err, aid, s') :=
          mi_reserve_os_memory_ex cfg os size
            (if mi_option_arena_eager_commit os =? 2 then _mi_os_has_overcommit os
             else if mi_option_arena_eager_commit os =? 1 then true else false)
            allow_large false s in
        (err =? 0, aid, s')).
Proof.
  intros Hw Hbs Hopt Hfit Hminmax Hmax size.
  pose proof (mi_arena_reserve_size_spec cfg os (mi_arena_count s)
                (mi_option_arena_reserve os) Hw Hbs Hopt Hfit Hminmax Hmax) as Heq.
  fold size in Heq. split; [exact Heq|]. split.
  - intros Hlt. unfold mi_arena_reserve. rewrite Heq.
    destruct (_mi_preloading os); [reflexivity|]. simpl.
    destruct (_ <? mi_arena_count s); [reflexivity|].
    destruct (_ =? 0); [reflexivity|].
    destruct (Z.ltb_spec size req_size); [reflexivity | lia].
  - intros Hge Hpre Hcount Hnz. unfold mi_arena_reserve. rewrite Heq, Hpre. simpl.
    destruct (Z.ltb_spec (MI_MAX_ARENAS - 4) (mi_arena_count s)); [lia|].
    destruct (Z.eqb_spec (mi_option_arena_reserve os) 0); [contradiction|].
    destruct (Z.ltb_spec size req_size); [lia | reflexivity].
Qed.

(** ** The descriptor prefix is never free (C6)

    The invariant is established by the empty registry, preserved by every
    function that writes a descriptor, and so holds after any sequence of
    operations. *)

Section PrefixInvariant.
Context (cfg : mi_config).

Lemma inv_init : registry_prefix_not_free cfg s_init.
Proof. intros idx a H. simpl in H. by rewrite lookup_empty in H. Qed.

Lemma inv_same_arenas (s s' : mi_state) :
  mi_arenas s' = mi_arenas s ->
  registry_prefix_not_free cfg s ->
  registry_prefix_not_free cfg s'.
Proof. intros E H idx a Ha. rewrite E in Ha. eauto. Qed.

Lemma inv_log_only (s s' : mi_state) : log_only s s' ->
  registry_prefix_not_free cfg s ->
  registry_prefix_not_free cfg s'.
Proof. intros (E & _). by apply inv_same_arenas. Qed.

Lemma inv_emit (e : event) (s : mi_state) : registry_prefix_not_free cfg s ->
  registry_prefix_not_free cfg (emit e s).
Proof. by apply inv_same_arenas. Qed.

Lemma inv_store (i : Z) (a : mi_arena_t) (s : mi_state) :
  prefix_not_free cfg a ->
  registry_prefix_not_free cfg s ->
  registry_prefix_not_free cfg (store_arena i a s).
Proof.
  intros Ha Hs idx a' Hl. simpl in Hl.
  destruct (decide (idx = i)) as [->|Hne].
  - rewrite lookup_insert_eq in Hl. by injection Hl as <-.
  - rewrite lookup_insert_ne in Hl by done. eauto.
Qed.

Lemma prefix_not_free_eq (a a' : mi_arena_t) :
  blocks_free a' = blocks_free a -> prefix_not_free cfg a -> prefix_not_free cfg a'.
Proof. intros E H i Hi. rewrite E. by apply H. Qed.

(** Allocation only clears free bits. *)
Lemma prefix_not_free_clear (a a' : mi_arena_t) (m : Z) :
  blocks_free a' = Z.ldiff (blocks_free a) m ->
  prefix_not_free cfg a -> prefix_not_free cfg a'.
Proof.
  intros E H i Hi. rewrite E, Z.ldiff_spec, (H i Hi). reflexivity.
Qed.

(** Setting the bits from [idx] on leaves the prefix alone when [idx]
    is not inside it. *)
Lemma prefix_not_free_set (a a' : mi_arena_t) (idx n : Z) :
  mi_arena_info_blocks cfg <= idx ->
  blocks_free a' = Z.lor (blocks_free a) (mi_bits_mask idx n) ->
  prefix_not_free cfg a -> prefix_not_free cfg a'.
Proof.
  intros Hidx E H i Hi.
  rewrite E, Z.lor_spec, (H i Hi), mi_bits_mask_low by lia. reflexivity.
Qed.

Lemma mi_bitmap_try_find_and_clearN_clears (b b' : mi_bitmap) (tseq n i : Z) :
  mi_bitmap_try_find_and_clearN cfg b tseq n = Some (b', i) ->
  b' = Z.ldiff b (mi_bits_mask i n).
Proof.
  unfold mi_bitmap_try_find_and_clearN.
  destruct (_ || _); [discriminate|].
  destruct (mi_bitmap_find_from _ _ _ _ _); [|discriminate].
  by intros [= <- <-].
Qed.

Context (os : mi_os).

(** Every branch of a claim ends by writing the descriptor back. *)
Ltac stored Hc Hs :=
  simpl; apply inv_store;
  [eapply prefix_not_free_eq; [reflexivity | exact Hc]
  |first [exact Hs | by apply inv_emit]].

Lemma inv_try_alloc_at arena arena_index needed_bcount commit tseq s :
  prefix_not_free cfg arena -> registry_prefix_not_free cfg s ->
  registry_prefix_not_free cfg
    (snd (mi_arena_try_alloc_at cfg os arena arena_index needed_bcount commit tseq s)).
Proof.
  intros Ha Hs. unfold mi_arena_try_alloc_at.
  destruct (mi_bitmap_try_find_and_clearN _ _ _ _) as [[bfree block_index]|] eqn:Hfind;
    [|exact Hs].
  apply mi_bitmap_try_find_and_clearN_clears in Hfind.
  assert (Hc : prefix_not_free cfg (set_blocks_free arena bfree))
    by (eapply prefix_not_free_clear; [exact Hfind | exact Ha]).
  destruct (initially_zero (arena_memid _));
    [destruct (mi_bitmap_xsetN MI_BIT_SET (blocks_dirty _) _ _) as [[d r] a]|];
    (destruct commit;
     [destruct (mi_bitmap_xsetN MI_BIT_SET _ _ _) as [[c r'] a'];
      destruct (negb a'); [destruct (_mi_os_commit os _ _ _)|]|]);
    stored Hc Hs.
Qed.

Lemma inv_try_alloc_at_id arena_id match_numa_node numa_node size alignment commit
  allow_large req_arena_id tseq s :
  registry_prefix_not_free cfg s ->
  registry_prefix_not_free cfg
    (snd (mi_arena_try_alloc_at_id cfg os arena_id match_numa_node numa_node size
              alignment commit allow_large req_arena_id tseq s)).
Proof.
  intros Hs. unfold mi_arena_try_alloc_at_id.
  destruct (_ <? alignment); [exact Hs|].
  destruct (mi_arena_from_index _ _) as [arena|] eqn:Hslot; [|exact Hs].
  destruct (_ && _); [exact Hs|].
  destruct (negb _); [exact Hs|].
  destruct (_ && _); [exact Hs|].
  apply inv_try_alloc_at; [|exact Hs]. exact (Hs _ _ Hslot).
Qed.

Lemma inv_try_alloc_loop match_numa_node numa_node size alignment commit allow_large
  req_arena_id tseq k : forall i s,
  registry_prefix_not_free cfg s ->
  registry_prefix_not_free cfg
    (snd (mi_arena_try_alloc_loop cfg os match_numa_node numa_node size alignment
              commit allow_large req_arena_id tseq k i s)).
Proof.
  induction k as [|k IH]; intros i s Hs; simpl; [exact Hs|].
  pose proof (inv_try_alloc_at_id (mi_arena_id_create i) match_numa_node numa_node
                size alignment commit allow_large req_arena_id tseq s Hs) as H1.
  destruct (mi_arena_try_alloc_at_id _ _ _ _ _ _ _ _ _ _ _ _) as [[r|] s1];
    simpl in *; [exact H1 | by apply IH].
Qed.

Lemma inv_try_alloc numa_node size alignment commit allow_large req_arena_id tseq s :
  registry_prefix_not_free cfg s ->
  registry_prefix_not_free cfg
    (snd (mi_arena_try_alloc cfg os numa_node size alignment commit allow_large
              req_arena_id tseq s)).
Proof.
  intros Hs. unfold mi_arena_try_alloc.
  destruct (_ <? alignment); [exact Hs|].
  destruct (_ =? 0); [exact Hs|].
  destruct (negb _).
  - destruct (_ <? _); [by apply inv_try_alloc_at_id | exact Hs].
  - pose proof (inv_try_alloc_loop true numa_node size alignment commit allow_large
                  req_arena_id tseq (Z.to_nat (mi_arena_count s)) 0 s Hs) as H1.
    destruct (mi_arena_try_alloc_loop _ _ _ _ _ _ _ _ _ _ _ _ _) as [[r|] s1];
      simpl in *; [exact H1|].
    destruct (0 <=? numa_node); [by apply inv_try_alloc_loop | exact H1].
Qed.

Lemma inv_arena_add arena s :
  prefix_not_free cfg arena ->
  registry_prefix_not_free cfg s ->
  registry_prefix_not_free cfg (snd (mi_arena_add arena s)).
Proof.
  intros Ha Hs. unfold mi_arena_add.
  destruct (_ <=? _); simpl; [exact Hs|].
  apply inv_store; [exact Ha | exact Hs].
Qed.

(** A new arena starts with the prefix not free: the free bits are set
    from [info_blocks] on. *)
Lemma inv_manage_os_memory_ex2 start size is_large numa_node exclusive memid aid s :
  registry_prefix_not_free cfg s ->
  registry_prefix_not_free cfg
    (snd (mi_manage_os_memory_ex2 cfg start size is_large numa_node exclusive
              memid aid s)).
Proof.
  intros Hs. unfold mi_manage_os_memory_ex2.
  destruct (start =? 0); [exact Hs|].
  destruct (negb _); [exact Hs|].
  destruct (_ <? _); [exact Hs|].
  destruct (_ <? _); [exact Hs|].
  apply inv_arena_add.
  - intros i Hi. simpl. unfold mi_bitmap_unsafe_xsetN, mi_bitmap_init. simpl.
    apply mi_bits_mask_low. lia.
  - destruct (negb _); [by apply inv_emit | exact Hs].
Qed.

Lemma inv_reserve_os_memory_ex size commit allow_large exclusive s :
  registry_prefix_not_free cfg s ->
  registry_prefix_not_free cfg
    (snd (mi_reserve_os_memory_ex cfg os size commit allow_large exclusive s)).
Proof.
  intros Hs. unfold mi_reserve_os_memory_ex.
  destruct (_mi_os_alloc_aligned os _ _ _ _ _) as [start memid].
  destruct (start =? 0); [by apply inv_emit|].
  match goal with
  | |- context [mi_manage_os_memory_ex2 ?c ?a ?b ?d ?e ?f ?g ?h ?st] =>
      pose proof (inv_manage_os_memory_ex2 a b d e f g h st (inv_emit _ _ Hs)) as H1;
      destruct (mi_manage_os_memory_ex2 c a b d e f g h st) as [[[|] aid] s1]
  end; simpl in *; [exact H1 | by apply inv_emit].
Qed.

Lemma inv_arena_reserve req_size allow_large req_arena_id s :
  registry_prefix_not_free cfg s ->
  registry_prefix_not_free cfg
    (snd (mi_arena_reserve cfg os req_size allow_large req_arena_id s)).
Proof.
  intros Hs. unfold mi_arena_reserve.
  destruct (_mi_preloading os); [exact Hs|].
  destruct (negb _); [exact Hs|].
  destruct (_ <? _); [exact Hs|].
  destruct (_ =? 0); [exact Hs|].
  destruct (_ <? req_size); [exact Hs|].
  match goal with
  | |- context [mi_reserve_os_memory_ex ?c ?o ?a ?b ?d ?e ?st] =>
      pose proof (inv_reserve_os_memory_ex a b d e st Hs) as H1;
      destruct (mi_reserve_os_memory_ex c o a b d e st) as [[err aid] s1]
  end. exact H1.
Qed.

Lemma inv_alloc_fallback size alignment align_offset commit allow_large req_arena_id s :
  registry_prefix_not_free cfg s ->
  registry_prefix_not_free cfg
    (snd (mi_arena_alloc_fallback os size alignment align_offset commit
              allow_large req_arena_id s)).
Proof.
  intros Hs.
  destruct (mi_arena_alloc_fallback_spec os size alignment align_offset commit
              allow_large req_arena_id s) as (E & _).
  by apply (inv_same_arenas s).
Qed.

Lemma inv_alloc_aligned size alignment align_offset commit allow_large req_arena_id s :
  registry_prefix_not_free cfg s ->
  registry_prefix_not_free cfg
    (snd (_mi_arena_alloc_aligned cfg os size alignment align_offset commit
              allow_large req_arena_id s)).
Proof.
  intros Hs. unfold _mi_arena_alloc_aligned.
  destruct (_ && _); [|by apply inv_alloc_fallback].
  pose proof (inv_try_alloc (_mi_os_numa_node os) size alignment commit allow_large
                req_arena_id (_mi_thread_seq_id os) s Hs) as H1.
  destruct (mi_arena_try_alloc _ _ _ _ _ _ _ _ _ _) as [[r|] s1]; simpl in H1;
    [exact H1|].
  destruct (req_arena_id =? _mi_arena_id_none).
  - pose proof (inv_arena_reserve size allow_large req_arena_id s1 H1) as H2.
    destruct (mi_arena_reserve _ _ _ _ _ _) as [[[|] arena_id] s2]; simpl in H2.
    + pose proof (inv_try_alloc_at_id arena_id true (_mi_os_numa_node os) size
                    alignment commit allow_large req_arena_id (_mi_thread_seq_id os)
                    s2 H2) as H3.
      destruct (mi_arena_try_alloc_at_id _ _ _ _ _ _ _ _ _ _ _ _) as [[r|] s3];
        simpl in H3; [exact H3 | by apply inv_alloc_fallback].
    + by apply inv_alloc_fallback.
  - by apply inv_alloc_fallback.
Qed.

(** Free releases a range only after its check has put the block index
    above the prefix. *)
Lemma inv_arena_free p size committed_size memid s :
  registry_prefix_not_free cfg s ->
  registry_prefix_not_free cfg (_mi_arena_free cfg os p size committed_size memid s).
Proof.
  intros Hs. unfold _mi_arena_free.
  destruct (p =? 0); [exact Hs|].
  destruct (size =? 0); [exact Hs|].
  destruct (mi_memkind_is_os _).
  { eapply inv_log_only; [apply mi_arenas_try_purge_log_only|].
    apply inv_emit. destruct (_ && _); [by apply inv_emit | exact Hs]. }
  destruct (memkind memid);
    try (eapply inv_log_only; [apply mi_arenas_try_purge_log_only | exact Hs]).
  cbn [mi_arena_memid_indices].
  destruct (mi_arenas s !! _) as [arena|] eqn:Hslot; [|by apply inv_emit].
  destruct (Z.leb_spec (mem_arena_block_index memid) (mi_arena_info_blocks cfg))
    as [|Hidx]; [by apply inv_emit|].
  cbn [orb].
  destruct (_ <? _); [by apply inv_emit|].
  match goal with
  | |- context [let '(_, _) := ?X in _] => destruct X as [arena' s1] eqn:Hstep
  end.
  apply free_decommit_step in Hstep as [Hfree Hlog].
  assert (Hres : registry_prefix_not_free cfg (store_arena (mi_arena_id_index (mem_arena_id memid))
                        (set_blocks_free arena'
                           (Z.lor (blocks_free arena')
                              (mi_bits_mask (mem_arena_block_index memid)
                                 (mi_block_count_of_size cfg size)))) s1)).
  { apply inv_store; [|by apply (inv_log_only s)].
    eapply (prefix_not_free_set arena); [| |exact (Hs _ _ Hslot)].
    - apply Z.lt_le_incl, Hidx.
    - simpl. by rewrite Hfree. }
  unfold mi_bitmap_xsetN.
  destruct (negb _); [by apply inv_emit|].
  eapply inv_log_only; [apply mi_arenas_try_purge_log_only | exact Hres].
Qed.

Lemma inv_arenas_collect force_purge s :
  registry_prefix_not_free cfg s ->
  registry_prefix_not_free cfg (_mi_arenas_collect os force_purge s).
Proof. apply inv_log_only, mi_arenas_try_purge_log_only. Qed.

Lemma inv_reserve_huge_os_pages_at_ex pages numa_node timeout_msecs exclusive s :
  registry_prefix_not_free cfg s ->
  registry_prefix_not_free cfg
    (snd (mi_reserve_huge_os_pages_at_ex cfg os pages numa_node timeout_msecs
              exclusive s)).
Proof.
  intros Hs. unfold mi_reserve_huge_os_pages_at_ex.
  destruct (pages =? 0); [exact Hs|].
  destruct (_mi_os_alloc_huge_os_pages os _ _ _ _) as [[[p pages_reserved] hsize] memid].
  destruct (_ || _); [by do 2 apply inv_emit|].
  match goal with
  | |- context [mi_manage_os_memory_ex2 ?c ?a ?b ?d ?e ?f ?g ?h ?st] =>
      pose proof (inv_manage_os_memory_ex2 a b d e f g h st (inv_emit _ _ Hs)) as H1;
      destruct (mi_manage_os_memory_ex2 c a b d e f g h st) as [[[|] aid] s1]
  end; simpl in *; [exact H1 | by apply inv_emit].
Qed.

Lemma inv_reserve_huge_os_pages_at pages numa_node timeout_msecs s :
  registry_prefix_not_free cfg s ->
  registry_prefix_not_free cfg
    (snd (mi_reserve_huge_os_pages_at cfg os pages numa_node timeout_msecs s)).
Proof.
  intros Hs. unfold mi_reserve_huge_os_pages_at.
  pose proof (inv_reserve_huge_os_pages_at_ex pages numa_node timeout_msecs false s Hs)
    as H1.
  by destruct (mi_reserve_huge_os_pages_at_ex _ _ _ _ _ _ _) as [[err aid] s1].
Qed.

Lemma inv_reserve_huge_interleave_loop numa_count pages_per pages_mod timeout_per k :
  forall numa_node pages s,
  registry_prefix_not_free cfg s ->
  registry_prefix_not_free cfg
    (snd (mi_reserve_huge_interleave_loop cfg os numa_count pages_per pages_mod
              timeout_per k numa_node pages s)).
Proof.
  induction k as [|k IH]; intros numa_node pages s Hs; simpl; [exact Hs|].
  destruct (_ && _); [|exact Hs].
  match goal with
  | |- context [mi_reserve_huge_os_pages_at ?c ?o ?a ?b ?d ?st] =>
      pose proof (inv_reserve_huge_os_pages_at a b d st Hs) as H1;
      destruct (mi_reserve_huge_os_pages_at c o a b d st) as [err s1]
  end. simpl in H1.
  destruct (negb _); [exact H1 | by apply IH].
Qed.

Lemma inv_reserve_huge_os_pages_interleave pages numa_nodes timeout_msecs s :
  registry_prefix_not_free cfg s ->
  registry_prefix_not_free cfg (snd (mi_reserve_huge_os_pages_interleave cfg os pages numa_nodes
              timeout_msecs s)).
Proof.
  intros Hs. unfold mi_reserve_huge_os_pages_interleave.
  destruct (pages =? 0); [exact Hs|].
  by apply inv_reserve_huge_interleave_loop.
Qed.

Lemma inv_run_op op s : registry_prefix_not_free cfg s ->
  registry_prefix_not_free cfg (run_op cfg os op s).
Proof.
  intros Hs. destruct op; simpl.
  - by apply inv_alloc_aligned.
  - by apply inv_arena_free.
  - by apply inv_arenas_collect.
  - by apply inv_reserve_os_memory_ex.
  - by apply inv_manage_os_memory_ex2.
  - by apply inv_reserve_huge_os_pages_at_ex.
  - by apply inv_reserve_huge_os_pages_interleave.
Qed.
End PrefixInvariant.

Lemma inv_run_ops cfg (ops : list (mi_os * arena_op)) : forall s,
  registry_prefix_not_free cfg s -> registry_prefix_not_free cfg (run_ops cfg ops s).
Proof.
  induction ops as [|[os op] ops IH]; intros s Hs; simpl; [exact Hs|].
  by apply IH, inv_run_op.
Qed.

(** C6.  After every sequence of operations of the arena layer
    (allocations, frees, purge passes, and the reservations that register
    arenas), run from the empty registry in whatever environments, no
    registered arena has a bit of its descriptor prefix [0, info_blocks)
    set in [blocks_free]. *)
Theorem C6_descriptor_prefix_never_free cfg (ops : list (mi_os * arena_op))
  (idx : Z) (arena : mi_arena_t) (i : Z) :
  mi_arenas (run_ops cfg ops s_init) !! idx = Some arena ->
  0 <= i < mi_arena_info_blocks cfg ->
  Z.testbit (blocks_free arena) i = false.
Proof.
  intros Hslot Hi.
  exact (inv_run_ops cfg ops s_init (inv_init cfg) idx arena Hslot i Hi).
Qed.

(** ** Interleaved huge-page reservation (C9) *)

Lemma huge_requests_app (l1 l2 : list event) :
  huge_requests (l1 ++ l2) = huge_requests l1 ++ huge_requests l2.
Proof. apply flat_map_app. Qed.

Lemma no_huge_request_refl (s : mi_state) : no_huge_request s s.
Proof. exists []. by rewrite app_nil_r. Qed.

Lemma no_huge_request_trans (s1 s2 s3 : mi_state) :
  no_huge_request s1 s2 -> no_huge_request s2 s3 -> no_huge_request s1 s3.
Proof.
  intros (e1 & H1 & N1) (e2 & H2 & N2). exists (e1 ++ e2). split.
  - rewrite H2, H1. by rewrite app_assoc.
  - by rewrite huge_requests_app, N1, N2.
Qed.

Lemma no_huge_request_emit (e : event) (s : mi_state) :
  huge_requests [e] = [] -> no_huge_request s (emit e s).
Proof. intros H. by exists [e]. Qed.

Lemma mi_arena_add_no_huge_request arena s :
  no_huge_request s (snd (mi_arena_add arena s)).
Proof.
  unfold mi_arena_add. destruct (_ <=? _); simpl.
  - exists []. simpl. by rewrite app_nil_r.
  - by exists [EvStatArenaCount 1].
Qed.

Lemma mi_manage_os_memory_ex2_no_huge_request cfg start size is_large numa_node
  exclusive memid aid s :
  no_huge_request s
    (snd (mi_manage_os_memory_ex2 cfg start size is_large numa_node exclusive memid aid s)).
Proof.
  unfold mi_manage_os_memory_ex2.
  destruct (start =? 0); [apply no_huge_request_refl|].
  destruct (negb _); [by apply no_huge_request_emit|].
  destruct (_ <? _); [by apply no_huge_request_emit|].
  destruct (_ <? _); [by apply no_huge_request_emit|].
  eapply no_huge_request_trans; [|apply mi_arena_add_no_huge_request].
  destruct (negb _); [by apply no_huge_request_emit | apply no_huge_request_refl].
Qed.

(** One per-node reservation asks the OS once, for the pages it was given,
    and not at all when given none. *)
Lemma mi_reserve_huge_os_pages_at_requests cfg os pages numa_node timeout_msecs s :
  let r := mi_reserve_huge_os_pages_at cfg os pages numa_node timeout_msecs s in
  (pages = 0 -> r = (0, s))
  /\ exists evs,
       trace (snd r) = trace s ++ evs
       /\ huge_requests evs
          = if pages =? 0 then [] else [(pages, mi_huge_numa_node os numa_node)].
Proof.
  unfold mi_reserve_huge_os_pages_at, mi_reserve_huge_os_pages_at_ex.
  destruct (Z.eqb_spec pages 0) as [->|Hne]; simpl.
  { split; [done|]. exists []. by rewrite app_nil_r. }
  split; [done|].
  destruct (_mi_os_alloc_huge_os_pages os _ _ _ _) as [[[p pages_reserved] hsize] memid].
  destruct (_ || _); simpl.
  { exists [EvOsAllocHuge pages (mi_huge_numa_node os numa_node) timeout_msecs;
            EvWarning "failed to reserve huge pages"].
    split; [|done]. by rewrite <- app_assoc. }
  match goal with
  | |- context [mi_manage_os_memory_ex2 ?c ?a ?b ?d ?e ?f ?g ?h ?st] =>
      destruct (mi_manage_os_memory_ex2_no_huge_request c a b d e f g h st)
        as (evs & Ht & Hn);
      destruct (mi_manage_os_memory_ex2 c a b d e f g h st) as [[[|] aid] s1]
  end; simpl in *.
  - exists (EvOsAllocHuge pages (mi_huge_numa_node os numa_node) timeout_msecs :: evs).
    split; [|simpl; by rewrite Hn].
    rewrite Ht. by rewrite <- app_assoc.
  - exists (EvOsAllocHuge pages (mi_huge_numa_node os numa_node) timeout_msecs
            :: evs ++ [EvOsFree p hsize]).
    split.
    + rewrite Ht. rewrite <- !app_assoc. reflexivity.
    + simpl. rewrite huge_requests_app, Hn. reflexivity.
Qed.

Lemma share_of_nonneg (per md k : Z) : 0 <= per -> 0 <= share_of per md k.
Proof. intros H. unfold share_of. destruct (k <? md); lia. Qed.

Lemma shares_sum_nonneg (per md : Z) (l : list Z) : 0 <= per -> 0 <= shares_sum per md l.
Proof.
  intros H. induction l as [|k l IH]; simpl; [lia|].
  pose proof (share_of_nonneg per md k H). lia.
Qed.

Lemma split_for_cons_pos per md k l :
  0 < share_of per md k ->
  split_for per md (k :: l) = (share_of per md k, k) :: split_for per md l.
Proof. intros H. unfold split_for. by rewrite filter_cons_True. Qed.

Lemma split_for_cons_zero per md k l :
  share_of per md k = 0 -> split_for per md (k :: l) = split_for per md l.
Proof. intros H. unfold split_for. rewrite filter_cons_False; [done | lia]. Qed.

Lemma split_for_sum_zero per md l :
  0 <= per -> shares_sum per md l = 0 -> split_for per md l = [].
Proof.
  intros Hper. induction l as [|k l IH]; simpl; [done|]. intros Hs.
  pose proof (share_of_nonneg per md k Hper).
  pose proof (shares_sum_nonneg per md l Hper).
  rewrite split_for_cons_zero by lia. apply IH. lia.
Qed.

Lemma sum_pages_spec_asks os per md l :
  0 <= per -> sum_pages (spec_asks os (split_for per md l)) = shares_sum per md l.
Proof.
  intros Hper. induction l as [|k l IH]; simpl; [done|].
  pose proof (share_of_nonneg per md k Hper).
  destruct (decide (0 < share_of per md k)) as [Hpos|Hz].
  - rewrite split_for_cons_pos by done. simpl. f_equal. exact IH.
  - rewrite split_for_cons_zero by lia. rewrite IH. lia.
Qed.

Lemma shares_sum_seqZ (per md : Z) (k : nat) : forall i,
  shares_sum per md (seqZ i (Z.of_nat k))
  = per * Z.of_nat k + Z.max 0 (Z.min md (i + Z.of_nat k) - i).
Proof.
  induction k as [|k IH]; intros i.
  - simpl. lia.
  - rewrite seqZ_cons by lia. simpl.
    replace (Z.pred (Z.of_nat (S k))) with (Z.of_nat k) by lia.
    rewrite IH. unfold share_of. destruct (Z.ltb_spec i md); lia.
Qed.

Lemma split_for_Forall per md l :
  Forall (fun k => 0 <= k) l ->
  Forall (fun q : Z * Z => 0 < fst q /\ 0 <= snd q) (split_for per md l).
Proof.
  induction 1 as [|k l Hk Hl IH]; [constructor|].
  destruct (decide (0 < share_of per md k)) as [Hpos|Hz].
  - rewrite split_for_cons_pos by done. by constructor.
  - unfold split_for in *. by rewrite filter_cons_False.
Qed.

Lemma split_for_spec pages n :
  split_for (pages / n) (pages mod n) (seqZ 0 n) = spec_interleave_split pages n.
Proof. reflexivity. Qed.

Lemma to_int_small (k : Z) : 0 <= k < 2 ^ 31 -> to_int k = k.
Proof. intros Hk. unfold to_int. rewrite Z.mod_small; lia. Qed.

(** For a node index that is not negative, the node asked of the OS is
    the index reduced modulo the OS's node count. *)
Lemma mi_huge_numa_node_nonneg os (k : Z) :
  0 <= k -> 0 < _mi_os_numa_node_count os ->
  mi_huge_numa_node os k = spec_node os k.
Proof.
  intros Hk Hn. unfold mi_huge_numa_node, spec_node.
  destruct (Z.ltb_spec k (-1)); [lia|].
  destruct (Z.leb_spec 0 k); [|lia].
  apply Z.rem_mod_nonneg; lia.
Qed.

(** The loop is the reservation of the shares one by one, up to the
    first error. *)
Lemma mi_reserve_huge_interleave_loop_refines cfg os numa_count per md timeout_per
  (k : nat) : forall i r s,
  0 <= per -> 0 <= i -> i + Z.of_nat k <= 2 ^ 31 ->
  Z.of_nat k = numa_count - i ->
  r = shares_sum per md (seqZ i (Z.of_nat k)) ->
  mi_reserve_huge_interleave_loop cfg os numa_count per md timeout_per k i r s
  = spec_interleave cfg os timeout_per (split_for per md (seqZ i (Z.of_nat k))) s.
Proof.
  induction k as [|k IH]; intros i r s Hper Hi Hfit Hk Hr;
    cbn [mi_reserve_huge_interleave_loop]; [reflexivity|].
  rewrite seqZ_cons in * by lia.
  replace (Z.pred (Z.of_nat (S k))) with (Z.of_nat k) in * by lia.
  cbn [shares_sum foldr] in Hr.
  pose proof (share_of_nonneg per md i Hper) as Hsh.
  pose proof (shares_sum_nonneg per md (seqZ (Z.succ i) (Z.of_nat k)) Hper) as Hrest.
  unfold shares_sum in Hrest.
  destruct (Z.ltb_spec i numa_count) as [_|]; [|lia].
  destruct (Z.ltb_spec 0 r) as [Hpos|Hzero]; cbn [andb].
  2: { (* nothing left to reserve: the remaining shares are all 0 *)
    rewrite split_for_sum_zero; [reflexivity | done |].
    cbn [shares_sum foldr]. unfold shares_sum. lia. }
  replace (if i <? md then per + 1 else per) with (share_of per md i)
    by (unfold share_of; destruct (i <? md); lia).
  rewrite to_int_small by lia.
  destruct (decide (0 < share_of per md i)) as [Hshare|Hshare].
  - rewrite split_for_cons_pos by done. cbn [spec_interleave].
    destruct (mi_reserve_huge_os_pages_at cfg os (share_of per md i) i timeout_per s)
      as [err s1].
    destruct (Z.eqb_spec err 0) as [->|Herr]; cbn [negb]; [|reflexivity].
    destruct (Z.ltb_spec r (share_of per md i)); [lia|].
    replace (i + 1) with (Z.succ i) by lia.
    apply IH; [done | lia | lia | lia |]. unfold shares_sum. lia.
  - assert (Hz : share_of per md i = 0) by lia.
    rewrite split_for_cons_zero by done. rewrite Hz.
    destruct (mi_reserve_huge_os_pages_at_requests cfg os 0 i timeout_per s)
      as (Hnone & _).
    rewrite (Hnone eq_refl). cbn [Z.eqb negb].
    destruct (Z.ltb_spec r 0); [lia|].
    replace (i + 1) with (Z.succ i) by lia.
    apply IH; [done | lia | lia | lia |]. unfold shares_sum. lia.
Qed.

(** What the reservation of the shares one by one asks of the OS: every
    share when it returns 0, and otherwise the shares up to and including
    the first one whose reservation fails; the result is then the result
    of that reservation. *)
Lemma spec_interleave_asks cfg os timeout_per (split : list (Z * Z)) : forall s,
  0 < _mi_os_numa_node_count os ->
  Forall (fun q : Z * Z => 0 < fst q /\ 0 <= snd q) split ->
  let r := spec_interleave cfg os timeout_per split s in
  exists evs,
    trace (snd r) = trace s ++ evs
    /\ (fst r = 0 -> huge_requests evs = spec_asks os split)
    /\ (fst r <> 0 ->
        exists done failed rest s_k,
          split = done ++ failed :: rest
          /\ spec_interleave cfg os timeout_per done s = (0, s_k)
          /\ mi_reserve_huge_os_pages_at cfg os (fst failed) (snd failed) timeout_per
               s_k = r
          /\ huge_requests evs = spec_asks os (done ++ [failed])).
Proof.
  induction split as [|[np k] split IH]; intros s Hn Hall; cbn [spec_interleave].
  { exists []. rewrite app_nil_r. cbn [fst snd]. by repeat split. }
  apply Forall_cons in Hall as [[Hnp Hk] Hall]. cbn [fst snd] in Hnp, Hk.
  destruct (mi_reserve_huge_os_pages_at_requests cfg os np k timeout_per s)
    as (_ & evs1 & Ht1 & Hq1).
  rewrite mi_huge_numa_node_nonneg in Hq1 by done.
  destruct (Z.eqb_spec np 0) as [|_]; [lia|].
  destruct (mi_reserve_huge_os_pages_at cfg os np k timeout_per s) as [err s1] eqn:Eat.
  cbn [fst snd] in Ht1.
  destruct (Z.eqb_spec err 0) as [->|Herr].
  - destruct (IH s1 Hn Hall) as (evs2 & Ht2 & Hok & Hfail).
    exists (evs1 ++ evs2). split; [by rewrite Ht2, Ht1, app_assoc|].
    rewrite huge_requests_app, Hq1. split.
    + intros E. by rewrite (Hok E).
    + intros E. destruct (Hfail E) as (done & failed & rest & s_k & -> & Hrun & Hat & Hq).
      exists ((np, k) :: done), failed, rest, s_k.
      split; [reflexivity|]. split; [|split; [exact Hat|]].
      * cbn [spec_interleave]. by rewrite Eat.
      * by rewrite Hq.
  - exists evs1. cbn [fst snd]. split; [exact Ht1|]. split; [done|]. intros _.
    exists [], (np, k), split, s. by repeat split.
Qed.

(** C9 (amended).  With [pages > 0] over [N] nodes (the number given, or
    the OS's node count; at most [2^31], so that a node index fits in an
    [int]), [mi_reserve_huge_os_pages_interleave] is the reservation, node
    by node, of [pages/N] pages each and one more for the first
    [pages mod N] nodes, leaving out the nodes whose share is 0; node
    index [k] stands for node [k] modulo the OS's node count.  Each share
    is reserved through [mi_reserve_huge_os_pages_at], as long as every
    earlier reservation succeeded.  At the first reservation that fails
    the call returns that reservation's error and state: the OS has been
    asked for the shares up to and including the failing one and for no
    further node.  When the call returns success the OS has been asked
    for every share, and the requests sum to [pages].  With [pages = 0]
    it returns success and does nothing. *)
Theorem C9_interleave_requests_until_failure cfg os
  (pages numa_nodes timeout_msecs : Z) (s : mi_state) :
  0 <= pages ->
  interleave_numa_count os numa_nodes <= 2 ^ 31 ->
  0 < _mi_os_numa_node_count os ->
  let n := interleave_numa_count os numa_nodes in
  let timeout_per := if timeout_msecs =? 0 then 0 else timeout_msecs / n + 50 in
  let split := spec_interleave_split pages n in
  let r := mi_reserve_huge_os_pages_interleave cfg os pages numa_nodes timeout_msecs s in
  (pages = 0 -> r = (0, s))
  /\ r = spec_interleave cfg os timeout_per split s
  /\ exists evs,
       trace (snd r) = trace s ++ evs
       /\ huge_requests evs `prefix_of` spec_asks os split
       /\ (fst r = 0 ->
           huge_requests evs = spec_asks os split
           /\ sum_pages (huge_requests evs) = pages)
       /\ (fst r <> 0 ->
           exists done failed rest s_k,
             split = done ++ failed :: rest
             /\ spec_interleave cfg os timeout_per done s = (0, s_k)
             /\ mi_reserve_huge_os_pages_at cfg os (fst failed) (snd failed)
                  timeout_per s_k = r
             /\ huge_requests evs = spec_asks os (done ++ [failed])).
Proof.
  intros Hpages Hfit Hcount n timeout_per split r.
  assert (Hn : 0 < n).
  { unfold n, interleave_numa_count.
    destruct (0 <? numa_nodes);
      match goal with |- context [?x <=? 0] => destruct (Z.leb_spec x 0) end; lia. }
  assert (Hper : 0 <= pages / n) by (apply Z.div_pos; lia).
  pose proof (Z.mod_pos_bound pages n Hn) as Hmd.
  assert (Hsum : pages = shares_sum (pages / n) (pages mod n) (seqZ 0 n)).
  { rewrite <- (Z2Nat.id n) at 3 by lia. rewrite shares_sum_seqZ.
    rewrite Z2Nat.id by lia. pose proof (Z.div_mod pages n). lia. }
  assert (Hzero : pages = 0 -> r = (0, s)).
  { intros ->. reflexivity. }
  assert (Href : r = spec_interleave cfg os timeout_per split s).
  { destruct (decide (pages = 0)) as [Hp|Hp].
    - rewrite (Hzero Hp). subst split. rewrite <- split_for_spec.
      rewrite split_for_sum_zero; [reflexivity | done | lia].
    - subst r. unfold mi_reserve_huge_os_pages_interleave.
      fold (interleave_numa_count os numa_nodes). fold n. fold timeout_per.
      destruct (Z.eqb_spec pages 0) as [|_]; [contradiction|].
      assert (Hloop :
        mi_reserve_huge_interleave_loop cfg os n (pages / n) (pages mod n) timeout_per
          (Z.to_nat n) 0 pages s
        = spec_interleave cfg os timeout_per
            (split_for (pages / n) (pages mod n) (seqZ 0 (Z.of_nat (Z.to_nat n)))) s).
      { apply mi_reserve_huge_interleave_loop_refines; rewrite ?Z2Nat.id by lia;
          first [exact Hsum | lia]. }
      rewrite Hloop, Z2Nat.id by lia. by rewrite split_for_spec. }
  split; [exact Hzero|]. split; [exact Href|].
  assert (Hall : Forall (fun q : Z * Z => 0 < fst q /\ 0 <= snd q) split).
  { subst split. rewrite <- split_for_spec. apply split_for_Forall.
    apply Forall_forall. intros k Hk. apply elem_of_seqZ in Hk. lia. }
  destruct (spec_interleave_asks cfg os timeout_per split s Hcount Hall)
    as (evs & Ht & Hok & Hfail).
  rewrite <- Href in Ht, Hok, Hfail.
  exists evs. split; [exact Ht|]. split; [|split].
  - destruct (decide (fst r = 0)) as [E|E].
    + by rewrite (Hok E).
    + destruct (Hfail E) as (done & failed & rest & s_k & Hsp & _ & _ & ->).
      rewrite Hsp. unfold spec_asks. rewrite !map_app. apply prefix_app.
      cbn [map]. apply prefix_cons, prefix_nil.
  - intros E. split; [by apply Hok|]. rewrite (Hok E).
    subst split. rewrite <- split_for_spec.
    rewrite sum_pages_spec_asks by done. by rewrite <- Hsum.
  - exact Hfail.
Qed.

(** ** Instances and counterexamples *)

(** C5 at a concrete double free: the blocks [3, 5) of [s_freed2] are
    free already and are freed again. *)
Lemma C5_double_free_witness :
  let p := fst (fst alloc2) in
  let memid := snd (fst alloc2) in
  let s' := _mi_arena_free cfg64 os_nopurge p (8 * MiB) (8 * MiB) memid s_freed2 in
  (p <> 0 /\ 8 * MiB <> 0 /\ memkind memid = MI_MEM_ARENA
   /\ mi_arenas s_freed2 !! mi_arena_id_index (mem_arena_id memid) = Some arena_freed2
   /\ mi_bitmap_is_xsetN MI_BIT_SET (blocks_free arena_freed2)
        (mem_arena_block_index memid) (mi_block_count_of_size cfg64 (8 * MiB)) = true)
  /\ (forall i, blocks_free <$> (mi_arenas s' !! i)
                = blocks_free <$> (mi_arenas s_freed2 !! i))
  /\ exists evs,
       trace s' = trace s_freed2 ++ evs ++
         [if (mem_arena_block_index memid <=? mi_arena_info_blocks cfg64)
             || (block_count arena_freed2 <? mem_arena_block_index memid)
          then EvError EINVAL "trying to free from an invalid arena block"
          else EvError EAGAIN "trying to free an already freed arena block"].
Proof.
  intros p memid s'.
  assert (Hp : p <> 0) by (vm_compute; discriminate).
  assert (Hs : 8 * MiB <> 0) by (vm_compute; discriminate).
  assert (Hk : memkind memid = MI_MEM_ARENA) by reflexivity.
  assert (Ha : mi_arenas s_freed2 !! mi_arena_id_index (mem_arena_id memid)
               = Some arena_freed2) by (vm_compute; reflexivity).
  assert (Hb : mi_bitmap_is_xsetN MI_BIT_SET (blocks_free arena_freed2)
                 (mem_arena_block_index memid)
                 (mi_block_count_of_size cfg64 (8 * MiB)) = true)
    by (vm_compute; reflexivity).
  split; [by repeat split|].
  apply (C5_double_free_keeps_blocks_free cfg64 os_nopurge p (8 * MiB) (8 * MiB)
           memid s_freed2 arena_freed2 Hp Hs Hk Ha).
  - vm_compute. discriminate.
  - vm_compute. reflexivity.
  - exact Hb.
Defined.

(** C6 at a concrete run: reserve, allocate twice, free once. *)
Lemma C6_descriptor_prefix_witness :
  mi_arenas (run_ops cfg64 ops_example s_init) !! 0 = Some arena_freed2
  /\ 0 <= 0 < mi_arena_info_blocks cfg64
  /\ Z.testbit (blocks_free arena_freed2) 0 = false.
Proof.
  assert (H1 : mi_arenas (run_ops cfg64 ops_example s_init) !! 0 = Some arena_freed2)
    by (vm_compute; reflexivity).
  assert (H2 : 0 <= 0 < mi_arena_info_blocks cfg64)
    by (vm_compute; split; [discriminate | reflexivity]).
  split; [exact H1|]. split; [exact H2|].
  exact (C6_descriptor_prefix_never_free cfg64 ops_example 0 arena_freed2 0 H1 H2).
Defined.

(** C7 as stated fails: a request of [MAX_OBJ_SIZE + 1] bytes, with OS
    allocation disallowed, is outside the bounds and yet is not handed to
    the OS layer; the result is NULL with [errno = ENOMEM]. *)
Lemma C7_not_always_delegated :
  let size := MI_ARENA_MAX_OBJ_SIZE cfg64 + 1 in
  let r := _mi_arena_alloc_aligned cfg64 os_no_os_alloc size (4 * MiB) 0 true false 0
             s_arena16 in
  ~ arena_admissible cfg64 os_no_os_alloc size (4 * MiB) 0 0
  /\ ~ delegated_to_os os_no_os_alloc size (4 * MiB) 0 true false s_arena16 r
  /\ r = ((0, _mi_memid_none), set_errno ENOMEM s_arena16)
  /\ errno (snd r) = ENOMEM
  /\ trace (snd r) = trace s_arena16.
Proof.
  repeat split.
  - intros (_ & [_ H] & _). vm_compute in H. by apply H.
  - intros [_ H]. vm_compute in H. discriminate.
Qed.

(** C7 (amended) at a request of [MAX_OBJ_SIZE + 1] bytes with OS
    allocation allowed: the arena is untouched and the OS is asked. *)
Lemma C7_inadmissible_request_witness :
  let size := MI_ARENA_MAX_OBJ_SIZE cfg64 + 1 in
  let r := _mi_arena_alloc_aligned cfg64 os_nopurge size (4 * MiB) 0 true false 0
             s_arena16 in
  ~ arena_admissible cfg64 os_nopurge size (4 * MiB) 0 0
  /\ mi_arenas (snd r) = mi_arenas s_arena16
  /\ mi_arena_count (snd r) = mi_arena_count s_arena16
  /\ if mi_option_disallow_os_alloc os_nopurge || negb (0 =? 0)
     then r = ((0, _mi_memid_none), set_errno ENOMEM s_arena16)
          /\ fst r = (0, _mi_memid_none)
          /\ errno (snd r) = ENOMEM
          /\ trace (snd r) = trace s_arena16
     else errno (snd r) = errno s_arena16
          /\ delegated_to_os os_nopurge size (4 * MiB) 0 true false s_arena16 r.
Proof.
  intros size r.
  assert (H : ~ arena_admissible cfg64 os_nopurge size (4 * MiB) 0 0).
  { intros (_ & [_ H] & _). vm_compute in H. by apply H. }
  split; [exact H|].
  exact (C7_inadmissible_request_bypasses_arenas cfg64 os_nopurge size (4 * MiB) 0
           true false 0 s_arena16 H).
Defined.

(** C8 as stated fails on a 32-bit platform: with 64 arenas and 128 MiB
    of [arena_reserve] the scaled size, 32 GiB, does not fit in a
    [size_t]; the code leaves the size at 128 MiB, where the claim has it
    scaled and clamped to [max_reserve], 256 MiB. *)
Lemma C8_scaling_skipped_on_overflow :
  mi_arena_reserve_size cfg32 os_reserve_128m 64 (128 * MiB) = 128 * MiB
  /\ claimed_next_arena_size cfg32 os_reserve_128m 64 (128 * MiB) = 256 * MiB
  /\ mi_arena_reserve_size cfg32 os_reserve_128m 64 (128 * MiB)
     <> claimed_next_arena_size cfg32 os_reserve_128m 64 (128 * MiB).
Proof.
  repeat split; try (vm_compute; reflexivity).
  vm_compute. discriminate.
Qed.

(** C8 (amended) with sixteen arenas and 1 GiB of [arena_reserve]: the
    next arena is 4 GiB. *)
Lemma C8_next_arena_size_witness :
  let size := spec_next_arena_size cfg64 os_reserve_1g (mi_arena_count s_16arenas)
                (mi_option_arena_reserve os_reserve_1g) in
  (0 <= MI_SIZE_BITS cfg64
   /\ 0 < MI_ARENA_BLOCK_SIZE cfg64
   /\ 0 <= mi_option_arena_reserve os_reserve_1g
   /\ mi_option_arena_reserve os_reserve_1g + MI_ARENA_BLOCK_SIZE cfg64
      <= 2 ^ MI_SIZE_BITS cfg64
   /\ mi_arena_info_blocks cfg64 + 1 <= MI_BITMAP_MAX_BITS cfg64
   /\ MI_BITMAP_MAX_BITS cfg64 * MI_ARENA_BLOCK_SIZE cfg64 < 2 ^ MI_SIZE_BITS cfg64)
  /\ size = 4096 * MiB
  /\ mi_arena_reserve_size cfg64 os_reserve_1g (mi_arena_count s_16arenas)
       (mi_option_arena_reserve os_reserve_1g) = size
  /\ (size < 8 * MiB ->
      mi_arena_reserve cfg64 os_reserve_1g (8 * MiB) false 0 s_16arenas
      = (false, 0, s_16arenas))
  /\ (8 * MiB <= size ->
      _mi_preloading os_reserve_1g = false ->
      mi_arena_count s_16arenas <= MI_MAX_ARENAS - 4 ->
      mi_option_arena_reserve os_reserve_1g <> 0 ->
      mi_arena_reserve cfg64 os_reserve_1g (8 * MiB) false 0 s_16arenas
      = let '(err, aid, s') :=
          mi_reserve_os_memory_ex cfg64 os_reserve_1g size
            (if mi_option_arena_eager_commit os_reserve_1g =? 2
             then _mi_os_has_overcommit os_reserve_1g
             else if mi_option_arena_eager_commit os_reserve_1g =? 1 then true
                  else false)
            false false s_16arenas in
        (err =? 0, aid, s')).
Proof.
  intros size.
  assert (H1 : 0 <= MI_SIZE_BITS cfg64) by (vm_compute; discriminate).
  assert (H2 : 0 < MI_ARENA_BLOCK_SIZE cfg64) by (vm_compute; reflexivity).
  assert (H3 : 0 <= mi_option_arena_reserve os_reserve_1g) by (vm_compute; discriminate).
  assert (H4 : mi_option_arena_reserve os_reserve_1g + MI_ARENA_BLOCK_SIZE cfg64
               <= 2 ^ MI_SIZE_BITS cfg64) by (vm_compute; discriminate).
  assert (H5 : mi_arena_info_blocks cfg64 + 1 <= MI_BITMAP_MAX_BITS cfg64)
    by (vm_compute; discriminate).
  assert (H6 : MI_BITMAP_MAX_BITS cfg64 * MI_ARENA_BLOCK_SIZE cfg64
               < 2 ^ MI_SIZE_BITS cfg64) by (vm_compute; reflexivity).
  split; [by repeat split|].
  split; [vm_compute; reflexivity|].
  exact (C8_next_arena_size cfg64 os_reserve_1g (8 * MiB) false s_16arenas
           H1 H2 H3 H4 H5 H6).
Defined.

(** C9 as stated fails: when the OS refuses the first node's pages, only
    node 0 is asked, for 2 of the 4 pages. *)
Lemma C9_requests_stop_at_failure :
  let r := mi_reserve_huge_os_pages_interleave cfg64 os_fail 4 2 0 s_init in
  fst r = ENOMEM
  /\ huge_requests (trace (snd r)) = [(2, 0)]
  /\ spec_asks os_fail (spec_interleave_split 4 2) = [(2, 0); (2, 1)]
  /\ sum_pages (huge_requests (trace (snd r))) <> 4.
Proof.
  repeat split; try (vm_compute; reflexivity).
  vm_compute. discriminate.
Qed.

(** C9 (amended) at 5 pages over 2 nodes with an OS that grants them:
    3 pages are asked of node 0 and 2 of node 1. *)
Lemma C9_interleave_requests_witness :
  let cfg := cfg64 in
  let os := os_nopurge in
  let pages := 5 in
  let numa_nodes := 2 in
  let timeout_msecs := 0 in
  let s := s_init in
  let n := interleave_numa_count os numa_nodes in
  let timeout_per := if timeout_msecs =? 0 then 0 else timeout_msecs / n + 50 in
  let split := spec_interleave_split pages n in
  let r := mi_reserve_huge_os_pages_interleave cfg os pages numa_nodes timeout_msecs s in
  (0 <= pages /\ n <= 2 ^ 31 /\ 0 < _mi_os_numa_node_count os)
  /\ fst r = 0
  /\ split = [(3, 0); (2, 1)]
  /\ spec_asks os split = [(3, 0); (2, 1)]
  /\ (pages = 0 -> r = (0, s))
  /\ r = spec_interleave cfg os timeout_per split s
  /\ exists evs,
       trace (snd r) = trace s ++ evs
       /\ huge_requests evs `prefix_of` spec_asks os split
       /\ (fst r = 0 ->
           huge_requests evs = spec_asks os split
           /\ sum_pages (huge_requests evs) = pages)
       /\ (fst r <> 0 ->
           exists done failed rest s_k,
             split = done ++ failed :: rest
             /\ spec_interleave cfg os timeout_per done s = (0, s_k)
             /\ mi_reserve_huge_os_pages_at cfg os (fst failed) (snd failed)
                  timeout_per s_k = r
             /\ huge_requests evs = spec_asks os (done ++ [failed])).
Proof.
  intros cfg os pages numa_nodes timeout_msecs s n timeout_per split r.
  assert (H1 : 0 <= pages) by (vm_compute; discriminate).
  assert (H2 : interleave_numa_count os numa_nodes <= 2 ^ 31)
    by (vm_compute; discriminate).
  assert (H3 : 0 < _mi_os_numa_node_count os) by reflexivity.
  split; [exact (conj H1 (conj H2 H3))|].
  split; [vm_compute; reflexivity|].
  split; [vm_compute; reflexivity|].
  split; [vm_compute; reflexivity|].
  exact (C9_interleave_requests_until_failure cfg os pages numa_nodes timeout_msecs s
           H1 H2 H3).
Defined.

(** C10 at a request for 64 MiB in arena 1, which has only 15 free
    blocks: NULL, [ENOMEM], and nothing else changes. *)
Lemma C10_specific_arena_witness :
  let r := _mi_arena_alloc_aligned cfg64 os_reserve_1g (64 * MiB) (4 * MiB) 0 true
             false 1 s_arena16 in
  1 <> 0
  /\ r = ((0, _mi_memid_none), set_errno ENOMEM s_arena16)
  /\ errno s_arena16 = 0
  /\ ((r = ((0, _mi_memid_none), set_errno ENOMEM s_arena16)
       /\ fst r = (0, _mi_memid_none)
       /\ errno (snd r) = ENOMEM
       /\ trace (snd r) = trace s_arena16
       /\ mi_arenas (snd r) = mi_arenas s_arena16
       /\ mi_arena_count (snd r) = mi_arena_count s_arena16)
      \/ (arena_admissible cfg64 os_reserve_1g (64 * MiB) (4 * MiB) 0 1
          /\ exists p memid,
               mi_arena_try_alloc_at_id cfg64 os_reserve_1g 1 true
                 (_mi_os_numa_node os_reserve_1g) (64 * MiB) (4 * MiB) true false 1
                 (_mi_thread_seq_id os_reserve_1g) s_arena16
               = (Some (p, memid), snd r)
               /\ fst r = (p, memid))).
Proof.
  intros r.
  assert (H : (1 : Z) <> 0) by (vm_compute; discriminate).
  split; [exact H|].
  split; [vm_compute; reflexivity|].
  split; [reflexivity|].
  exact (C10_specific_arena_no_reserve_no_os cfg64 os_reserve_1g (64 * MiB) (4 * MiB) 0
           true false 1 s_arena16 H).
Defined.

(** ** How claims, frees and purges change the registry *)

Lemma arena_evolves_refl (a : mi_arena_t) : arena_evolves a a.
Proof. unfold arena_evolves. repeat split; auto. Qed.

Lemma arena_evolves_trans (a1 a2 a3 : mi_arena_t) :
  arena_evolves a1 a2 -> arena_evolves a2 a3 -> arena_evolves a1 a3.
Proof.
  unfold arena_evolves.
  intros (A1 & A2 & A3 & A4 & A5 & A6 & A7 & A8 & A9 & A10)
         (B1 & B2 & B3 & B4 & B5 & B6 & B7 & B8 & B9 & B10).
  repeat split; try congruence; auto.
Qed.

Lemma registry_evolves_refl (s : mi_state) : registry_evolves s s.
Proof.
  split; [reflexivity|]. intros idx.
  destruct (mi_arenas s !! idx); constructor. apply arena_evolves_refl.
Qed.

Lemma registry_evolves_trans (s1 s2 s3 : mi_state) :
  registry_evolves s1 s2 -> registry_evolves s2 s3 -> registry_evolves s1 s3.
Proof.
  intros [C1 H1] [C2 H2]. split; [congruence|]. intros idx.
  specialize (H1 idx). specialize (H2 idx).
  destruct H1 as [a1 a2 E1|]; inversion H2; subst; constructor.
  eapply arena_evolves_trans; eassumption.
Qed.

Lemma registry_evolves_log_only (s s' : mi_state) :
  log_only s s' -> registry_evolves s s'.
Proof.
  intros (Ha & Hc & _). split; [exact Hc|]. intros idx. rewrite Ha.
  destruct (mi_arenas s !! idx); constructor. apply arena_evolves_refl.
Qed.

(** Writing an evolved descriptor back to its slot. *)
Lemma registry_evolves_store (s s1 : mi_state) (idx : Z) (a a' : mi_arena_t) :
  log_only s s1 ->
  mi_arenas s !! idx = Some a ->
  arena_evolves a a' ->
  registry_evolves s (store_arena idx a' s1).
Proof.
  intros (Ha & Hc & _) Hslot Hev. split; [exact Hc|]. intros i. simpl. rewrite Ha.
  destruct (decide (i = idx)) as [->|Hne].
  - rewrite lookup_insert_eq, Hslot. by constructor.
  - rewrite lookup_insert_ne by done.
    destruct (mi_arenas s !! i); constructor. apply arena_evolves_refl.
Qed.

(** The three ways a bitmap of a descriptor is rewritten. *)
Lemma arena_evolves_set_free (a : mi_arena_t) (v : mi_bitmap) :
  arena_evolves a (set_blocks_free a v).
Proof. unfold arena_evolves. repeat split; auto. Qed.

Lemma arena_evolves_set_committed (a : mi_arena_t) (v : mi_bitmap) :
  arena_evolves a (set_blocks_committed a v).
Proof. unfold arena_evolves. repeat split; auto. Qed.

Lemma arena_evolves_set_dirty (a : mi_arena_t) (m : Z) :
  arena_evolves a (set_blocks_dirty a (Z.lor (blocks_dirty a) m)).
Proof.
  unfold arena_evolves. repeat split; auto.
  intros i Hi. simpl. rewrite Z.lor_spec, Hi. reflexivity.
Qed.

Lemma arena_evolves_clear_purge (a : mi_arena_t) (m : Z) :
  arena_evolves a (set_blocks_purge a (Z.ldiff (blocks_purge a) m)).
Proof.
  unfold arena_evolves. repeat split; auto.
  intros i. simpl. rewrite Z.ldiff_spec. intros H.
  by apply andb_true_iff in H as [H _].
Qed.

#[local] Hint Resolve arena_evolves_refl arena_evolves_set_free
  arena_evolves_set_committed arena_evolves_set_dirty arena_evolves_clear_purge
  : arena.

Lemma mi_arena_purge_evolves cfg os arena block_idx blocks s :
  arena_evolves arena (fst (mi_arena_purge cfg os arena block_idx blocks s)).
Proof.
  unfold mi_arena_purge, mi_bitmap_xsetN.
  destruct (mi_bitmap_is_xsetN _ _ _ _); simpl.
  - destruct (_mi_os_purge os _ _ _); simpl; [|auto with arena].
    eapply arena_evolves_trans; [apply arena_evolves_clear_purge|].
    apply arena_evolves_set_committed.
  - destruct (_mi_os_purge_ex os _ _ _ _); simpl; [|auto with arena].
    eapply arena_evolves_trans; [apply arena_evolves_clear_purge|].
    apply arena_evolves_set_committed.
Qed.

Lemma mi_arena_schedule_purge_evolves cfg os arena block_idx blocks s :
  arena_evolves arena (fst (mi_arena_schedule_purge cfg os arena block_idx blocks s)).
Proof.
  unfold mi_arena_schedule_purge.
  destruct (_ <? 0); [apply arena_evolves_refl|].
  destruct (_ || _); [apply mi_arena_purge_evolves | apply arena_evolves_refl].
Qed.

(** A claim rewrites the descriptor of its slot and nothing else. *)
Lemma mi_arena_try_alloc_at_evolves cfg os arena arena_index needed_bcount commit tseq s :
  mi_arenas s !! arena_index = Some arena ->
  registry_evolves s
    (snd (mi_arena_try_alloc_at cfg os arena arena_index needed_bcount commit tseq s)).
Proof.
  intros Hslot. unfold mi_arena_try_alloc_at, mi_bitmap_xsetN.
  destruct (mi_bitmap_try_find_and_clearN _ _ _ _) as [[bfree block_index]|];
    [|apply registry_evolves_refl].
  assert (Hd : forall m, arena_evolves arena
                 (set_blocks_dirty (set_blocks_free arena bfree)
                    (Z.lor (blocks_dirty (set_blocks_free arena bfree)) m))).
  { intros m. eapply arena_evolves_trans; [apply arena_evolves_set_free|].
    apply arena_evolves_set_dirty. }
  assert (Hc : forall a' v, arena_evolves arena a' ->
                 arena_evolves arena (set_blocks_committed a' v)).
  { intros a' v H. eapply arena_evolves_trans; [exact H|].
    apply arena_evolves_set_committed. }
  destruct (initially_zero (arena_memid _)); cbn [fst snd];
    (destruct commit;
     [destruct (negb _); [destruct (_mi_os_commit os _ _ _)|]|]);
    cbn [fst snd];
    (eapply registry_evolves_store;
     [first [apply log_only_refl | apply log_only_emit] | exact Hslot
     | first [apply Hc; first [apply Hd | apply arena_evolves_set_free]
             | apply Hd | apply arena_evolves_set_free]]).
Qed.

Lemma mi_arena_try_alloc_at_id_evolves cfg os arena_id match_numa_node numa_node size
  alignment commit allow_large req_arena_id tseq s :
  registry_evolves s
    (snd (mi_arena_try_alloc_at_id cfg os arena_id match_numa_node numa_node size
            alignment commit allow_large req_arena_id tseq s)).
Proof.
  unfold mi_arena_try_alloc_at_id.
  destruct (_ <? alignment); [apply registry_evolves_refl|].
  destruct (mi_arena_from_index _ _) as [arena|] eqn:Hslot; [|apply registry_evolves_refl].
  destruct (_ && _); [apply registry_evolves_refl|].
  destruct (negb _); [apply registry_evolves_refl|].
  destruct (_ && _); [apply registry_evolves_refl|].
  by apply mi_arena_try_alloc_at_evolves.
Qed.

Lemma mi_arena_try_alloc_loop_evolves cfg os match_numa_node numa_node size alignment
  commit allow_large req_arena_id tseq k : forall i s,
  registry_evolves s
    (snd (mi_arena_try_alloc_loop cfg os match_numa_node numa_node size alignment
            commit allow_large req_arena_id tseq k i s)).
Proof.
  induction k as [|k IH]; intros i s; cbn [mi_arena_try_alloc_loop];
    [apply registry_evolves_refl|].
  pose proof (mi_arena_try_alloc_at_id_evolves cfg os (mi_arena_id_create i)
                match_numa_node numa_node size alignment commit allow_large
                req_arena_id tseq s) as H1.
  destruct (mi_arena_try_alloc_at_id _ _ _ _ _ _ _ _ _ _ _ _) as [[r|] s1];
    simpl in *; [exact H1|].
  eapply registry_evolves_trans; [exact H1 | apply IH].
Qed.

Lemma mi_arena_try_alloc_evolves cfg os numa_node size alignment commit allow_large
  req_arena_id tseq s :
  registry_evolves s
    (snd (mi_arena_try_alloc cfg os numa_node size alignment commit allow_large
            req_arena_id tseq s)).
Proof.
  unfold mi_arena_try_alloc.
  destruct (_ <? alignment); [apply registry_evolves_refl|].
  destruct (_ =? 0); [apply registry_evolves_refl|].
  destruct (negb _).
  - destruct (_ <? _); [apply mi_arena_try_alloc_at_id_evolves
                       | apply registry_evolves_refl].
  - pose proof (mi_arena_try_alloc_loop_evolves cfg os true numa_node size alignment
                  commit allow_large req_arena_id tseq (Z.to_nat (mi_arena_count s))
                  0 s) as H1.
    destruct (mi_arena_try_alloc_loop _ _ _ _ _ _ _ _ _ _ _ _ _) as [[r|] s1];
      simpl in *; [exact H1|].
    destruct (0 <=? numa_node); [|exact H1].
    eapply registry_evolves_trans; [exact H1 | apply mi_arena_try_alloc_loop_evolves].
Qed.

Lemma free_decommit_step_evolves cfg os (arena : mi_arena_t) (all_committed : bool)
  (committed_size block_idx blocks : Z) (s : mi_state) (arena' : mi_arena_t)
  (s' : mi_state) :
  (if is_pinned (arena_memid arena) || initially_committed (arena_memid arena)
   then (arena, s)
   else
     let '(arena0, s0) :=
       if negb all_committed then
         (set_blocks_committed arena
            (fst (fst (mi_bitmap_xsetN MI_BIT_CLEAR (blocks_committed arena)
                         blocks block_idx))),
          if 0 <? committed_size
          then emit (EvStatCommitted (- committed_size)) s else s)
       else (arena, s) in
     mi_arena_schedule_purge cfg os arena0 block_idx blocks s0) = (arena', s') ->
  arena_evolves arena arena'.
Proof.
  destruct (_ || _).
  - intros [= <- <-]. apply arena_evolves_refl.
  - destruct (negb all_committed); intros H.
    + eapply arena_evolves_trans; [apply arena_evolves_set_committed|].
      match type of H with
      | mi_arena_schedule_purge ?c ?o ?a ?b ?n ?st = _ =>
          pose proof (mi_arena_schedule_purge_evolves c o a b n st) as He
      end.
      rewrite H in He. exact He.
    + pose proof (mi_arena_schedule_purge_evolves cfg os arena block_idx blocks s) as He.
      rewrite H in He. exact He.
Qed.

Lemma _mi_arena_free_evolves cfg os p size committed_size memid s :
  registry_evolves s (_mi_arena_free cfg os p size committed_size memid s).
Proof.
  unfold _mi_arena_free.
  destruct (p =? 0); [apply registry_evolves_refl|].
  destruct (size =? 0); [apply registry_evolves_refl|].
  destruct (mi_memkind_is_os _).
  { apply registry_evolves_log_only.
    eapply log_only_trans; [|apply mi_arenas_try_purge_log_only].
    apply log_only_emit_r. destruct (_ && _); auto with arena. }
  destruct (memkind memid);
    try (apply registry_evolves_log_only, mi_arenas_try_purge_log_only).
  cbn [mi_arena_memid_indices].
  destruct (mi_arenas s !! _) as [arena|] eqn:Hslot;
    [|apply registry_evolves_log_only; auto with arena].
  destruct (_ || _); [apply registry_evolves_log_only; auto with arena|].
  match goal with
  | |- context [let '(_, _) := ?X in _] => destruct X as [arena' s1] eqn:Hstep
  end.
  pose proof (free_decommit_step_evolves _ _ _ _ _ _ _ _ _ _ Hstep) as Hev.
  apply free_decommit_step in Hstep as [_ Hlog].
  unfold mi_bitmap_xsetN.
  assert (Hst : registry_evolves s
            (store_arena (mi_arena_id_index (mem_arena_id memid))
               (set_blocks_free arena'
                  (Z.lor (blocks_free arena')
                     (mi_bits_mask (mem_arena_block_index memid)
                        (mi_block_count_of_size cfg size)))) s1)).
  { eapply registry_evolves_store; [exact Hlog | exact Hslot|].
    eapply arena_evolves_trans; [exact Hev | apply arena_evolves_set_free]. }
  destruct (negb _).
  - eapply registry_evolves_trans; [exact Hst|].
    apply registry_evolves_log_only, log_only_emit.
  - eapply registry_evolves_trans; [exact Hst|].
    apply registry_evolves_log_only, mi_arenas_try_purge_log_only.
Qed.

(** ** Placement *)

Lemma mi_arena_try_alloc_loop_None cfg os match_numa_node numa_node size alignment
  commit allow_large req_arena_id tseq k : forall i s s',
  mi_arena_try_alloc_loop cfg os match_numa_node numa_node size alignment commit
    allow_large req_arena_id tseq k i s = (None, s') ->
  s' = s.
Proof.
  induction k as [|k IH]; intros i s s'; cbn [mi_arena_try_alloc_loop];
    [congruence|].
  destruct (mi_arena_try_alloc_at_id _ _ _ _ _ _ _ _ _ _ _ _) as [[r|] s1] eqn:E;
    [discriminate|].
  apply mi_arena_try_alloc_at_id_None in E as ->. apply IH.
Qed.

Lemma mi_arena_try_alloc_None cfg os numa_node size alignment commit allow_large
  req_arena_id tseq s s' :
  mi_arena_try_alloc cfg os numa_node size alignment commit allow_large req_arena_id
    tseq s = (None, s') ->
  s' = s.
Proof.
  unfold mi_arena_try_alloc.
  destruct (_ <? alignment); [congruence|].
  destruct (_ =? 0); [congruence|].
  destruct (negb _).
  - destruct (_ <? _); [apply mi_arena_try_alloc_at_id_None | congruence].
  - destruct (mi_arena_try_alloc_loop _ _ _ _ _ _ _ _ _ _ _ _ _) as [[r|] s1] eqn:E;
      [discriminate|].
    apply mi_arena_try_alloc_loop_None in E as ->.
    destruct (0 <=? numa_node); [apply mi_arena_try_alloc_loop_None | congruence].
Qed.

Lemma mi_arena_try_alloc_at_placed cfg os arena arena_index needed_bcount commit tseq
  s p memid s1 :
  mi_arena_try_alloc_at cfg os arena arena_index needed_bcount commit tseq s
  = (Some (p, memid), s1) ->
  memkind memid = MI_MEM_ARENA
  /\ mem_arena_id memid = arena_ident arena
  /\ mem_arena_is_exclusive memid = exclusive arena
  /\ is_pinned memid = is_pinned (arena_memid arena)
  /\ p = mi_arena_block_start cfg arena (mem_arena_block_index memid).
Proof.
  unfold mi_arena_try_alloc_at, mi_bitmap_xsetN.
  destruct (mi_bitmap_try_find_and_clearN _ _ _ _) as [[bfree block_index]|];
    [|discriminate].
  destruct (initially_zero (arena_memid _)); cbn [fst snd];
    (destruct commit;
     [destruct (negb _); [destruct (_mi_os_commit os _ _ _) as [[|] [|]]|]|]);
    intros [= <- <- <-]; repeat split.
Qed.

Lemma mi_arena_try_alloc_at_claims_range cfg os arena arena_index needed_bcount commit
  tseq s p memid s1 :
  0 < MI_BITMAP_CHUNK_COUNT cfg ->
  mi_arena_try_alloc_at cfg os arena arena_index needed_bcount commit tseq s
  = (Some (p, memid), s1) ->
  exists arena',
    mi_arenas s1 = <[arena_index := arena']> (mi_arenas s)
    /\ claims_range cfg arena arena' (mem_arena_block_index memid) needed_bcount.
Proof.
  intros Hcc. unfold mi_arena_try_alloc_at.
  destruct (mi_bitmap_try_find_and_clearN _ _ _ _) as [[bfree block_index]|] eqn:Hfind;
    [|discriminate].
  apply mi_bitmap_try_find_and_clearN_sound in Hfind as (Hn & Hi & Hmax & Hset & ->);
    [|done].
  unfold mi_bitmap_xsetN, claims_range.
  destruct (initially_zero (arena_memid _)); cbn [fst snd];
    (destruct commit;
     [destruct (negb _); [destruct (_mi_os_commit os _ _ _) as [[|] [|]]|]|]);
    intros [= <- <- <-]; eexists; (split; [reflexivity|]); repeat split; done.
Qed.

Lemma mi_arena_try_alloc_at_id_spec cfg os arena_id match_numa_node numa_node size
  alignment commit allow_large req_arena_id tseq s p memid s1 :
  0 < MI_BITMAP_CHUNK_COUNT cfg ->
  mi_arena_try_alloc_at_id cfg os arena_id match_numa_node numa_node size alignment
    commit allow_large req_arena_id tseq s = (Some (p, memid), s1) ->
  exists arena arena',
    mi_arenas s !! mi_arena_id_index arena_id = Some arena
    /\ mi_arenas s1 = <[mi_arena_id_index arena_id := arena']> (mi_arenas s)
    /\ placed_in cfg alignment allow_large req_arena_id arena p memid
    /\ claims_range cfg arena arena' (mem_arena_block_index memid)
         (mi_block_count_of_size cfg size).
Proof.
  intros Hcc. unfold mi_arena_try_alloc_at_id.
  destruct (Z.ltb_spec (MI_ARENA_BLOCK_ALIGN cfg) alignment) as [|Hal];
    [discriminate|].
  destruct (mi_arena_from_index _ _) as [arena|] eqn:Hslot; [|discriminate].
  destruct (negb allow_large && is_large arena) eqn:Hlarge; [discriminate|].
  destruct (mi_arena_id_is_suitable _ _ _) eqn:Hsuit; [|discriminate]. cbn [negb].
  destruct ((req_arena_id =? _mi_arena_id_none) && _); [discriminate|].
  intros H.
  pose proof (mi_arena_try_alloc_at_placed _ _ _ _ _ _ _ _ _ _ _ H)
    as (H1 & H2 & H3 & H4 & H5).
  apply mi_arena_try_alloc_at_claims_range in H as (arena' & Hs1 & Hcl); [|done].
  exists arena, arena'. split; [exact Hslot|]. split; [exact Hs1|].
  split; [|exact Hcl].
  unfold placed_in. repeat split; try assumption.
  intros ->. exact Hlarge.
Qed.

Lemma mi_arena_id_index_create (i : Z) :
  0 <= i -> mi_arena_id_index (mi_arena_id_create i) = i.
Proof.
  intros Hi. unfold mi_arena_id_index, mi_arena_id_create.
  destruct (Z.leb_spec (i + 1) 0); lia.
Qed.

Lemma mi_arena_try_alloc_loop_spec cfg os match_numa_node numa_node size alignment
  commit allow_large req_arena_id tseq k : forall i s p memid s1,
  0 < MI_BITMAP_CHUNK_COUNT cfg -> 0 <= i ->
  mi_arena_try_alloc_loop cfg os match_numa_node numa_node size alignment commit
    allow_large req_arena_id tseq k i s = (Some (p, memid), s1) ->
  exists idx arena arena',
    i <= idx < i + Z.of_nat k
    /\ mi_arenas s !! idx = Some arena
    /\ mi_arenas s1 = <[idx := arena']> (mi_arenas s)
    /\ placed_in cfg alignment allow_large req_arena_id arena p memid
    /\ claims_range cfg arena arena' (mem_arena_block_index memid)
         (mi_block_count_of_size cfg size).
Proof.
  induction k as [|k IH]; intros i s p memid s1 Hcc Hi;
    cbn [mi_arena_try_alloc_loop]; [discriminate|].
  destruct (mi_arena_try_alloc_at_id _ _ _ _ _ _ _ _ _ _ _ _) as [[r|] s2] eqn:E.
  - intros [= -> ->].
    apply mi_arena_try_alloc_at_id_spec in E as (arena & arena' & H1 & H2 & H3 & H4);
      [|done].
    rewrite mi_arena_id_index_create in H1, H2 by done.
    exists i, arena, arena'. split; [lia|]. by repeat (split; [assumption|]).
  - apply mi_arena_try_alloc_at_id_None in E as ->. intros H.
    apply IH in H as (idx & arena & arena' & Hidx & H); [|done|lia].
    exists idx, arena, arena'. split; [lia | exact H].
Qed.

(** A request that [mi_arena_try_alloc] serves is served from a slot
    below the arena count; the slot's descriptor is the only thing that
    changes. *)
Lemma mi_arena_try_alloc_spec cfg os numa_node size alignment commit allow_large
  req_arena_id tseq s p memid s1 :
  0 < MI_BITMAP_CHUNK_COUNT cfg ->
  mi_arena_try_alloc cfg os numa_node size alignment commit allow_large req_arena_id
    tseq s = (Some (p, memid), s1) ->
  exists idx arena arena',
    0 <= idx < mi_arena_count s
    /\ mi_arenas s !! idx = Some arena
    /\ mi_arenas s1 = <[idx := arena']> (mi_arenas s)
    /\ placed_in cfg alignment allow_large req_arena_id arena p memid
    /\ claims_range cfg arena arena' (mem_arena_block_index memid)
         (mi_block_count_of_size cfg size).
Proof.
  intros Hcc. unfold mi_arena_try_alloc.
  destruct (_ <? alignment); [discriminate|].
  destruct (_ =? 0); [discriminate|].
  destruct (negb _).
  - destruct (Z.ltb_spec (mi_arena_id_index req_arena_id) (mi_arena_count s))
      as [Hlt|]; [|discriminate].
    intros H.
    apply mi_arena_try_alloc_at_id_spec in H as (arena & arena' & H); [|done].
    exists (mi_arena_id_index req_arena_id), arena, arena'. split; [|exact H].
    split; [|exact Hlt]. unfold mi_arena_id_index, MI_MAX_ARENAS.
    destruct (Z.leb_spec req_arena_id 0); lia.
  - assert (Hloop : forall m s0,
      mi_arena_try_alloc_loop cfg os m numa_node size alignment commit allow_large
        req_arena_id tseq (Z.to_nat (mi_arena_count s)) 0 s0 = (Some (p, memid), s1) ->
      exists idx arena arena',
        0 <= idx < mi_arena_count s
        /\ mi_arenas s0 !! idx = Some arena
        /\ mi_arenas s1 = <[idx := arena']> (mi_arenas s0)
        /\ placed_in cfg alignment allow_large req_arena_id arena p memid
        /\ claims_range cfg arena arena' (mem_arena_block_index memid)
             (mi_block_count_of_size cfg size)).
    { intros m s0 H.
      apply mi_arena_try_alloc_loop_spec in H
        as (idx & arena & arena' & Hidx & H); [|done|lia].
      exists idx, arena, arena'. split; [lia | exact H]. }
    destruct (mi_arena_try_alloc_loop _ _ _ _ _ _ _ _ _ _ _ _ _) as [[r|] s2] eqn:E.
    + intros [= -> ->]. by apply Hloop in E.
    + apply mi_arena_try_alloc_loop_None in E as ->.
      destruct (0 <=? numa_node); [apply Hloop | discriminate].
Qed.

(** ** The registry stays well formed *)

Section RegistryWf.
Context (cfg : mi_config).

Lemma arena_wf_evolves (idx : Z) (a a' : mi_arena_t) :
  arena_evolves a a' -> arena_wf cfg idx a -> arena_wf cfg idx a'.
Proof.
  intros (_ & _ & E3 & E4 & _ & _ & _ & E8 & Hp & Hd) (W1 & W2 & W3 & W4 & W5).
  unfold arena_wf. rewrite E3, E4, E8. repeat split; try assumption; try lia.
  - apply Z.bits_inj_0. intros i.
    destruct (Z.testbit (blocks_purge a') i) eqn:E; [|reflexivity].
    apply Hp in E. rewrite W3, Z.bits_0 in E. discriminate.
  - intros i Hi. apply Hd, W5, Hi.
Qed.

Lemma registry_wf_evolves (s s' : mi_state) :
  registry_evolves s s' -> registry_wf cfg s -> registry_wf cfg s'.
Proof.
  intros [Hc He] [Wc Ws]. split; [by rewrite Hc|].
  intros idx a' Hslot. specialize (He idx). rewrite Hslot in He.
  inversion He as [a ? Hev Ha|]; subst. symmetry in Ha.
  destruct (Ws idx a Ha) as [Hi Hw]. split; [exact Hi|].
  by apply (arena_wf_evolves idx a).
Qed.

Lemma registry_wf_same (s s' : mi_state) :
  mi_arenas s' = mi_arenas s -> mi_arena_count s' = mi_arena_count s ->
  registry_wf cfg s -> registry_wf cfg s'.
Proof. intros Ha Hc [Wc Ws]. split; [by rewrite Hc | by rewrite Ha]. Qed.

Lemma registry_wf_log_only (s s' : mi_state) :
  log_only s s' -> registry_wf cfg s -> registry_wf cfg s'.
Proof. intros (Ha & Hc & _). by apply registry_wf_same. Qed.

Lemma registry_wf_emit (e : event) (s : mi_state) :
  registry_wf cfg s -> registry_wf cfg (emit e s).
Proof. by apply registry_wf_same. Qed.

Lemma registry_wf_init : registry_wf cfg s_init.
Proof.
  split; [simpl; unfold MI_MAX_ARENAS; lia|].
  intros idx a H. simpl in H. by rewrite lookup_empty in H.
Qed.

(** A new descriptor gets the id of the slot it is stored in. *)
Lemma registry_wf_arena_add (arena : mi_arena_t) (s : mi_state) :
  purge_expire arena = 0 -> blocks_purge arena = 0 ->
  mi_arena_info_blocks cfg + 1 <= block_count arena <= MI_BITMAP_MAX_BITS cfg ->
  (forall i, 0 <= i < mi_arena_info_blocks cfg ->
             Z.testbit (blocks_dirty arena) i = true) ->
  registry_wf cfg s -> registry_wf cfg (snd (mi_arena_add arena s)).
Proof.
  intros H1 H2 H3 H4 [Wc Ws].
  unfold mi_arena_add, store_arena, emit, set_arena_count, set_arena_id.
  destruct (Z.leb_spec MI_MAX_ARENAS (mi_arena_count s)) as [|Hlt]; simpl.
  - by split.
  - split; simpl; [unfold MI_MAX_ARENAS in *; lia|]. intros idx a.
    destruct (decide (idx = mi_arena_count s)) as [->|Hne].
    + rewrite lookup_insert_eq. intros [= <-].
      split; [unfold MI_MAX_ARENAS in *; lia|].
      unfold arena_wf. simpl. repeat split; try assumption; lia.
    + rewrite lookup_insert_ne by done. apply Ws.
Qed.

Lemma registry_wf_manage_os_memory_ex2 start size is_large numa_node exclusive memid
  aid s :
  registry_wf cfg s ->
  registry_wf cfg
    (snd (mi_manage_os_memory_ex2 cfg start size is_large numa_node exclusive memid
            aid s)).
Proof.
  intros Hs. unfold mi_manage_os_memory_ex2.
  destruct (start =? 0); [exact Hs|].
  destruct (negb _); [by apply registry_wf_emit|].
  destruct (Z.ltb_spec (size / MI_ARENA_BLOCK_SIZE cfg) (mi_arena_info_blocks cfg + 1));
    [by apply registry_wf_emit|].
  destruct (Z.ltb_spec (MI_BITMAP_MAX_BITS cfg) (size / MI_ARENA_BLOCK_SIZE cfg));
    [by apply registry_wf_emit|].
  apply registry_wf_arena_add;
    cbn [purge_expire blocks_purge block_count blocks_dirty];
    try reflexivity; try lia.
  - intros i Hi. unfold mi_bitmap_init, mi_bitmap_xsetN. cbn [fst].
    rewrite Z.lor_0_l, mi_bits_mask_testbit by lia.
    apply andb_true_intro; split; [apply Z.leb_le | apply Z.ltb_lt]; lia.
  - destruct (negb _); [by apply registry_wf_emit | exact Hs].
Qed.

Context (os : mi_os).

Lemma registry_wf_reserve_os_memory_ex size commit allow_large exclusive s :
  registry_wf cfg s ->
  registry_wf cfg (snd (mi_reserve_os_memory_ex cfg os size commit allow_large exclusive s)).
Proof.
  intros Hs. unfold mi_reserve_os_memory_ex.
  destruct (_mi_os_alloc_aligned os _ _ _ _ _) as [start memid].
  destruct (start =? 0); [by apply registry_wf_emit|].
  match goal with
  | |- context [mi_manage_os_memory_ex2 ?c ?a ?b ?d ?e ?f ?g ?h ?st] =>
      pose proof (registry_wf_manage_os_memory_ex2 a b d e f g h st
                    (registry_wf_emit _ _ Hs)) as H1;
      destruct (mi_manage_os_memory_ex2 c a b d e f g h st) as [[[|] aid] s1]
  end; simpl in *; [exact H1 | by apply registry_wf_emit].
Qed.

Lemma registry_wf_arena_reserve req_size allow_large req_arena_id s :
  registry_wf cfg s ->
  registry_wf cfg (snd (mi_arena_reserve cfg os req_size allow_large req_arena_id s)).
Proof.
  intros Hs. unfold mi_arena_reserve.
  destruct (_mi_preloading os); [exact Hs|].
  destruct (negb _); [exact Hs|].
  destruct (_ <? _); [exact Hs|].
  destruct (_ =? 0); [exact Hs|].
  destruct (_ <? req_size); [exact Hs|].
  match goal with
  | |- context [mi_reserve_os_memory_ex ?c ?o ?a ?b ?d ?e ?st] =>
      pose proof (registry_wf_reserve_os_memory_ex a b d e st Hs) as H1;
      destruct (mi_reserve_os_memory_ex c o a b d e st) as [[err aid] s1]
  end. exact H1.
Qed.

Lemma registry_wf_alloc_fallback size alignment align_offset commit allow_large
  req_arena_id s :
  registry_wf cfg s ->
  registry_wf cfg
    (snd (mi_arena_alloc_fallback os size alignment align_offset commit allow_large
            req_arena_id s)).
Proof.
  intros Hs.
  destruct (mi_arena_alloc_fallback_spec os size alignment align_offset commit
              allow_large req_arena_id s) as (Ha & Hc & _).
  by apply (registry_wf_same s).
Qed.

Lemma registry_wf_alloc_aligned size alignment align_offset commit allow_large
  req_arena_id s :
  registry_wf cfg s ->
  registry_wf cfg
    (snd (_mi_arena_alloc_aligned cfg os size alignment align_offset commit
            allow_large req_arena_id s)).
Proof.
  intros Hs. unfold _mi_arena_alloc_aligned.
  destruct (_ && _); [|by apply registry_wf_alloc_fallback].
  pose proof (registry_wf_evolves _ _
                (mi_arena_try_alloc_evolves cfg os (_mi_os_numa_node os) size alignment
                   commit allow_large req_arena_id (_mi_thread_seq_id os) s) Hs) as H1.
  destruct (mi_arena_try_alloc _ _ _ _ _ _ _ _ _ _) as [[r|] s1]; simpl in H1;
    [exact H1|].
  destruct (req_arena_id =? _mi_arena_id_none).
  - pose proof (registry_wf_arena_reserve size allow_large req_arena_id s1 H1) as H2.
    destruct (mi_arena_reserve _ _ _ _ _ _) as [[[|] arena_id] s2]; simpl in H2.
    + pose proof (registry_wf_evolves _ _
                    (mi_arena_try_alloc_at_id_evolves cfg os arena_id true
                       (_mi_os_numa_node os) size alignment commit allow_large
                       req_arena_id (_mi_thread_seq_id os) s2) H2) as H3.
      destruct (mi_arena_try_alloc_at_id _ _ _ _ _ _ _ _ _ _ _ _) as [[r|] s3];
        simpl in H3; [exact H3 | by apply registry_wf_alloc_fallback].
    + by apply registry_wf_alloc_fallback.
  - by apply registry_wf_alloc_fallback.
Qed.

Lemma registry_wf_reserve_huge_os_pages_at_ex pages numa_node timeout_msecs exclusive s :
  registry_wf cfg s ->
  registry_wf cfg
    (snd (mi_reserve_huge_os_pages_at_ex cfg os pages numa_node timeout_msecs
            exclusive s)).
Proof.
  intros Hs. unfold mi_reserve_huge_os_pages_at_ex.
  destruct (pages =? 0); [exact Hs|].
  destruct (_mi_os_alloc_huge_os_pages os _ _ _ _) as [[[p pages_reserved] hsize] memid].
  destruct (_ || _); [by do 2 apply registry_wf_emit|].
  match goal with
  | |- context [mi_manage_os_memory_ex2 ?c ?a ?b ?d ?e ?f ?g ?h ?st] =>
      pose proof (registry_wf_manage_os_memory_ex2 a b d e f g h st
                    (registry_wf_emit _ _ Hs)) as H1;
      destruct (mi_manage_os_memory_ex2 c a b d e f g h st) as [[[|] aid] s1]
  end; simpl in *; [exact H1 | by apply registry_wf_emit].
Qed.

Lemma registry_wf_reserve_huge_interleave_loop numa_count pages_per pages_mod
  timeout_per k : forall numa_node pages s,
  registry_wf cfg s ->
  registry_wf cfg
    (snd (mi_reserve_huge_interleave_loop cfg os numa_count pages_per pages_mod
            timeout_per k numa_node pages s)).
Proof.
  induction k as [|k IH]; intros numa_node pages s Hs;
    cbn [mi_reserve_huge_interleave_loop]; [exact Hs|].
  destruct (_ && _); [|exact Hs].
  unfold mi_reserve_huge_os_pages_at.
  match goal with
  | |- context [mi_reserve_huge_os_pages_at_ex ?c ?o ?a ?b ?d ?e ?st] =>
      pose proof (registry_wf_reserve_huge_os_pages_at_ex a b d e st Hs) as H1;
      destruct (mi_reserve_huge_os_pages_at_ex c o a b d e st) as [[err aid] s1]
  end. simpl in H1.
  destruct (negb _); [exact H1 | by apply IH].
Qed.

Lemma registry_wf_destroy_loop (k : nat) : forall i s,
  registry_wf cfg s -> registry_wf cfg (mi_arenas_unsafe_destroy_loop cfg k i s).
Proof.
  induction k as [|k IH]; intros i s Hs; cbn [mi_arenas_unsafe_destroy_loop];
    [exact Hs|].
  apply IH.
  destruct (mi_arenas s !! i) as [arena|]; [|exact Hs].
  destruct (mi_memkind_is_os _); [|exact Hs].
  apply registry_wf_emit. destruct Hs as [Wc Ws]. split; [exact Wc|].
  intros idx a. simpl. intros H.
  apply lookup_delete_Some in H as [_ H]. by apply Ws.
Qed.

Lemma registry_wf_destroy_all s :
  registry_wf cfg s -> registry_wf cfg (_mi_arena_unsafe_destroy_all cfg os s).
Proof.
  intros Hs. unfold _mi_arena_unsafe_destroy_all, _mi_arenas_collect.
  eapply registry_wf_log_only; [apply mi_arenas_try_purge_log_only|].
  unfold mi_arenas_unsafe_destroy.
  pose proof (registry_wf_destroy_loop (Z.to_nat (mi_arena_count s)) 0 s Hs) as [Wc Ws].
  destruct (_ =? _); [|by split].
  split; [simpl; unfold MI_MAX_ARENAS; lia | exact Ws].
Qed.

Lemma registry_wf_run_op op s :
  registry_wf cfg s -> registry_wf cfg (run_op cfg os op s).
Proof.
  intros Hs. destruct op; simpl.
  - by apply registry_wf_alloc_aligned.
  - eapply registry_wf_evolves; [apply _mi_arena_free_evolves | exact Hs].
  - eapply registry_wf_log_only; [apply mi_arenas_try_purge_log_only | exact Hs].
  - by apply registry_wf_reserve_os_memory_ex.
  - by apply registry_wf_manage_os_memory_ex2.
  - by apply registry_wf_reserve_huge_os_pages_at_ex.
  - unfold mi_reserve_huge_os_pages_interleave.
    destruct (pages =? 0); [exact Hs|].
    by apply registry_wf_reserve_huge_interleave_loop.
Qed.

Lemma registry_wf_run_call c s :
  registry_wf cfg s -> registry_wf cfg (run_call cfg os c s).
Proof.
  intros Hs. destruct c; simpl.
  - by apply registry_wf_run_op.
  - by apply registry_wf_destroy_all.
Qed.
End RegistryWf.

Lemma registry_wf_run_calls cfg (calls : list (mi_os * arena_call)) : forall s,
  registry_wf cfg s -> registry_wf cfg (run_calls cfg calls s).
Proof.
  induction calls as [|[os c] calls IH]; intros s Hs; simpl; [exact Hs|].
  by apply IH, registry_wf_run_call.
Qed.

(** ** Queries: [_mi_arena_contains] and [mi_arena_area] *)

Lemma mi_arena_contains_loop_true cfg (p : Z) (s : mi_state) (k : nat) : forall i,
  mi_arena_contains_loop cfg p s k i = true
  <-> exists idx arena,
        i <= idx < i + Z.of_nat k
        /\ mi_arenas s !! idx = Some arena
        /\ arena_start arena <= p
           < arena_start arena + mi_size_of_blocks cfg (block_count arena).
Proof.
  induction k as [|k IH]; intros i; cbn [mi_arena_contains_loop].
  - split; [discriminate|]. intros (idx & _ & H & _). lia.
  - unfold mi_arena_start.
    assert (Hrest :
      mi_arena_contains_loop cfg p s k (i + 1) = true
      <-> exists idx arena,
            i + 1 <= idx < i + Z.of_nat (S k)
            /\ mi_arenas s !! idx = Some arena
            /\ arena_start arena <= p
               < arena_start arena + mi_size_of_blocks cfg (block_count arena)).
    { rewrite IH. split; intros (idx & arena & Hi & H);
        exists idx, arena; (split; [lia | exact H]). }
    destruct (mi_arenas s !! i) as [a|] eqn:Hslot.
    + destruct (Z.leb_spec (arena_start a) p) as [Hlo|Hlo];
        [destruct (Z.ltb_spec p
                     (arena_start a + mi_size_of_blocks cfg (block_count a)))
           as [Hhi|Hhi]|]; cbn [andb].
      * split; [|done]. intros _. exists i, a. split; [lia|]. by split.
      * rewrite Hrest. split; intros (idx & arena & Hi & Hs & Hp);
          exists idx, arena; (split; [|by split]); [lia|].
        destruct (decide (idx = i)) as [->|]; [|lia].
        rewrite Hslot in Hs. injection Hs as <-. lia.
      * rewrite Hrest. split; intros (idx & arena & Hi & Hs & Hp);
          exists idx, arena; (split; [|by split]); [lia|].
        destruct (decide (idx = i)) as [->|]; [|lia].
        rewrite Hslot in Hs. injection Hs as <-. lia.
    + rewrite Hrest. split; intros (idx & arena & Hi & Hs & Hp);
        exists idx, arena; (split; [|by split]); [lia|].
      destruct (decide (idx = i)) as [->|]; [|lia].
      rewrite Hslot in Hs. discriminate.
Qed.

Lemma mi_arena_contains_true cfg (p : Z) (s : mi_state) :
  _mi_arena_contains cfg p s = true
  <-> exists idx arena,
        0 <= idx < mi_arena_count s
        /\ mi_arenas s !! idx = Some arena
        /\ arena_start arena <= p
           < arena_start arena + mi_size_of_blocks cfg (block_count arena).
Proof.
  unfold _mi_arena_contains. rewrite mi_arena_contains_loop_true.
  split; intros (idx & arena & Hi & H); exists idx, arena; (split; [lia | exact H]).
Qed.

(** X1. [_mi_arena_contains p] answers true exactly when some slot below
    the arena count holds an arena whose area, from its start over
    [block_count] blocks, includes [p]; arenas left in slots at or above
    the count are not looked at. *)
Theorem X1_arena_contains_iff cfg (p : Z) (s : mi_state) :
  _mi_arena_contains cfg p s = true
  <-> exists idx arena,
        0 <= idx < mi_arena_get_count s
        /\ mi_arena_from_index idx s = Some arena
        /\ mi_arena_start arena <= p < mi_arena_start arena + mi_arena_size cfg arena.
Proof. apply mi_arena_contains_true. Qed.


Lemma registry_evolves_slot_fwd (s s' : mi_state) (idx : Z) (a : mi_arena_t) :
  registry_evolves s s' -> mi_arenas s !! idx = Some a ->
  exists a', mi_arenas s' !! idx = Some a' /\ arena_evolves a a'.
Proof.
  intros [_ He] Hslot. specialize (He idx). rewrite Hslot in He.
  inversion He as [? a' Hev Ha Ha'|]; subst. eauto.
Qed.






(** X3. The live code never schedules a purge: in every state reached
    from the empty registry by calls of the entry points, every arena has
    an empty [blocks_purge] bitmap and no purge expiration time, whatever
    the purge delay in force at each call. *)
Theorem X3_no_purge_is_ever_scheduled cfg (calls : list (mi_os * arena_call)) :
  forall idx arena,
    mi_arena_from_index idx (run_calls cfg calls s_init) = Some arena ->
    blocks_purge arena = 0 /\ purge_expire arena = 0.
Proof.
  intros idx arena Hslot.
  destruct (registry_wf_run_calls cfg calls s_init (registry_wf_init cfg)) as [_ Hs].
  destruct (Hs idx arena Hslot) as (_ & _ & He & Hp & _). by split.
Qed.



(** ** What a served request looks like *)

Lemma placed_in_suitable cfg alignment allow_large req_arena_id a p memid :
  arena_ident a <> _mi_arena_id_none ->
  placed_in cfg alignment allow_large req_arena_id a p memid ->
  _mi_arena_memid_is_suitable memid req_arena_id = true
  /\ (req_arena_id <> _mi_arena_id_none -> mem_arena_id memid = req_arena_id)
  /\ (req_arena_id = _mi_arena_id_none -> exclusive a = false).
Proof.
  intros Hid (Hk & Hm & Hx & _ & _ & _ & Hs & _).
  unfold _mi_arena_memid_is_suitable. rewrite Hk, Hm, Hx.
  split; [exact Hs|]. unfold mi_arena_id_is_suitable in Hs.
  apply orb_true_iff in Hs as [Hs|Hs].
  - apply andb_true_iff in Hs as [Hs1 Hs2]. apply Z.eqb_eq in Hs2.
    split; [by intros []|]. intros _. by destruct (exclusive a).
  - apply Z.eqb_eq in Hs. split; [done|]. intros ->. by destruct Hid.
Qed.

(** X6. A request that [mi_arena_try_alloc] serves, in a state reached
    from the empty registry, is served by an arena in a slot below the
    arena count, and the memid names that arena.  The arena suits the
    request: it is the requested arena if one was requested and it is not
    an exclusive arena otherwise, it is not a large-page arena unless
    [allow_large] was given, and the alignment asked for is at most
    [MI_ARENA_BLOCK_ALIGN].  The pointer is the start of the block at the
    memid's block index. *)
Theorem X6_placement_respects_request cfg os (calls : list (mi_os * arena_call))
  (numa_node size alignment : Z) (commit allow_large : bool) (req_arena_id tseq : Z)
  (p : Z) (memid : mi_memid_t) (s1 : mi_state) :
  0 < MI_BITMAP_CHUNK_COUNT cfg ->
  let s := run_calls cfg calls s_init in
  mi_arena_try_alloc cfg os numa_node size alignment commit allow_large req_arena_id
    tseq s = (Some (p, memid), s1) ->
  exists idx arena,
    0 <= idx < mi_arena_get_count s
    /\ mi_arena_from_index idx s = Some arena
    /\ memkind memid = MI_MEM_ARENA
    /\ mem_arena_id memid = mi_arena_id_create idx
    /\ _mi_arena_memid_is_suitable memid req_arena_id = true
    /\ (req_arena_id <> _mi_arena_id_none -> mem_arena_id memid = req_arena_id)
    /\ (req_arena_id = _mi_arena_id_none -> exclusive arena = false)
    /\ (allow_large = false -> is_large arena = false)
    /\ alignment <= MI_ARENA_BLOCK_ALIGN cfg
    /\ is_pinned memid = is_pinned (arena_memid arena)
    /\ p = mi_arena_block_start cfg arena (mem_arena_block_index memid).
Proof.
  intros Hcc s Halloc.
  destruct (registry_wf_run_calls cfg calls s_init (registry_wf_init cfg)) as [_ Hwf].
  apply mi_arena_try_alloc_spec in Halloc
    as (idx & arena & arena' & Hidx & Hslot & _ & Hp & _); [|done].
  destruct (Hwf idx arena Hslot) as (Hi & Hid & _).
  assert (Hne : arena_ident arena <> _mi_arena_id_none)
    by (rewrite Hid; unfold mi_arena_id_create, _mi_arena_id_none; lia).
  destruct (placed_in_suitable _ _ _ _ _ _ _ Hne Hp) as (S1 & S2 & S3).
  destruct Hp as (P1 & P2 & P3 & P4 & P5 & P6 & P7 & P8).
  exists idx, arena.
  repeat (split; [first [assumption | congruence]|]). exact P5.
Qed.

Lemma claims_range_disjoint cfg (a a' a'' : mi_arena_t) (b1 n1 b2 n2 : Z) :
  claims_range cfg a a' b1 n1 -> claims_range cfg a' a'' b2 n2 ->
  b1 + n1 <= b2 \/ b2 + n2 <= b1.
Proof.
  intros (Hn1 & Hb1 & _ & _ & Hfree & _) (Hn2 & Hb2 & _ & Hset & _).
  destruct (Z.le_gt_cases (b1 + n1) b2) as [|H1]; [by left|].
  destruct (Z.le_gt_cases (b2 + n2) b1) as [|H2]; [by right|].
  exfalso.
  pose proof (proj1 (mi_bitmap_is_set_iff _ b2 n2 ltac:(lia) ltac:(lia)) Hset
                (Z.max b1 b2) ltac:(lia)) as Hbit.
  clear Hset. rename Hbit into Hset.
  rewrite Hfree, Z.ldiff_spec, mi_bits_mask_testbit in Hset by lia.
  destruct (Z.leb_spec b1 (Z.max b1 b2)); [|lia].
  destruct (Z.ltb_spec (Z.max b1 b2) (b1 + n1)); [|lia].
  by rewrite andb_false_r in Hset.
Qed.

Lemma mi_size_of_blocks_small cfg (b : Z) :
  0 < MI_ARENA_BLOCK_SIZE cfg ->
  MI_BITMAP_MAX_BITS cfg * MI_ARENA_BLOCK_SIZE cfg < 2 ^ MI_SIZE_BITS cfg ->
  0 <= b <= MI_BITMAP_MAX_BITS cfg ->
  mi_size_of_blocks cfg b = b * MI_ARENA_BLOCK_SIZE cfg.
Proof.
  intros Hbs Hfit Hb. unfold mi_size_of_blocks. apply wrap_small. nia.
Qed.

(** X7. Two requests served one after the other from the same arena get
    block ranges that do not overlap, and so do the address ranges that
    start at the two pointers and extend over the claimed blocks. *)
Theorem X7_successive_claims_are_disjoint cfg os1 os2
  (calls : list (mi_os * arena_call))
  (numa1 size1 align1 : Z) (commit1 large1 : bool) (req1 tseq1 : Z)
  (numa2 size2 align2 : Z) (commit2 large2 : bool) (req2 tseq2 : Z)
  (p1 p2 : Z) (memid1 memid2 : mi_memid_t) (s1 s2 : mi_state) :
  0 < MI_BITMAP_CHUNK_COUNT cfg ->
  0 < MI_ARENA_BLOCK_SIZE cfg ->
  MI_BITMAP_MAX_BITS cfg * MI_ARENA_BLOCK_SIZE cfg < 2 ^ MI_SIZE_BITS cfg ->
  let s := run_calls cfg calls s_init in
  mi_arena_try_alloc cfg os1 numa1 size1 align1 commit1 large1 req1 tseq1 s
  = (Some (p1, memid1), s1) ->
  mi_arena_try_alloc cfg os2 numa2 size2 align2 commit2 large2 req2 tseq2 s1
  = (Some (p2, memid2), s2) ->
  mem_arena_id memid1 = mem_arena_id memid2 ->
  let n1 := mi_block_count_of_size cfg size1 in
  let n2 := mi_block_count_of_size cfg size2 in
  (mem_arena_block_index memid1 + n1 <= mem_arena_block_index memid2
   \/ mem_arena_block_index memid2 + n2 <= mem_arena_block_index memid1)
  /\ (p1 + n1 * MI_ARENA_BLOCK_SIZE cfg <= p2
      \/ p2 + n2 * MI_ARENA_BLOCK_SIZE cfg <= p1).
Proof.
  intros Hcc Hbs Hfit s Ha1 Ha2 Hid n1 n2.
  pose proof (registry_wf_run_calls cfg calls s_init (registry_wf_init cfg)) as Hwf.
  pose proof (registry_wf_evolves cfg _ _
                (mi_arena_try_alloc_evolves cfg os1 numa1 size1 align1 commit1 large1
                   req1 tseq1 s) Hwf) as Hwf1.
  fold s in Hwf. rewrite Ha1 in Hwf1. cbn [snd] in Hwf1.
  apply mi_arena_try_alloc_spec in Ha1
    as (i1 & a1 & a1' & Hi1 & Hs1 & Hst1 & Hp1 & Hc1); [|done].
  apply mi_arena_try_alloc_spec in Ha2
    as (i2 & a2 & a2' & Hi2 & Hs2 & Hst2 & Hp2 & Hc2); [|done].
  destruct Hwf as [_ Hwf]. destruct Hwf1 as [_ Hwf1].
  destruct (Hwf i1 a1 Hs1) as (_ & Hid1 & _).
  destruct (Hwf1 i2 a2 Hs2) as (_ & Hid2 & _).
  destruct Hp1 as (_ & Hm1 & _ & _ & Hq1 & _).
  destruct Hp2 as (_ & Hm2 & _ & _ & Hq2 & _).
  assert (i2 = i1) as ->.
  { rewrite Hm1, Hm2, Hid1, Hid2 in Hid. unfold mi_arena_id_create in Hid. lia. }
  rewrite Hst1, lookup_insert_eq in Hs2. injection Hs2 as <-.
  pose proof (claims_range_disjoint _ _ _ _ _ _ _ _ Hc1 Hc2) as Hdis.
  split; [exact Hdis|].
  destruct Hc1 as (Hn1 & Hb1 & Hm1' & _ & _ & _ & Hst).
  destruct Hc2 as (Hn2 & Hb2 & Hm2' & _).
  fold n1 in Hn1, Hm1', Hdis. fold n2 in Hn2, Hm2', Hdis.
  unfold mi_arena_block_start in Hq1, Hq2.
  rewrite mi_size_of_blocks_small in Hq1, Hq2 by (try done; lia).
  rewrite Hst in Hq2. destruct Hdis; [left | right]; nia.
Qed.

(** ** The flags of a claim *)


(** X9. The memid of a claim says zero-initialised exactly if the arena's
    memory was zero at the start and no claimed block was handed out before
    (no dirty bit set in the range), or if the claim committed the range
    and the OS reported the freshly committed memory as zero.  In an arena
    whose memory was zero at the start the claimed blocks are marked dirty;
    in other arenas the dirty bits are left as they are. *)
Theorem X9_zero_flag cfg os (arena : mi_arena_t)
  (arena_index needed_bcount : Z) (commit : bool) (tseq : Z) (s : mi_state)
  (p : Z) (memid : mi_memid_t) (s1 : mi_state) :
  mi_arena_try_alloc_at cfg os arena arena_index needed_bcount commit tseq s
  = (Some (p, memid), s1) ->
  let bi := mem_arena_block_index memid in
  let size := mi_size_of_blocks cfg needed_bcount in
  let never_used :=
    mi_bitmap_is_xsetN MI_BIT_CLEAR (blocks_dirty arena) bi needed_bcount in
  let was_committed :=
    mi_bitmap_is_xsetN MI_BIT_SET (blocks_committed arena) bi needed_bcount in
  let os_commit := _mi_os_commit os (trace s) p size in
  initially_zero memid
  = (initially_zero (arena_memid arena) && never_used)
    || (commit && negb was_committed && fst os_commit && snd os_commit)
  /\ exists arena',
       mi_arena_from_index arena_index s1 = Some arena'
       /\ blocks_dirty arena'
          = if initially_zero (arena_memid arena)
            then Z.lor (blocks_dirty arena) (mi_bits_mask bi needed_bcount)
            else blocks_dirty arena.
Proof.
  unfold mi_arena_try_alloc_at, mi_arena_from_index, mi_bitmap_xsetN.
  destruct (mi_bitmap_try_find_and_clearN _ _ _ _) as [[bfree block_index]|];
    [|discriminate].
  destruct (initially_zero (arena_memid _)) eqn:Hz; cbn [fst snd].
  all: destruct commit.
  all: cbn [blocks_committed blocks_dirty set_blocks_dirty set_blocks_free].
  all: try destruct (mi_bitmap_is_xsetN MI_BIT_SET (blocks_committed arena) _ _) eqn:Hc;
    cbn [negb].
  all: try destruct (_mi_os_commit os _ _ _) as [[|] [|]] eqn:Hos.
  all: intros [= <- <- <-]; cbn [mem_arena_block_index set_initially_zero
         set_initially_committed set_is_pinned mi_memid_create_arena
         initially_zero]; cbv zeta.
  all: cbn [mi_arena_block_start arena_start set_blocks_free set_blocks_dirty];
    rewrite ?Hc, ?Hos; cbn [fst snd andb orb negb];
    rewrite ?andb_false_r, ?orb_false_r, ?orb_true_r.
  all: (split; [try reflexivity|]).
  all: try (eexists; (split; [apply lookup_insert_eq|]);
    cbn [blocks_dirty set_blocks_committed set_blocks_dirty set_blocks_free];
    rewrite ?Hz; reflexivity).
  all: try by destruct (mi_bitmap_is_xsetN _ _ _ _).
Qed.

(** ** Adding arenas *)

Lemma mi_arena_add_spec (arena : mi_arena_t) (s : mi_state) :
  mi_arena_add arena s
  = if MI_MAX_ARENAS <=? mi_arena_count s
    then (false, -1,
          {| mi_arenas := mi_arenas s; mi_arena_count := mi_arena_count s;
             errno := errno s; trace := trace s |})
    else (true, mi_arena_id_create (mi_arena_count s),
          {| mi_arenas :=
               <[mi_arena_count s :=
                   set_arena_id arena (mi_arena_id_create (mi_arena_count s))]>
                 (mi_arenas s);
             mi_arena_count := mi_arena_count s + 1;
             errno := errno s;
             trace := trace s ++ [EvStatArenaCount 1] |}).
Proof.
  unfold mi_arena_add. by destruct (_ <=? _).
Qed.

Lemma mi_manage_os_memory_ex2_spec cfg (start size : Z) (large : bool)
  (numa_node : Z) (excl : bool) (memid : mi_memid_t) (aid : Z) (s : mi_state) :
  0 <= MI_SIZE_BITS cfg -> 0 < MI_ARENA_BLOCK_SIZE cfg ->
  let r := mi_manage_os_memory_ex2 cfg start size large numa_node excl memid aid s in
  let bcount := size / MI_ARENA_BLOCK_SIZE cfg in
  let accepted :=
    negb (start =? 0) && _mi_is_aligned start (MI_ARENA_BLOCK_SIZE cfg)
    && (mi_arena_info_blocks cfg + 1 <=? bcount) && (bcount <=? MI_BITMAP_MAX_BITS cfg)
    && (mi_arena_count s <? MI_MAX_ARENAS) in
  fst (fst r) = accepted
  /\ (exists evs, trace (snd r) = trace s ++ evs)
  /\ errno (snd r) = errno s
  /\ if accepted then
       snd (fst r) = mi_arena_id_create (mi_arena_count s)
       /\ mi_arena_count (snd r) = mi_arena_count s + 1
       /\ exists arena,
            mi_arenas (snd r) = <[mi_arena_count s := arena]> (mi_arenas s)
            /\ arena_start arena = start
            /\ block_count arena = bcount
            /\ arena_ident arena = mi_arena_id_create (mi_arena_count s)
            /\ arena_memid arena = memid
            /\ exclusive arena = excl
            /\ is_large arena = large
            /\ arena_numa_node arena = numa_node
            /\ (forall i, Z.testbit (blocks_free arena) i
                          = (mi_arena_info_blocks cfg <=? i) && (i <? bcount))
            /\ (forall i, Z.testbit (blocks_committed arena) i
                          = (0 <=? i)
                            && (i <? if initially_committed memid then bcount
                                     else mi_arena_info_blocks cfg))
     else mi_arenas (snd r) = mi_arenas s /\ mi_arena_count (snd r) = mi_arena_count s.
Proof.
  intros Hbits Hbs r bcount accepted. subst r accepted.
  pose proof (mi_arena_info_blocks_nonneg cfg Hbits Hbs) as Hinfo.
  unfold mi_manage_os_memory_ex2. fold bcount.
  destruct (start =? 0); cbn [negb andb fst snd].
  { repeat split; try done. exists []. by rewrite app_nil_r. }
  destruct (_mi_is_aligned start _); cbn [negb andb fst snd].
  2:{ repeat split; try done. by eexists. }
  destruct (Z.ltb_spec bcount (mi_arena_info_blocks cfg + 1)) as [Hlo|Hlo].
  { destruct (Z.leb_spec (mi_arena_info_blocks cfg + 1) bcount); [lia|].
    cbn [negb andb fst snd]. repeat split; try done. by eexists. }
  destruct (Z.leb_spec (mi_arena_info_blocks cfg + 1) bcount); [|lia].
  destruct (Z.ltb_spec (MI_BITMAP_MAX_BITS cfg) bcount) as [Hhi|Hhi].
  { destruct (Z.leb_spec bcount (MI_BITMAP_MAX_BITS cfg)); [lia|].
    cbn [negb andb fst snd]. repeat split; try done. by eexists. }
  destruct (Z.leb_spec bcount (MI_BITMAP_MAX_BITS cfg)); [|lia].
  cbn [andb]. rewrite mi_arena_add_spec.
  assert (Hc : mi_arena_count (if negb (initially_committed memid)
      then emit (EvOsCommit start (mi_size_of_blocks cfg (mi_arena_info_blocks cfg))) s
      else s) = mi_arena_count s) by (by destruct (negb _)).
  assert (Ha : mi_arenas (if negb (initially_committed memid)
      then emit (EvOsCommit start (mi_size_of_blocks cfg (mi_arena_info_blocks cfg))) s
      else s) = mi_arenas s) by (by destruct (negb _)).
  assert (He : errno (if negb (initially_committed memid)
      then emit (EvOsCommit start (mi_size_of_blocks cfg (mi_arena_info_blocks cfg))) s
      else s) = errno s) by (by destruct (negb _)).
  assert (Ht : exists evs, trace (if negb (initially_committed memid)
      then emit (EvOsCommit start (mi_size_of_blocks cfg (mi_arena_info_blocks cfg))) s
      else s) = trace s ++ evs).
  { destruct (negb _); cbn [emit trace]; [by eexists|]. exists []. by rewrite app_nil_r. }
  rewrite Hc, Ha, He.
  destruct (Z.leb_spec MI_MAX_ARENAS (mi_arena_count s)) as [Hfull|Hroom].
  { destruct (Z.ltb_spec (mi_arena_count s) MI_MAX_ARENAS); [lia|].
    cbn [fst snd]. repeat split; try done. }
  destruct (Z.ltb_spec (mi_arena_count s) MI_MAX_ARENAS); [|lia].
  cbn [fst snd mi_arena_count mi_arenas trace errno].
  split; [done|]. split.
  { destruct Ht as [evs ->]. rewrite <- app_assoc. by eexists. }
  split; [done|]. split; [done|]. split; [done|].
  eexists. split; [reflexivity|].
  unfold set_arena_id, mi_bitmap_unsafe_xsetN, mi_bitmap_xsetN, mi_bitmap_init.
  cbn [arena_start block_count arena_ident arena_memid exclusive is_large
       arena_numa_node blocks_free blocks_committed fst].
  repeat split.
  - intros i. rewrite Z.lor_0_l, mi_bits_mask_testbit by lia.
    f_equal. destruct (Z.ltb_spec i bcount), (Z.ltb_spec i (mi_arena_info_blocks cfg + (bcount - mi_arena_info_blocks cfg))); lia.
  - intros i. destruct (initially_committed memid);
      rewrite Z.lor_0_l, mi_bits_mask_testbit by lia; reflexivity.
Qed.

Lemma _mi_is_aligned_true (p a : Z) : _mi_is_aligned p a = true <-> p mod a = 0.
Proof. unfold _mi_is_aligned. apply Z.eqb_eq. Qed.

(** X10. For memory that is not registered yet (the descriptor at
    [start] lies apart from the descriptor of every registered arena),
    [mi_manage_os_memory_ex] takes the memory exactly if [start] is not
    NULL and is a multiple of the block size, the size divided down to
    whole blocks gives more than [info_blocks] and at most
    [MI_BITMAP_MAX_BITS] blocks, and fewer than [MI_MAX_ARENAS] arenas are
    registered.  When it does, the arena goes into the slot at the old
    arena count, the count grows by one, the id handed back is that slot's
    id, and no other slot changes; when it does not, the registry is as
    before. *)
Theorem X10_manage_os_memory_acceptance cfg (start size : Z)
  (is_committed large is_zero : bool) (numa_node : Z) (excl : bool) (aid : Z)
  (s : mi_state) :
  0 <= MI_SIZE_BITS cfg -> 0 < MI_ARENA_BLOCK_SIZE cfg ->
  (forall idx arena,
     mi_arena_from_index idx s = Some arena ->
     starts_apart cfg (mi_arena_start arena) start) ->
  let r := mi_manage_os_memory_ex cfg start size is_committed large is_zero numa_node
             excl aid s in
  let bcount := size / MI_ARENA_BLOCK_SIZE cfg in
  (fst (fst r) = true
   <-> start <> 0 /\ start mod MI_ARENA_BLOCK_SIZE cfg = 0
       /\ mi_arena_info_blocks cfg + 1 <= bcount <= MI_BITMAP_MAX_BITS cfg
       /\ mi_arena_get_count s < MI_MAX_ARENAS)
  /\ (fst (fst r) = true ->
      snd (fst r) = mi_arena_id_create (mi_arena_get_count s)
      /\ mi_arena_get_count (snd r) = mi_arena_get_count s + 1
      /\ mi_arena_from_index (mi_arena_get_count s) (snd r) <> None
      /\ forall idx, idx <> mi_arena_get_count s ->
           mi_arena_from_index idx (snd r) = mi_arena_from_index idx s)
  /\ (fst (fst r) = false ->
      mi_arenas (snd r) = mi_arenas s
      /\ mi_arena_get_count (snd r) = mi_arena_get_count s).
Proof.
  intros Hbits Hbs _ r bcount. subst r. unfold mi_manage_os_memory_ex.
  match goal with
  | |- context [mi_manage_os_memory_ex2 cfg start size large numa_node excl ?m aid s] =>
      pose proof (mi_manage_os_memory_ex2_spec cfg start size large numa_node excl m
                    aid s Hbits Hbs) as H;
      destruct (mi_manage_os_memory_ex2 cfg start size large numa_node excl m aid s)
        as [[ok id] s']
  end.
  cbv zeta in H. cbn [fst snd] in *. fold bcount in H.
  destruct H as (Hok & _ & _ & Heff).
  unfold mi_arena_get_count, mi_arena_from_index.
  split; [|split].
  - rewrite Hok, !andb_true_iff, negb_true_iff, Z.eqb_neq, _mi_is_aligned_true,
      !Z.leb_le, Z.ltb_lt. tauto.
  - intros ->. rewrite <- Hok in Heff.
    destruct Heff as (Hid & Hc & arena & Ha & _).
    rewrite Ha, lookup_insert_eq. repeat split; try done.
    intros idx Hne. by rewrite lookup_insert_ne.
  - intros ->. rewrite <- Hok in Heff. exact Heff.
Qed.

(** X11. The arena that [mi_manage_os_memory_ex] registers starts at
    [start] and has [size / MI_ARENA_BLOCK_SIZE] blocks, so a tail of less
    than one block is left unused.  [mi_arena_area] of the id handed back
    answers with that start and that many blocks.  The arena's memid is of
    kind external, with the committed, zero and pinned flags as given, and
    the arena has the NUMA node and the exclusive and large flags as
    given.  Its free blocks are exactly those from [info_blocks] up to the
    block count; committed are all blocks if the memory came committed and
    the [info_blocks] descriptor blocks otherwise. *)
Theorem X11_managed_arena_layout cfg (start size : Z)
  (is_committed large is_zero : bool) (numa_node : Z) (excl : bool) (aid : Z)
  (s : mi_state) :
  0 <= MI_SIZE_BITS cfg -> 0 < MI_ARENA_BLOCK_SIZE cfg ->
  0 <= mi_arena_get_count s ->
  let r := mi_manage_os_memory_ex cfg start size is_committed large is_zero numa_node
             excl aid s in
  let bcount := size / MI_ARENA_BLOCK_SIZE cfg in
  fst (fst r) = true ->
  mi_arena_area cfg (snd (fst r)) (snd r) = (start, mi_size_of_blocks cfg bcount)
  /\ exists arena,
       mi_arena_from_index (mi_arena_id_index (snd (fst r))) (snd r) = Some arena
       /\ mi_arena_start arena = start
       /\ block_count arena = bcount
       /\ arena_ident arena = snd (fst r)
       /\ memkind (arena_memid arena) = MI_MEM_EXTERNAL
       /\ initially_committed (arena_memid arena) = is_committed
       /\ initially_zero (arena_memid arena) = is_zero
       /\ is_pinned (arena_memid arena) = large
       /\ arena_numa_node arena = numa_node
       /\ exclusive arena = excl
       /\ is_large arena = large
       /\ (forall i, Z.testbit (blocks_free arena) i
                     = (mi_arena_info_blocks cfg <=? i) && (i <? bcount))
       /\ (forall i, Z.testbit (blocks_committed arena) i
                     = (0 <=? i)
                       && (i <? if is_committed then bcount
                                else mi_arena_info_blocks cfg)).
Proof.
  intros Hbits Hbs Hcount r bcount. subst r. unfold mi_manage_os_memory_ex.
  match goal with
  | |- context [mi_manage_os_memory_ex2 cfg start size large numa_node excl ?m aid s] =>
      pose proof (mi_manage_os_memory_ex2_spec cfg start size large numa_node excl m
                    aid s Hbits Hbs) as H;
      destruct (mi_manage_os_memory_ex2 cfg start size large numa_node excl m aid s)
        as [[ok id] s']
  end.
  cbv zeta in H. cbn [fst snd] in *. fold bcount in H.
  destruct H as (Hok & _ & _ & Heff). intros ->. rewrite <- Hok in Heff.
  destruct Heff as (-> & Hc & arena & Ha & A1 & A2 & A3 & A4 & A5 & A6 & A7 & A8 & A9).
  unfold mi_arena_get_count in Hcount.
  symmetry in Hok. rewrite !andb_true_iff, Z.ltb_lt in Hok.
  destruct Hok as [_ Hroom].
  unfold mi_arena_area, mi_arena_from_index, mi_arena_start.
  rewrite mi_arena_id_index_create by done.
  destruct (Z.leb_spec MI_MAX_ARENAS (mi_arena_count s)); [lia|].
  rewrite Ha, lookup_insert_eq, A1, A2. split; [reflexivity|].
  exists arena. rewrite A4. by repeat split.
Qed.

(** X12. [mi_reserve_os_memory_ex] answers 0 or [ENOMEM].  With 0, the
    memory the OS handed out for the size rounded up to whole blocks has
    become one more arena, in the slot at the old arena count, with the
    OS's memid, and large exactly if that memory is pinned.  With
    [ENOMEM] the registry is as before, and memory that the OS did hand
    out has been given back to it in full as the last step. *)
Theorem X12_reserve_os_memory_outcome cfg os (size : Z) (commit allow_large excl : bool)
  (s : mi_state) :
  0 <= MI_SIZE_BITS cfg -> 0 < MI_ARENA_BLOCK_SIZE cfg ->
  let r := mi_reserve_os_memory_ex cfg os size commit allow_large excl s in
  let asize := _mi_align_up cfg size (MI_ARENA_BLOCK_SIZE cfg) in
  let os_mem :=
    _mi_os_alloc_aligned os (trace s) asize (MI_ARENA_BLOCK_ALIGN cfg) commit
      allow_large in
  (fst (fst r) = 0 \/ fst (fst r) = ENOMEM)
  /\ (fst (fst r) = 0 ->
      fst os_mem <> 0
      /\ snd (fst r) = mi_arena_id_create (mi_arena_get_count s)
      /\ mi_arena_get_count (snd r) = mi_arena_get_count s + 1
      /\ exists arena,
           mi_arenas (snd r) = <[mi_arena_get_count s := arena]> (mi_arenas s)
           /\ mi_arena_start arena = fst os_mem
           /\ block_count arena = asize / MI_ARENA_BLOCK_SIZE cfg
           /\ arena_memid arena = snd os_mem
           /\ exclusive arena = excl
           /\ is_large arena = is_pinned (snd os_mem))
  /\ (fst (fst r) <> 0 ->
      mi_arenas (snd r) = mi_arenas s
      /\ mi_arena_get_count (snd r) = mi_arena_get_count s
      /\ (fst os_mem <> 0 ->
          exists evs, trace (snd r) = trace s ++ evs ++ [EvOsFree (fst os_mem) asize])).
Proof.
  intros Hbits Hbs r asize os_mem. subst r.
  unfold mi_reserve_os_memory_ex. fold asize. fold os_mem.
  destruct os_mem as [start memid]. cbn [fst snd].
  unfold mi_arena_get_count, mi_arena_start.
  destruct (Z.eqb_spec start 0) as [->|Hstart]; cbn [fst snd].
  { split; [by right|]. split; [discriminate|]. intros _. by repeat split. }
  match goal with
  | |- context [mi_manage_os_memory_ex2 cfg start asize ?l ?n excl memid ?a ?st] =>
      pose proof (mi_manage_os_memory_ex2_spec cfg start asize l n excl memid a st
                    Hbits Hbs) as H;
      destruct (mi_manage_os_memory_ex2 cfg start asize l n excl memid a st)
        as [[ok id] s']
  end.
  cbv zeta in H. cbn [fst snd emit mi_arena_count mi_arenas trace] in H.
  destruct H as (Hok & [evs Hev] & _ & Heff). rewrite <- Hok in Heff.
  destruct ok; cbn [fst snd].
  - split; [by left|]. split; [|done]. intros _.
    destruct Heff as (-> & Hc & arena & Ha & A1 & A2 & A3 & A4 & A5 & A6 & _).
    split; [done|]. split; [done|]. split; [done|].
    exists arena. by repeat split.
  - split; [by right|]. split; [discriminate|]. intros _.
    destruct Heff as [Ha Hc]. split; [done|]. split; [done|]. intros _.
    cbn [emit trace]. rewrite Hev, <- !app_assoc. by eexists (_ :: evs).
Qed.

(** X13. [mi_reserve_huge_os_pages_at_ex] does nothing for zero pages.
    Otherwise it answers 0 or [ENOMEM].  With 0, the huge pages have
    become one more arena, in the slot at the old arena count, marked
    large, on the node that was asked of the OS.  With [ENOMEM] the
    registry is as before; huge pages that the OS did reserve have been
    given back as the last step, but when the OS returns NULL or reports
    zero pages reserved the call stops after the warning, with no free. *)
Theorem X13_reserve_huge_pages_outcome cfg os (pages numa_node timeout_msecs : Z)
  (excl : bool) (s : mi_state) :
  0 <= MI_SIZE_BITS cfg -> 0 < MI_ARENA_BLOCK_SIZE cfg ->
  let r := mi_reserve_huge_os_pages_at_ex cfg os pages numa_node timeout_msecs excl s in
  let node := mi_huge_numa_node os numa_node in
  let os_mem := _mi_os_alloc_huge_os_pages os (trace s) pages node timeout_msecs in
  let p := fst (fst (fst os_mem)) in
  let pages_reserved := snd (fst (fst os_mem)) in
  let hsize := snd (fst os_mem) in
  (pages = 0 -> r = (0, -1, s))
  /\ (fst (fst r) = 0 \/ fst (fst r) = ENOMEM)
  /\ (pages <> 0 -> fst (fst r) = 0 ->
      p <> 0 /\ pages_reserved <> 0
      /\ snd (fst r) = mi_arena_id_create (mi_arena_get_count s)
      /\ mi_arena_get_count (snd r) = mi_arena_get_count s + 1
      /\ exists arena,
           mi_arenas (snd r) = <[mi_arena_get_count s := arena]> (mi_arenas s)
           /\ mi_arena_start arena = p
           /\ block_count arena = hsize / MI_ARENA_BLOCK_SIZE cfg
           /\ arena_memid arena = snd os_mem
           /\ arena_numa_node arena = node
           /\ exclusive arena = excl
           /\ is_large arena = true)
  /\ (fst (fst r) <> 0 ->
      mi_arenas (snd r) = mi_arenas s
      /\ mi_arena_get_count (snd r) = mi_arena_get_count s
      /\ (p <> 0 -> pages_reserved <> 0 ->
          exists evs, trace (snd r) = trace s ++ evs ++ [EvOsFree p hsize]))
  /\ (pages <> 0 -> p = 0 \/ pages_reserved = 0 ->
      fst (fst r) = ENOMEM
      /\ trace (snd r)
         = trace s ++ [EvOsAllocHuge pages node timeout_msecs;
                       EvWarning "failed to reserve huge pages"]).
Proof.
  intros Hbits Hbs r node os_mem p pages_reserved hsize. subst r.
  unfold mi_reserve_huge_os_pages_at_ex. fold node. fold os_mem.
  subst p pages_reserved hsize.
  destruct os_mem as [[[p pages_reserved] hsize] memid]. cbn [fst snd].
  unfold mi_arena_get_count, mi_arena_start.
  destruct (Z.eqb_spec pages 0) as [->|Hpages]; cbn [fst snd].
  { split; [done|]. split; [by left|]. split; [done|].
    split; [intros H; by destruct H | done]. }
  split; [done|].
  destruct (Z.eqb_spec p 0) as [->|Hp]; cbn [orb fst snd].
  { split; [by right|]. split; [discriminate|].
    split; [intros _; by repeat split|]. intros _ _. cbn [emit trace].
    by rewrite <- app_assoc. }
  destruct (Z.eqb_spec pages_reserved 0) as [->|Hres]; cbn [orb fst snd].
  { split; [by right|]. split; [discriminate|].
    split; [intros _; by repeat split|]. intros _ _. cbn [emit trace].
    by rewrite <- app_assoc. }
  match goal with
  | |- context [mi_manage_os_memory_ex2 cfg p hsize ?l ?n excl memid ?a ?st] =>
      pose proof (mi_manage_os_memory_ex2_spec cfg p hsize l n excl memid a st
                    Hbits Hbs) as H;
      destruct (mi_manage_os_memory_ex2 cfg p hsize l n excl memid a st)
        as [[ok id] s']
  end.
  cbv zeta in H. cbn [fst snd emit mi_arena_count mi_arenas trace] in H.
  destruct H as (Hok & [evs Hev] & _ & Heff). rewrite <- Hok in Heff.
  destruct ok; cbn [fst snd].
  - split; [by left|]. split; [|split; [done|intros _ []; done]]. intros _ _.
    destruct Heff as (-> & Hc & arena & Ha & A1 & A2 & A3 & A4 & A5 & A6 & A7 & _).
    split; [done|]. split; [done|]. split; [done|]. split; [done|].
    exists arena. by repeat split.
  - split; [by right|]. split; [discriminate|].
    split; [|intros _ []; done]. intros _.
    destruct Heff as [Ha Hc]. split; [done|]. split; [done|]. intros _ _.
    cbn [emit trace]. rewrite Hev, <- !app_assoc. by eexists (_ :: evs).
Qed.

(** ** Teardown *)

Lemma mi_arenas_unsafe_destroy_loop_spec cfg (k : nat) : forall i s,
  let s' := mi_arenas_unsafe_destroy_loop cfg k i s in
  mi_arena_count s' = mi_arena_count s
  /\ (forall idx,
        mi_arenas s' !! idx
        = match mi_arenas s !! idx with
          | Some a =>
              if (i <=? idx) && (idx <? i + Z.of_nat k)
                 && mi_memkind_is_os (memkind (arena_memid a))
              then None else Some a
          | None => None
          end)
  /\ (forall idx a,
        i <= idx < i + Z.of_nat k -> mi_arenas s !! idx = Some a ->
        mi_memkind_is_os (memkind (arena_memid a)) = true ->
        In (EvOsFree (mi_arena_start a) (mi_arena_size cfg a)) (trace s'))
  /\ exists evs, trace s' = trace s ++ evs.
Proof.
  induction k as [|k IH]; intros i s; cbn [mi_arenas_unsafe_destroy_loop].
  - cbv zeta. split; [done|]. split; [|split].
    + intros idx. destruct (mi_arenas s !! idx); [|done].
      destruct (Z.leb_spec i idx), (Z.ltb_spec idx (i + Z.of_nat 0)); try done; lia.
    + intros idx a Hi. lia.
    + exists []. by rewrite app_nil_r.
  - set (s_mid := match mi_arenas s !! i with
                  | Some arena =>
                      if mi_memkind_is_os (memkind (arena_memid arena))
                      then emit (EvOsFree (mi_arena_start arena) (mi_arena_size cfg arena))
                             (clear_arena i s)
                      else s
                  | None => s
                  end).
    destruct (IH (i + 1) s_mid) as (Hc & Hs & Hf & [evs Hev]). cbv zeta.
    assert (Hmid_c : mi_arena_count s_mid = mi_arena_count s).
    { subst s_mid. destruct (mi_arenas s !! i) as [a|]; [|done].
      by destruct (mi_memkind_is_os _). }
    assert (Hmid_s : forall idx, idx <> i -> mi_arenas s_mid !! idx = mi_arenas s !! idx).
    { intros idx Hne. subst s_mid. destruct (mi_arenas s !! i) as [a|]; [|done].
      destruct (mi_memkind_is_os _); [|done].
      cbn [emit clear_arena mi_arenas]. by rewrite lookup_delete_ne. }
    assert (Hmid_i : mi_arenas s_mid !! i
                     = match mi_arenas s !! i with
                       | Some a => if mi_memkind_is_os (memkind (arena_memid a))
                                   then None else Some a
                       | None => None
                       end).
    { subst s_mid. destruct (mi_arenas s !! i) as [a|] eqn:E; [|done].
      destruct (mi_memkind_is_os _); [|done].
      cbn [emit clear_arena mi_arenas]. by rewrite lookup_delete_eq. }
    assert (Hmid_t : exists evs, trace s_mid = trace s ++ evs
              /\ forall a, mi_arenas s !! i = Some a ->
                   mi_memkind_is_os (memkind (arena_memid a)) = true ->
                   In (EvOsFree (mi_arena_start a) (mi_arena_size cfg a)) evs).
    { subst s_mid. destruct (mi_arenas s !! i) as [a|] eqn:E.
      - destruct (mi_memkind_is_os _) eqn:Hos.
        + eexists. split; [reflexivity|]. intros a' [= <-] _. by left.
        + exists []. split; [by rewrite app_nil_r|]. intros a' [= <-]. congruence.
      - exists []. split; [by rewrite app_nil_r|]. discriminate. }
    destruct Hmid_t as (evs0 & Hev0 & Hin0).
    split; [congruence|]. split; [|split].
    + intros idx. rewrite Hs.
      destruct (decide (idx = i)) as [->|Hne].
      * rewrite Hmid_i. destruct (mi_arenas s !! i) as [a|]; [|done].
        destruct (Z.leb_spec (i + 1) i); [lia|].
        destruct (Z.leb_spec i i); [|lia].
        destruct (Z.ltb_spec i (i + Z.of_nat (S k))); [|lia]. cbn [andb].
        by destruct (mi_memkind_is_os _).
      * rewrite Hmid_s by done. destruct (mi_arenas s !! idx) as [a|]; [|done].
        destruct (Z.leb_spec (i + 1) idx), (Z.leb_spec i idx),
          (Z.ltb_spec idx (i + 1 + Z.of_nat k)), (Z.ltb_spec idx (i + Z.of_nat (S k)));
          try lia; done.
    + intros idx a Hi Hslot Hos. rewrite Hev.
      destruct (decide (idx = i)) as [->|Hne].
      * rewrite Hev0. apply in_or_app. left. apply in_or_app. right. by apply Hin0.
      * rewrite <- Hev. apply (Hf idx a); [lia| |done]. by rewrite Hmid_s.
    + rewrite Hev, Hev0, <- app_assoc. by eexists.
Qed.

(** X14. After [_mi_arena_unsafe_destroy_all] the arena count is 0.
    Every arena in a slot below the old count whose memory is of an OS
    kind has been taken out of its slot and its memory given back to the
    OS.  Arenas on memory of another kind, such as external memory handed
    in through [mi_manage_os_memory], stay in their slots, but with a
    count of 0 nothing looks at them: [_mi_arena_contains] answers false
    for every address and [mi_arena_try_alloc] serves no request. *)
Theorem X14_unsafe_destroy_all cfg os (s : mi_state) :
  let s' := _mi_arena_unsafe_destroy_all cfg os s in
  mi_arena_get_count s' = 0
  /\ (forall idx,
        mi_arena_from_index idx s'
        = match mi_arena_from_index idx s with
          | Some a =>
              if (0 <=? idx) && (idx <? mi_arena_get_count s)
                 && mi_memkind_is_os (memkind (arena_memid a))
              then None else Some a
          | None => None
          end)
  /\ (forall idx a,
        0 <= idx < mi_arena_get_count s -> mi_arena_from_index idx s = Some a ->
        mi_memkind_is_os (memkind (arena_memid a)) = true ->
        In (EvOsFree (mi_arena_start a) (mi_arena_size cfg a)) (trace s'))
  /\ (forall p, _mi_arena_contains cfg p s' = false)
  /\ (forall os' numa_node size alignment commit allow_large req_arena_id tseq,
        mi_arena_try_alloc cfg os' numa_node size alignment commit allow_large
          req_arena_id tseq s' = (None, s')).
Proof.
  intros s'. subst s'.
  unfold _mi_arena_unsafe_destroy_all, mi_arenas_unsafe_destroy, mi_arena_get_count,
    mi_arena_from_index.
  destruct (mi_arenas_unsafe_destroy_loop_spec cfg (Z.to_nat (mi_arena_count s)) 0 s)
    as (Hc & Hs & Hf & [evs Hev]).
  rewrite Hc, Z.eqb_refl.
  set (s1 := set_arena_count 0 _).
  pose proof (mi_arenas_try_purge_log_only os true true s1) as (Ha & Hc1 & _ & [evs1 Hev1]).
  unfold _mi_arenas_collect.
  set (s2 := mi_arenas_try_purge os true true s1) in *.
  assert (Hc2 : mi_arena_count s2 = 0) by (rewrite Hc1; reflexivity).
  split; [exact Hc2|]. split; [|split; [|split]].
  - intros idx. rewrite Ha. subst s1. cbn [set_arena_count mi_arenas]. rewrite Hs.
    destruct (mi_arenas s !! idx) as [a|]; [|done].
    destruct (Z.leb_spec 0 idx), (Z.ltb_spec idx (0 + Z.of_nat (Z.to_nat (mi_arena_count s)))),
      (Z.ltb_spec idx (mi_arena_count s)); try lia; done.
  - intros idx a Hi Hslot Hos. rewrite Hev1. apply in_or_app. left.
    subst s1. cbn [set_arena_count trace]. apply (Hf idx a); [lia|done..].
  - intros p. unfold _mi_arena_contains. by rewrite Hc2.
  - intros. unfold mi_arena_try_alloc. rewrite Hc2. cbn [Z.eqb].
    by destruct (_ <? _).
Qed.

(** What a free does to the registry: nothing, or it releases the range
    in the slot that the memid names. *)
Lemma _mi_arena_free_registry cfg os p size committed_size memid s :
  let s' := _mi_arena_free cfg os p size committed_size memid s in
  let idx := mi_arena_id_index (mem_arena_id memid) in
  let bi := mem_arena_block_index memid in
  mi_arenas s' = mi_arenas s
  \/ exists arena arena',
       p <> 0 /\ size <> 0
       /\ memkind memid = MI_MEM_ARENA
       /\ mi_arenas s !! idx = Some arena
       /\ mi_arenas s' = <[idx := arena']> (mi_arenas s)
       /\ arena_evolves arena arena'
       /\ blocks_free arena'
          = Z.lor (blocks_free arena) (mi_bits_mask bi (mi_block_count_of_size cfg size))
       /\ mi_arena_info_blocks cfg < bi <= block_count arena.
Proof.
  cbv zeta. unfold _mi_arena_free.
  destruct (Z.eqb_spec p 0) as [|Hp]; [by left|].
  destruct (Z.eqb_spec size 0) as [|Hsz]; [by left|].
  destruct (mi_memkind_is_os _) eqn:Hos.
  { left.
    match goal with
    | |- mi_arenas (mi_arenas_try_purge os false false ?st) = _ =>
        pose proof (mi_arenas_try_purge_log_only os false false st) as (-> & _)
    end.
    cbn [emit mi_arenas]. by destruct (_ && _). }
  destruct (memkind memid) eqn:Hk;
    try (left; apply mi_arenas_try_purge_log_only).
  cbn [mi_arena_memid_indices].
  destruct (mi_arenas s !! _) as [arena|] eqn:Hslot; [|by left].
  destruct (Z.leb_spec (mem_arena_block_index memid) (mi_arena_info_blocks cfg));
    [by left|].
  destruct (Z.ltb_spec (block_count arena) (mem_arena_block_index memid));
    [by left|]. cbn [orb].
  match goal with
  | |- context [let '(_, _) := ?X in _] => destruct X as [arena' s1] eqn:Hstep
  end.
  pose proof (free_decommit_step_evolves _ _ _ _ _ _ _ _ _ _ Hstep) as Hev.
  apply free_decommit_step in Hstep as [Hfree (Ha & _)].
  unfold mi_bitmap_xsetN. right.
  exists arena,
    (set_blocks_free arena'
       (Z.lor (blocks_free arena')
          (mi_bits_mask (mem_arena_block_index memid) (mi_block_count_of_size cfg size)))).
  repeat (split; [done|]).
  split.
  { destruct (negb _).
    - cbn [emit store_arena mi_arenas]. by rewrite Ha.
    - match goal with
      | |- mi_arenas (mi_arenas_try_purge os false false ?st) = _ =>
          pose proof (mi_arenas_try_purge_log_only os false false st) as (-> & _)
      end.
      cbn [store_arena mi_arenas]. by rewrite Ha. }
  split; [eapply arena_evolves_trans; [exact Hev | apply arena_evolves_set_free]|].
  split; [cbn [set_blocks_free blocks_free]; by rewrite Hfree | lia].
Qed.

(** ** Free blocks stay inside their arena *)

Lemma registry_adds_refl cfg (s : mi_state) : registry_adds cfg s s.
Proof. by left. Qed.

Lemma registry_adds_same cfg (s s1 s' : mi_state) :
  mi_arenas s1 = mi_arenas s -> mi_arena_count s1 = mi_arena_count s ->
  registry_adds cfg s1 s' -> registry_adds cfg s s'.
Proof.
  intros Ha Hc [[Ha' Hc']|(a & Ha' & Hc' & Hf)].
  - left. split; congruence.
  - right. exists a. rewrite <- Ha, <- Hc. by repeat split.
Qed.

Lemma registry_adds_same_r cfg (s s1 s' : mi_state) :
  registry_adds cfg s s1 ->
  mi_arenas s' = mi_arenas s1 -> mi_arena_count s' = mi_arena_count s1 ->
  registry_adds cfg s s'.
Proof.
  intros [[Ha' Hc']|(a & Ha' & Hc' & Hf)] Ha Hc.
  - left. split; congruence.
  - right. exists a. rewrite Ha, Hc. by repeat split.
Qed.

Section FreeWithin.
Context (cfg : mi_config).
Hypothesis Hcc : 0 < MI_BITMAP_CHUNK_COUNT cfg.
Hypothesis Hbits : 0 <= MI_SIZE_BITS cfg.
Hypothesis Hbs : 0 < MI_ARENA_BLOCK_SIZE cfg.

Lemma mi_block_count_of_size_nonneg (size : Z) : 0 <= mi_block_count_of_size cfg size.
Proof using Hbits Hbs.
  unfold mi_block_count_of_size, _mi_divide_up.
  destruct (Z.eqb_spec (MI_ARENA_BLOCK_SIZE cfg) 0); [lia|].
  apply Z.div_pos; [by apply wrap_nonneg | lia].
Qed.

Lemma mi_manage_os_memory_ex2_adds start size large numa_node excl memid aid s :
  registry_adds cfg s
    (snd (mi_manage_os_memory_ex2 cfg start size large numa_node excl memid aid s)).
Proof using Hbits Hbs.
  pose proof (mi_manage_os_memory_ex2_spec cfg start size large numa_node excl memid
                aid s Hbits Hbs) as H.
  cbv zeta in H. destruct H as (_ & _ & _ & H).
  destruct (_ && _).
  - destruct H as (_ & Hc & a & Ha & _ & Hbc & _ & _ & _ & _ & _ & Hfree & _).
    right. exists a. repeat split; try done.
    intros i. by rewrite Hfree, Hbc.
  - by left.
Qed.

Context (os : mi_os).

Lemma mi_reserve_os_memory_ex_adds size commit allow_large excl s :
  registry_adds cfg s
    (snd (mi_reserve_os_memory_ex cfg os size commit allow_large excl s)).
Proof using Hbits Hbs.
  unfold mi_reserve_os_memory_ex.
  destruct (_mi_os_alloc_aligned os _ _ _ _ _) as [start memid].
  destruct (start =? 0); [by left|].
  match goal with
  | |- context [mi_manage_os_memory_ex2 ?c ?a ?b ?d ?e ?f ?g ?h ?st] =>
      pose proof (mi_manage_os_memory_ex2_adds a b d e f g h st) as H1;
      destruct (mi_manage_os_memory_ex2 c a b d e f g h st) as [[[|] aid] s1]
  end; cbn [snd] in *.
  - by eapply registry_adds_same; [| |exact H1].
  - eapply registry_adds_same_r; [|reflexivity..].
    by eapply registry_adds_same; [| |exact H1].
Qed.

Lemma mi_arena_reserve_adds req_size allow_large req_arena_id s :
  registry_adds cfg s
    (snd (mi_arena_reserve cfg os req_size allow_large req_arena_id s)).
Proof using Hbits Hbs.
  unfold mi_arena_reserve.
  destruct (_mi_preloading os); [by left|].
  destruct (negb _); [by left|].
  destruct (_ <? _); [by left|].
  destruct (_ =? 0); [by left|].
  destruct (_ <? req_size); [by left|].
  match goal with
  | |- context [mi_reserve_os_memory_ex ?c ?o ?a ?b ?d ?e ?st] =>
      pose proof (mi_reserve_os_memory_ex_adds a b d e st) as H1;
      destruct (mi_reserve_os_memory_ex c o a b d e st) as [[err aid] s1]
  end. exact H1.
Qed.

Lemma mi_reserve_huge_os_pages_at_ex_adds pages numa_node timeout_msecs excl s :
  registry_adds cfg s
    (snd (mi_reserve_huge_os_pages_at_ex cfg os pages numa_node timeout_msecs excl s)).
Proof using Hbits Hbs.
  unfold mi_reserve_huge_os_pages_at_ex.
  destruct (pages =? 0); [by left|].
  destruct (_mi_os_alloc_huge_os_pages os _ _ _ _) as [[[p pages_reserved] hsize] memid].
  destruct (_ || _); [by left|].
  match goal with
  | |- context [mi_manage_os_memory_ex2 ?c ?a ?b ?d ?e ?f ?g ?h ?st] =>
      pose proof (mi_manage_os_memory_ex2_adds a b d e f g h st) as H1;
      destruct (mi_manage_os_memory_ex2 c a b d e f g h st) as [[[|] aid] s1]
  end; cbn [snd] in *.
  - by eapply registry_adds_same; [| |exact H1].
  - eapply registry_adds_same_r; [|reflexivity..].
    by eapply registry_adds_same; [| |exact H1].
Qed.

Lemma within_same (s s' : mi_state) :
  mi_arenas s' = mi_arenas s -> registry_free_within s -> registry_free_within s'.
Proof. intros Ha Hs idx a. rewrite Ha. apply Hs. Qed.

Lemma within_store (s s' : mi_state) (idx : Z) (a' : mi_arena_t) :
  mi_arenas s' = <[idx := a']> (mi_arenas s) ->
  free_within_blocks a' -> registry_free_within s -> registry_free_within s'.
Proof.
  intros Ha Ha' Hs i a. rewrite Ha.
  destruct (decide (i = idx)) as [->|Hne].
  - rewrite lookup_insert_eq. by intros [= <-].
  - rewrite lookup_insert_ne by done. apply Hs.
Qed.

Lemma within_claims (a a' : mi_arena_t) (bi n : Z) :
  claims_range cfg a a' bi n -> free_within_blocks a -> free_within_blocks a'.
Proof.
  intros (_ & _ & _ & _ & Hfree & Hbc & _) Ha i. rewrite Hfree, Hbc, Z.ldiff_spec.
  intros H. apply andb_true_iff in H as [H _]. by apply Ha.
Qed.

Lemma fresh_arena_within (a : mi_arena_t) : fresh_arena cfg a -> free_within_blocks a.
Proof using Hbits Hbs.
  intros Hf i. rewrite Hf. intros H. apply andb_true_iff in H as [H1 H2].
  apply Z.leb_le in H1. apply Z.ltb_lt in H2.
  pose proof (mi_arena_info_blocks_nonneg cfg Hbits Hbs). lia.
Qed.

Lemma within_adds (s s' : mi_state) :
  registry_adds cfg s s' -> registry_free_within s -> registry_free_within s'.
Proof using Hbits Hbs.
  intros [[Ha _]|(a & Ha & _ & Hf)] Hs.
  - by apply (within_same s).
  - eapply within_store; [exact Ha | by apply fresh_arena_within | exact Hs].
Qed.

Lemma within_try_alloc_at_id arena_id match_numa_node numa_node size alignment commit
  allow_large req_arena_id tseq s :
  registry_free_within s ->
  registry_free_within
    (snd (mi_arena_try_alloc_at_id cfg os arena_id match_numa_node numa_node size
            alignment commit allow_large req_arena_id tseq s)).
Proof using Hcc.
  intros Hs.
  destruct (mi_arena_try_alloc_at_id _ _ _ _ _ _ _ _ _ _ _ _) as [[[p memid]|] s1] eqn:E.
  - apply mi_arena_try_alloc_at_id_spec in E as (a & a' & Hslot & Hst & _ & Hcl);
      [|done].
    eapply within_store; [exact Hst | | exact Hs].
    eapply within_claims; [exact Hcl | by apply (Hs _ _ Hslot)].
  - by apply mi_arena_try_alloc_at_id_None in E as ->.
Qed.

Lemma within_try_alloc numa_node size alignment commit allow_large req_arena_id tseq s :
  registry_free_within s ->
  registry_free_within
    (snd (mi_arena_try_alloc cfg os numa_node size alignment commit allow_large
            req_arena_id tseq s)).
Proof using Hcc.
  intros Hs.
  destruct (mi_arena_try_alloc _ _ _ _ _ _ _ _ _ _) as [[[p memid]|] s1] eqn:E.
  - apply mi_arena_try_alloc_spec in E as (idx & a & a' & _ & Hslot & Hst & _ & Hcl);
      [|done].
    eapply within_store; [exact Hst | | exact Hs].
    eapply within_claims; [exact Hcl | by apply (Hs _ _ Hslot)].
  - by apply mi_arena_try_alloc_None in E as ->.
Qed.

Lemma within_alloc_fallback size alignment align_offset commit allow_large
  req_arena_id s :
  registry_free_within s ->
  registry_free_within
    (snd (mi_arena_alloc_fallback os size alignment align_offset commit allow_large
            req_arena_id s)).
Proof.
  intros Hs.
  destruct (mi_arena_alloc_fallback_spec os size alignment align_offset commit
              allow_large req_arena_id s) as (Ha & _).
  by apply (within_same s).
Qed.

Lemma within_alloc_aligned size alignment align_offset commit allow_large
  req_arena_id s :
  registry_free_within s ->
  registry_free_within
    (snd (_mi_arena_alloc_aligned cfg os size alignment align_offset commit
            allow_large req_arena_id s)).
Proof using Hcc Hbits Hbs.
  intros Hs. unfold _mi_arena_alloc_aligned.
  destruct (_ && _); [|by apply within_alloc_fallback].
  pose proof (within_try_alloc (_mi_os_numa_node os) size alignment commit allow_large
                req_arena_id (_mi_thread_seq_id os) s Hs) as H1.
  destruct (mi_arena_try_alloc _ _ _ _ _ _ _ _ _ _) as [[r|] s1]; cbn [snd] in H1;
    [exact H1|].
  destruct (req_arena_id =? _mi_arena_id_none).
  - pose proof (within_adds _ _
                  (mi_arena_reserve_adds size allow_large req_arena_id s1) H1) as H2.
    destruct (mi_arena_reserve _ _ _ _ _ _) as [[[|] arena_id] s2]; cbn [snd] in H2.
    + pose proof (within_try_alloc_at_id arena_id true (_mi_os_numa_node os) size
                    alignment commit allow_large req_arena_id (_mi_thread_seq_id os)
                    s2 H2) as H3.
      destruct (mi_arena_try_alloc_at_id _ _ _ _ _ _ _ _ _ _ _ _) as [[r|] s3];
        cbn [snd] in H3; [exact H3 | by apply within_alloc_fallback].
    + by apply within_alloc_fallback.
  - by apply within_alloc_fallback.
Qed.

Lemma within_free p size committed_size memid s :
  free_in_range cfg size memid s ->
  registry_free_within s ->
  registry_free_within (_mi_arena_free cfg os p size committed_size memid s).
Proof using Hbits Hbs.
  intros Hr Hs.
  destruct (_mi_arena_free_registry cfg os p size committed_size memid s)
    as [Ha|(a & a' & _ & _ & Hk & Hslot & Ha & Hev & Hfree & Hbi)].
  - by apply (within_same s).
  - eapply within_store; [exact Ha | | exact Hs].
    destruct Hev as (_ & _ & _ & Hbc & _).
    pose proof (mi_arena_info_blocks_nonneg cfg Hbits Hbs) as Hinfo.
    pose proof (mi_block_count_of_size_nonneg size) as Hn.
    specialize (Hr a Hk Hslot).
    intros i. rewrite Hfree, Hbc, Z.lor_spec, mi_bits_mask_testbit by lia.
    intros H. apply orb_true_iff in H as [H|H]; [by apply (Hs _ _ Hslot)|].
    apply andb_true_iff in H as [H1 H2].
    apply Z.leb_le in H1. apply Z.ltb_lt in H2. lia.
Qed.

Lemma within_reserve_huge_interleave_loop numa_count pages_per pages_mod
  timeout_per k : forall numa_node pages s,
  registry_free_within s ->
  registry_free_within
    (snd (mi_reserve_huge_interleave_loop cfg os numa_count pages_per pages_mod
            timeout_per k numa_node pages s)).
Proof using Hbits Hbs.
  induction k as [|k IH]; intros numa_node pages s Hs;
    cbn [mi_reserve_huge_interleave_loop]; [exact Hs|].
  destruct (_ && _); [|exact Hs].
  unfold mi_reserve_huge_os_pages_at.
  match goal with
  | |- context [mi_reserve_huge_os_pages_at_ex ?c ?o ?a ?b ?d ?e ?st] =>
      pose proof (within_adds _ _
                    (mi_reserve_huge_os_pages_at_ex_adds a b d e st) Hs) as H1;
      destruct (mi_reserve_huge_os_pages_at_ex c o a b d e st) as [[err aid] s1]
  end. cbn [snd] in H1.
  destruct (negb _); [exact H1 | by apply IH].
Qed.

Lemma within_destroy_loop (k : nat) : forall i s,
  registry_free_within s ->
  registry_free_within (mi_arenas_unsafe_destroy_loop cfg k i s).
Proof.
  intros i s Hs idx a.
  destruct (mi_arenas_unsafe_destroy_loop_spec cfg k i s) as (_ & Hsl & _).
  rewrite Hsl. destruct (mi_arenas s !! idx) as [a0|] eqn:E; [|discriminate].
  destruct (_ && _); [discriminate|]. intros [= <-]. by apply (Hs _ _ E).
Qed.

Lemma within_destroy_all s :
  registry_free_within s ->
  registry_free_within (_mi_arena_unsafe_destroy_all cfg os s).
Proof.
  intros Hs. unfold _mi_arena_unsafe_destroy_all, _mi_arenas_collect.
  eapply within_same; [apply mi_arenas_try_purge_log_only|].
  unfold mi_arenas_unsafe_destroy.
  pose proof (within_destroy_loop (Z.to_nat (mi_arena_count s)) 0 s Hs) as H.
  by destruct (_ =? _).
Qed.

Lemma within_run_call c s :
  call_in_range cfg c s -> registry_free_within s ->
  registry_free_within (run_call cfg os c s).
Proof using Hcc Hbits Hbs.
  intros Hr Hs. destruct c as [op|]; [|by apply within_destroy_all].
  destruct op; cbn [run_call run_op call_in_range] in *.
  - by apply within_alloc_aligned.
  - by apply within_free.
  - eapply within_same; [apply mi_arenas_try_purge_log_only | exact Hs].
  - eapply within_adds; [apply mi_reserve_os_memory_ex_adds | exact Hs].
  - eapply within_adds; [apply mi_manage_os_memory_ex2_adds | exact Hs].
  - eapply within_adds; [apply mi_reserve_huge_os_pages_at_ex_adds | exact Hs].
  - unfold mi_reserve_huge_os_pages_interleave.
    destruct (pages =? 0); [exact Hs|].
    by apply within_reserve_huge_interleave_loop.
Qed.
End FreeWithin.

Lemma within_init : registry_free_within s_init.
Proof. intros idx a H. simpl in H. by rewrite lookup_empty in H. Qed.

Lemma within_run_calls cfg (calls : list (mi_os * arena_call)) :
  0 < MI_BITMAP_CHUNK_COUNT cfg -> 0 <= MI_SIZE_BITS cfg ->
  0 < MI_ARENA_BLOCK_SIZE cfg ->
  forall s,
    calls_in_range cfg calls s -> registry_free_within s ->
    registry_free_within (run_calls cfg calls s).
Proof.
  intros Hcc Hbits Hbs.
  induction calls as [|[os c] calls IH]; intros s Hr Hs; cbn [run_calls]; [exact Hs|].
  destruct Hr as [Hc Hr]. apply IH; [exact Hr|]. by apply within_run_call.
Qed.

Lemma _mi_arena_unsafe_destroy_all_slot cfg os (s : mi_state) (idx : Z) (a : mi_arena_t) :
  mi_arenas (_mi_arena_unsafe_destroy_all cfg os s) !! idx = Some a ->
  mi_arenas s !! idx = Some a.
Proof.
  unfold _mi_arena_unsafe_destroy_all, _mi_arenas_collect.
  match goal with
  | |- mi_arenas (mi_arenas_try_purge os true true ?st) !! _ = _ -> _ =>
      pose proof (mi_arenas_try_purge_log_only os true true st) as (-> & _)
  end.
  unfold mi_arenas_unsafe_destroy.
  destruct (mi_arenas_unsafe_destroy_loop_spec cfg (Z.to_nat (mi_arena_count s)) 0 s)
    as (_ & Hsl & _).
  assert (H : forall st, mi_arenas (if mi_arena_count st =? mi_arena_count s
                                    then set_arena_count 0 st else st) = mi_arenas st)
    by (intros st; by destruct (_ =? _)).
  rewrite H, Hsl. destruct (mi_arenas s !! idx) as [a0|]; [|discriminate].
  by destruct (_ && _).
Qed.

(** The descriptor prefix stays in use across the teardown as well. *)
Lemma inv_run_calls cfg (calls : list (mi_os * arena_call)) : forall s,
  registry_prefix_not_free cfg s -> registry_prefix_not_free cfg (run_calls cfg calls s).
Proof.
  induction calls as [|[os c] calls IH]; intros s Hs; cbn [run_calls]; [exact Hs|].
  apply IH. destruct c as [op|]; cbn [run_call].
  - by apply inv_run_op.
  - intros idx a Hslot. apply _mi_arena_unsafe_destroy_all_slot in Hslot.
    by apply (Hs idx a).
Qed.

(** A claimed range of an arena whose free bits lie between the descriptor
    prefix and the block count lies there too. *)
Lemma claims_range_inside cfg (a a' : mi_arena_t) (bi n : Z) :
  0 <= mi_arena_info_blocks cfg ->
  claims_range cfg a a' bi n -> prefix_not_free cfg a -> free_within_blocks a ->
  mi_arena_info_blocks cfg <= bi /\ bi + n <= block_count a.
Proof.
  intros Hinfo (Hn & Hbi & _ & Hset & _) Hpre Hin.
  pose proof (proj1 (mi_bitmap_is_set_iff _ bi n ltac:(lia) ltac:(lia)) Hset) as Hbits.
  split.
  - destruct (Z.le_gt_cases (mi_arena_info_blocks cfg) bi) as [|Hlt]; [done|].
    specialize (Hbits bi ltac:(lia)). rewrite Hpre in Hbits by lia. discriminate.
  - specialize (Hbits (bi + n - 1) ltac:(lia)). apply Hin in Hbits. lia.
Qed.

(** X15. As long as every free gives back a range that lies inside its
    arena, a request that [mi_arena_try_alloc] serves gets blocks of the
    serving arena that come after the [info_blocks] descriptor blocks and
    end at or before the arena's block count: the memory from the pointer
    over the claimed blocks lies inside the arena's area, past the
    descriptor, and [_mi_arena_contains] answers true for the pointer. *)
Theorem X15_allocation_lies_inside_its_arena cfg os (calls : list (mi_os * arena_call))
  (numa_node size alignment : Z) (commit allow_large : bool) (req_arena_id tseq : Z)
  (p : Z) (memid : mi_memid_t) (s1 : mi_state) :
  0 < MI_BITMAP_CHUNK_COUNT cfg ->
  0 <= MI_SIZE_BITS cfg ->
  0 < MI_ARENA_BLOCK_SIZE cfg ->
  MI_BITMAP_MAX_BITS cfg * MI_ARENA_BLOCK_SIZE cfg < 2 ^ MI_SIZE_BITS cfg ->
  calls_in_range cfg calls s_init ->
  let s := run_calls cfg calls s_init in
  mi_arena_try_alloc cfg os numa_node size alignment commit allow_large req_arena_id
    tseq s = (Some (p, memid), s1) ->
  let n := mi_block_count_of_size cfg size in
  let bi := mem_arena_block_index memid in
  exists idx arena,
    0 <= idx < mi_arena_get_count s
    /\ mi_arena_from_index idx s = Some arena
    /\ mem_arena_id memid = arena_ident arena
    /\ 0 < n
    /\ mi_arena_info_blocks cfg <= bi
    /\ bi + n <= block_count arena
    /\ p = mi_arena_start arena + bi * MI_ARENA_BLOCK_SIZE cfg
    /\ mi_arena_size cfg arena = block_count arena * MI_ARENA_BLOCK_SIZE cfg
    /\ mi_arena_start arena + mi_arena_info_blocks cfg * MI_ARENA_BLOCK_SIZE cfg <= p
    /\ p + n * MI_ARENA_BLOCK_SIZE cfg <= mi_arena_start arena + mi_arena_size cfg arena
    /\ _mi_arena_contains cfg p s1 = true.
Proof.
  intros Hcc Hbits Hbs Hfit Hrange s Halloc n bi.
  pose proof (registry_wf_run_calls cfg calls s_init (registry_wf_init cfg)) as [_ Hwf].
  pose proof (within_run_calls cfg calls Hcc Hbits Hbs s_init Hrange within_init) as Hin.
  pose proof (inv_run_calls cfg calls s_init (inv_init cfg)) as Hpre.
  pose proof (mi_arena_info_blocks_nonneg cfg Hbits Hbs) as Hinfo.
  pose proof (mi_arena_try_alloc_evolves cfg os numa_node size alignment commit
                allow_large req_arena_id tseq s) as [Hcount _].
  fold s in Hwf, Hin, Hpre. rewrite Halloc in Hcount. cbn [snd] in Hcount.
  apply mi_arena_try_alloc_spec in Halloc
    as (idx & a & a' & Hidx & Hslot & Hst & Hp & Hcl); [|done].
  fold n bi in Hcl.
  destruct (Hwf idx a Hslot) as (_ & _ & _ & _ & Hbc & _).
  destruct (claims_range_inside cfg a a' bi n Hinfo Hcl (Hpre idx a Hslot)
              (Hin idx a Hslot)) as [Hlo Hhi].
  destruct Hp as (_ & Hm & _ & _ & Hq & _).
  destruct Hcl as (Hn & Hbi & _ & _ & _ & Hbc' & Hst').
  unfold mi_arena_block_start in Hq. fold bi in Hq.
  rewrite mi_size_of_blocks_small in Hq by (try done; lia).
  assert (Hsize : mi_arena_size cfg a = block_count a * MI_ARENA_BLOCK_SIZE cfg).
  { unfold mi_arena_size. apply mi_size_of_blocks_small; try done. lia. }
  unfold mi_arena_get_count, mi_arena_from_index, mi_arena_start.
  exists idx, a. rewrite Hsize.
  repeat (split; [first [assumption | nia]|]).
  apply mi_arena_contains_true. exists idx, a'.
  rewrite Hcount, Hst, lookup_insert_eq, Hst', Hbc'.
  fold (mi_arena_size cfg a). rewrite Hsize.
  repeat split; try done; nia.
Qed.

(** The outcomes of a free, by its arguments. *)
Lemma _mi_arena_free_cases cfg os (p size committed_size : Z)
  (memid : mi_memid_t) (s : mi_state) :
  let s' := _mi_arena_free cfg os p size committed_size memid s in
  let slot := mi_arena_id_index (mem_arena_id memid) in
  let bi := mem_arena_block_index memid in
  let n := mi_block_count_of_size cfg size in
  match mi_arena_from_index slot s with
  | Some arena =>
      if (p =? 0) || (size =? 0)
         || (bi <=? mi_arena_info_blocks cfg) || (block_count arena <? bi)
      then mi_arenas s' = mi_arenas s
      else
        match memkind memid with
        | MI_MEM_ARENA =>
            exists arena',
              mi_arenas s' = <[slot := arena']> (mi_arenas s)
              /\ arena_evolves arena arena'
              /\ blocks_free arena' = Z.lor (blocks_free arena) (mi_bits_mask bi n)
        | _ => mi_arenas s' = mi_arenas s
        end
  | None => mi_arenas s' = mi_arenas s
  end.
Proof.
  cbv zeta. unfold mi_arena_from_index.
  assert (Hsame : memkind memid <> MI_MEM_ARENA ->
            mi_arenas (_mi_arena_free cfg os p size committed_size memid s)
            = mi_arenas s).
  { intros Hk.
    destruct (_mi_arena_free_registry cfg os p size committed_size memid s)
      as [Ha|(a & a' & _ & _ & Hk' & _)]; [exact Ha | contradiction]. }
  destruct (memkind memid) eqn:Hk;
    try (destruct (mi_arenas s !! _); [destruct (_ || _)|]; by apply Hsame).
  clear Hsame. unfold _mi_arena_free. rewrite Hk.
  cbn [mi_memkind_is_os mi_arena_memid_indices].
  destruct (mi_arenas s !! _) as [arena|] eqn:Hslot.
  2:{ by destruct (p =? 0), (size =? 0). }
  destruct (p =? 0); [done|]. destruct (size =? 0); [done|]. cbn [orb].
  destruct (_ || _); [done|].
  match goal with
  | |- context [let '(_, _) := ?X in _] => destruct X as [arena' s1] eqn:Hstep
  end.
  pose proof (free_decommit_step_evolves _ _ _ _ _ _ _ _ _ _ Hstep) as Hev.
  apply free_decommit_step in Hstep as [Hfree (Ha1 & _)].
  unfold mi_bitmap_xsetN.
  exists (set_blocks_free arena'
            (Z.lor (blocks_free arena')
               (mi_bits_mask (mem_arena_block_index memid)
                  (mi_block_count_of_size cfg size)))).
  split; [|split].
  - destruct (negb _).
    + cbn [emit store_arena mi_arenas]. by rewrite Ha1.
    + match goal with
      | |- mi_arenas (mi_arenas_try_purge os false false ?st) = _ =>
          pose proof (mi_arenas_try_purge_log_only os false false st) as (-> & _)
      end.
      cbn [store_arena mi_arenas]. by rewrite Ha1.
  - eapply arena_evolves_trans; [exact Hev | apply arena_evolves_set_free].
  - cbn [set_blocks_free blocks_free]. by rewrite Hfree.
Qed.


Lemma registry_evolves_same (s s' : mi_state) :
  mi_arenas s' = mi_arenas s -> mi_arena_count s' = mi_arena_count s ->
  registry_evolves s s'.
Proof.
  intros Ha Hc. split; [exact Hc|]. intros idx. rewrite Ha.
  destruct (mi_arenas s !! idx); constructor. apply arena_evolves_refl.
Qed.

(** [_mi_arena_alloc_aligned] adds at most one arena and then only
    claims. *)
Lemma _mi_arena_alloc_aligned_registry cfg os size alignment align_offset commit
  allow_large req_arena_id s :
  0 <= MI_SIZE_BITS cfg -> 0 < MI_ARENA_BLOCK_SIZE cfg ->
  exists s_mid,
    registry_adds cfg s s_mid
    /\ registry_evolves s_mid
         (snd (_mi_arena_alloc_aligned cfg os size alignment align_offset commit
                 allow_large req_arena_id s)).
Proof.
  intros Hbits Hbs.
  assert (Hfb : forall st,
    registry_evolves st
      (snd (mi_arena_alloc_fallback os size alignment align_offset commit allow_large
              req_arena_id st))).
  { intros st.
    destruct (mi_arena_alloc_fallback_spec os size alignment align_offset commit
                allow_large req_arena_id st) as (Ha & Hc & _).
    by apply registry_evolves_same. }
  unfold _mi_arena_alloc_aligned.
  destruct (_ && _); [|exists s; split; [apply registry_adds_refl | apply Hfb]].
  pose proof (mi_arena_try_alloc_evolves cfg os (_mi_os_numa_node os) size alignment
                commit allow_large req_arena_id (_mi_thread_seq_id os) s) as H1.
  destruct (mi_arena_try_alloc _ _ _ _ _ _ _ _ _ _) as [[r|] s1] eqn:E; cbn [snd] in H1.
  { exists s. split; [apply registry_adds_refl | exact H1]. }
  apply mi_arena_try_alloc_None in E as ->.
  destruct (req_arena_id =? _mi_arena_id_none);
    [|exists s; split; [apply registry_adds_refl | apply Hfb]].
  pose proof (mi_arena_reserve_adds cfg Hbits Hbs os size allow_large req_arena_id s)
    as H2.
  destruct (mi_arena_reserve _ _ _ _ _ _) as [[[|] arena_id] s2]; cbn [snd] in H2;
    exists s2; (split; [exact H2|]); [|apply Hfb].
  pose proof (mi_arena_try_alloc_at_id_evolves cfg os arena_id true
                (_mi_os_numa_node os) size alignment commit allow_large
                req_arena_id (_mi_thread_seq_id os) s2) as H3.
  destruct (mi_arena_try_alloc_at_id _ _ _ _ _ _ _ _ _ _ _ _) as [[r|] s3];
    cbn [snd] in H3; [exact H3|].
  eapply registry_evolves_trans; [exact H3 | apply Hfb].
Qed.

(** X17. [_mi_arena_alloc_aligned] never removes or replaces an arena: the
    arena count stays or grows by one, every arena keeps its slot and its
    descriptor but for the bitmaps (the one exception is a stale arena in
    the slot at the arena count, which a newly reserved arena overwrites),
    and if the count stays, the registry changes by claims only.  A new
    arena goes into the slot at the old arena count. *)
Theorem X17_allocation_keeps_arenas cfg os (size alignment align_offset : Z)
  (commit allow_large : bool) (req_arena_id : Z) (s : mi_state) :
  0 <= MI_SIZE_BITS cfg -> 0 < MI_ARENA_BLOCK_SIZE cfg ->
  let s' := snd (_mi_arena_alloc_aligned cfg os size alignment align_offset commit
                   allow_large req_arena_id s) in
  (mi_arena_get_count s' = mi_arena_get_count s
   \/ mi_arena_get_count s' = mi_arena_get_count s + 1)
  /\ (forall idx arena,
        mi_arena_from_index idx s = Some arena -> idx <> mi_arena_get_count s ->
        exists arena',
          mi_arena_from_index idx s' = Some arena' /\ arena_evolves arena arena')
  /\ (mi_arena_get_count s' = mi_arena_get_count s -> registry_evolves s s')
  /\ (mi_arena_get_count s' = mi_arena_get_count s + 1 ->
      mi_arena_from_index (mi_arena_get_count s) s' <> None).
Proof.
  intros Hbits Hbs s'. subst s'.
  destruct (_mi_arena_alloc_aligned_registry cfg os size alignment align_offset commit
              allow_large req_arena_id s Hbits Hbs) as (s_mid & Hadd & Hev).
  unfold mi_arena_get_count, mi_arena_from_index.
  destruct Hadd as [[Ha Hc]|(a & Ha & Hc & Hf)].
  - assert (He : registry_evolves s
               (snd (_mi_arena_alloc_aligned cfg os size alignment align_offset commit
                       allow_large req_arena_id s))).
    { eapply registry_evolves_trans; [|exact Hev]. by apply registry_evolves_same. }
    destruct He as [Hc' He'].
    split; [by left|]. split; [|split; [by split|]].
    + intros idx arena Hslot _.
      by apply (registry_evolves_slot_fwd s _ idx arena).
    + intros H. lia.
  - destruct Hev as [Hc' He'].
    split; [right; lia|]. split; [|split].
    + intros idx arena Hslot Hne.
      assert (Hmid : mi_arenas s_mid !! idx = Some arena)
        by (by rewrite Ha, lookup_insert_ne).
      by apply (registry_evolves_slot_fwd s_mid _ idx arena).
    + intros H. lia.
    + intros _. specialize (He' (mi_arena_count s)).
      rewrite Ha, lookup_insert_eq in He'. by inversion He'.
Qed.

(** ** Claim, then free *)

(** X18. Claim, then free: as long as every free so far gave back a range
    inside its arena, a request that [mi_arena_try_alloc] serves at a block
    index above [info_blocks], freed again with the same size, leaves the
    free blocks of every arena as they were before the claim, whatever the
    committed size and the purge settings of the free. *)
Theorem X18_claim_then_free_restores_free_blocks cfg os os'
  (calls : list (mi_os * arena_call))
  (numa_node size alignment : Z) (commit allow_large : bool) (req_arena_id tseq : Z)
  (p : Z) (memid : mi_memid_t) (s1 : mi_state) (committed_size : Z) :
  0 < MI_BITMAP_CHUNK_COUNT cfg ->
  0 <= MI_SIZE_BITS cfg ->
  0 < MI_ARENA_BLOCK_SIZE cfg ->
  calls_in_range cfg calls s_init ->
  let s := run_calls cfg calls s_init in
  mi_arena_try_alloc cfg os numa_node size alignment commit allow_large req_arena_id
    tseq s = (Some (p, memid), s1) ->
  p <> 0 -> size <> 0 ->
  mi_arena_info_blocks cfg < mem_arena_block_index memid ->
  let s2 := _mi_arena_free cfg os' p size committed_size memid s1 in
  forall idx,
    blocks_free <$> mi_arena_from_index idx s2 = blocks_free <$> mi_arena_from_index idx s.
Proof.
  intros Hcc Hbits Hbs Hrange s Halloc Hp Hsz Hbi s2 idx. subst s2.
  pose proof (registry_wf_run_calls cfg calls s_init (registry_wf_init cfg)) as [_ Hwf].
  pose proof (within_run_calls cfg calls Hcc Hbits Hbs s_init Hrange within_init) as Hin.
  pose proof (inv_run_calls cfg calls s_init (inv_init cfg)) as Hpre.
  pose proof (mi_arena_info_blocks_nonneg cfg Hbits Hbs) as Hinfo.
  fold s in Hwf, Hin, Hpre.
  apply mi_arena_try_alloc_spec in Halloc
    as (idx0 & a & a' & Hidx & Hslot & Hst & Hpl & Hcl); [|done].
  destruct (Hwf idx0 a Hslot) as (_ & Hid & _).
  destruct (claims_range_inside cfg a a' _ _ Hinfo Hcl (Hpre idx0 a Hslot)
              (Hin idx0 a Hslot)) as [_ Hhi].
  destruct Hpl as (Hk & Hm & _).
  destruct Hcl as (Hn & _ & _ & Hset & Hfree & Hbc & _).
  assert (Hix : mi_arena_id_index (mem_arena_id memid) = idx0)
    by (rewrite Hm, Hid; apply mi_arena_id_index_create; lia).
  pose proof (_mi_arena_free_cases cfg os' p size committed_size memid s1) as H.
  cbv zeta in H. unfold mi_arena_from_index in *.
  rewrite Hix, Hst, lookup_insert_eq, Hk, Hbc in H.
  destruct (Z.eqb_spec p 0); [done|]. destruct (Z.eqb_spec size 0); [done|].
  destruct (Z.leb_spec (mem_arena_block_index memid) (mi_arena_info_blocks cfg));
    [lia|].
  destruct (Z.ltb_spec (block_count a) (mem_arena_block_index memid)); [lia|].
  cbn [orb] in H. destruct H as (a'' & Hst2 & _ & Hfree2).
  rewrite Hst2.
  destruct (decide (idx = idx0)) as [->|Hne].
  - rewrite lookup_insert_eq, Hslot. cbn [fmap option_fmap option_map]. f_equal.
    rewrite Hfree2, Hfree. apply mi_bitmap_clear_then_set.
    unfold mi_bitmap_is_xsetN in Hset. by apply Z.eqb_eq in Hset.
  - by rewrite !lookup_insert_ne.
Qed.

(** X19. A request that [mi_arena_try_alloc] cannot serve changes
    nothing: the state it returns with NULL is the state it was called
    in, with no bitmap touched and no OS call made. *)
Theorem X19_unserved_request_changes_nothing cfg os (numa_node size alignment : Z)
  (commit allow_large : bool) (req_arena_id tseq : Z) (s : mi_state) :
  let r := mi_arena_try_alloc cfg os numa_node size alignment commit allow_large
             req_arena_id tseq s in
  fst r = None -> snd r = s.
Proof.
  intros r. subst r.
  destruct (mi_arena_try_alloc _ _ _ _ _ _ _ _ _ _) as [[x|] s'] eqn:E;
    [discriminate|].
  intros _. by apply mi_arena_try_alloc_None in E.
Qed.

(** ** NUMA affinity *)

Lemma mi_arena_try_alloc_at_id_numa cfg os arena_id match_numa_node numa_node size
  alignment commit allow_large tseq s r s1 arena :
  mi_arena_try_alloc_at_id cfg os arena_id match_numa_node numa_node size alignment
    commit allow_large _mi_arena_id_none tseq s = (Some r, s1) ->
  mi_arenas s !! mi_arena_id_index arena_id = Some arena ->
  (numa_node <? 0) || (arena_numa_node arena <? 0)
  || (arena_numa_node arena =? numa_node) = match_numa_node.
Proof.
  unfold mi_arena_try_alloc_at_id, mi_arena_from_index. intros H Hslot. revert H.
  rewrite Hslot.
  destruct (_ <? alignment); [discriminate|].
  destruct (negb allow_large && is_large arena); [discriminate|].
  destruct (negb _); [discriminate|].
  cbn [Z.eqb _mi_arena_id_none andb].
  destruct ((numa_node <? 0) || (arena_numa_node arena <? 0)
            || (arena_numa_node arena =? numa_node)), match_numa_node;
    cbn [negb]; try discriminate; done.
Qed.

Lemma mi_arena_try_alloc_loop_None_all cfg os match_numa_node numa_node size alignment
  commit allow_large req_arena_id tseq k : forall i s s',
  mi_arena_try_alloc_loop cfg os match_numa_node numa_node size alignment commit
    allow_large req_arena_id tseq k i s = (None, s') ->
  forall j, i <= j < i + Z.of_nat k ->
    mi_arena_try_alloc_at_id cfg os (mi_arena_id_create j) match_numa_node numa_node
      size alignment commit allow_large req_arena_id tseq s = (None, s).
Proof.
  induction k as [|k IH]; intros i s s'; cbn [mi_arena_try_alloc_loop];
    [intros _ j Hj; lia|].
  destruct (mi_arena_try_alloc_at_id _ _ _ _ _ _ _ _ _ _ _ _) as [[r|] s1] eqn:E;
    [discriminate|].
  pose proof (mi_arena_try_alloc_at_id_None _ _ _ _ _ _ _ _ _ _ _ _ _ E) as ->.
  intros H j Hj. destruct (decide (j = i)) as [->|Hne]; [exact E|].
  apply (IH (i + 1) s s' H). lia.
Qed.

Lemma mi_arena_try_alloc_loop_numa cfg os m numa_node size alignment commit
  allow_large tseq p memid s1 (k : nat) : forall i s,
  0 < MI_BITMAP_CHUNK_COUNT cfg -> 0 <= i ->
  mi_arena_try_alloc_loop cfg os m numa_node size alignment commit allow_large
    _mi_arena_id_none tseq k i s = (Some (p, memid), s1) ->
  exists idx arena,
    i <= idx < i + Z.of_nat k
    /\ mi_arenas s !! idx = Some arena
    /\ mem_arena_id memid = arena_ident arena
    /\ (numa_node <? 0) || (arena_numa_node arena <? 0)
       || (arena_numa_node arena =? numa_node) = m.
Proof.
  induction k as [|k IH]; intros i s Hcc Hi; cbn [mi_arena_try_alloc_loop];
    [discriminate|].
  destruct (mi_arena_try_alloc_at_id _ _ _ _ _ _ _ _ _ _ _ _) as [[r|] s2] eqn:E.
  - intros [= -> ->].
    pose proof E as E'.
    apply mi_arena_try_alloc_at_id_spec in E'
      as (arena & arena' & Hslot & _ & Hpl & _); [|done].
    pose proof (mi_arena_try_alloc_at_id_numa _ _ _ _ _ _ _ _ _ _ _ _ _ _ E Hslot)
      as Hnuma.
    rewrite mi_arena_id_index_create in Hslot by done.
    destruct Hpl as (_ & Hm & _).
    exists i, arena. split; [lia|]. by repeat split.
  - apply mi_arena_try_alloc_at_id_None in E as ->. intros H.
    apply IH in H as (idx & arena & Hidx & H); [|done|lia].
    exists idx, arena. split; [lia | exact H].
Qed.

(** X20. A request that names no arena is served from an arena on
    another NUMA node only after every arena had its turn under the
    NUMA-local rule and none served it: the serving arena either suits
    the NUMA node of the request (the request has no node, the arena has
    no node, or the nodes are the same), or the request has a node and
    the NUMA-local attempt failed at every slot below the arena count. *)
Theorem X20_numa_local_arenas_first cfg os (numa_node size alignment : Z)
  (commit allow_large : bool) (tseq : Z) (s : mi_state)
  (p : Z) (memid : mi_memid_t) (s1 : mi_state) :
  0 < MI_BITMAP_CHUNK_COUNT cfg ->
  mi_arena_try_alloc cfg os numa_node size alignment commit allow_large
    _mi_arena_id_none tseq s = (Some (p, memid), s1) ->
  exists idx arena,
    0 <= idx < mi_arena_get_count s
    /\ mi_arena_from_index idx s = Some arena
    /\ mem_arena_id memid = arena_ident arena
    /\ ((numa_node < 0 \/ arena_numa_node arena < 0
         \/ arena_numa_node arena = numa_node)
        \/ (0 <= numa_node
            /\ forall j, 0 <= j < mi_arena_get_count s ->
                 mi_arena_try_alloc_at_id cfg os (mi_arena_id_create j) true numa_node
                   size alignment commit allow_large _mi_arena_id_none tseq s
                 = (None, s))).
Proof.
  intros Hcc. unfold mi_arena_try_alloc, mi_arena_get_count, mi_arena_from_index.
  destruct (_ <? alignment); [discriminate|].
  destruct (_ =? 0); [discriminate|].
  rewrite Z.eqb_refl. cbn [negb].
  destruct (mi_arena_try_alloc_loop _ _ _ _ _ _ _ _ _ _ _ _ _) as [[r|] s2] eqn:E.
  - intros [= -> ->].
    apply mi_arena_try_alloc_loop_numa in E as (idx & arena & Hidx & Hs & Hm & Hn);
      [|done|lia].
    exists idx, arena. split; [lia|]. split; [done|]. split; [done|]. left.
    apply orb_true_iff in Hn as [Hn|Hn]; [apply orb_true_iff in Hn as [Hn|Hn]|].
    + left. by apply Z.ltb_lt.
    + right. left. by apply Z.ltb_lt.
    + right. right. by apply Z.eqb_eq.
  - pose proof (mi_arena_try_alloc_loop_None _ _ _ _ _ _ _ _ _ _ _ _ _ _ E) as ->.
    destruct (Z.leb_spec 0 numa_node) as [Hnode|]; [|discriminate].
    intros H.
    apply mi_arena_try_alloc_loop_numa in H as (idx & arena & Hidx & Hs & Hm & _);
      [|done|lia].
    exists idx, arena. split; [lia|]. split; [done|]. split; [done|]. right.
    split; [done|]. intros j Hj.
    apply (mi_arena_try_alloc_loop_None_all _ _ _ _ _ _ _ _ _ _ _ _ _ _ E). lia.
Qed.

(** ** No eager reservation *)

Lemma mi_arena_reserve_refuses cfg os (req_size : Z) (allow_large : bool)
  (req_arena_id : Z) (s : mi_state) :
  _mi_preloading os = true \/ req_arena_id <> _mi_arena_id_none
  \/ MI_MAX_ARENAS - 4 < mi_arena_count s \/ mi_option_arena_reserve os = 0 ->
  mi_arena_reserve cfg os req_size allow_large req_arena_id s = (false, 0, s).
Proof.
  intros H. unfold mi_arena_reserve.
  destruct (_mi_preloading os); [done|].
  destruct (Z.eqb_spec req_arena_id _mi_arena_id_none) as [Hr|Hr]; cbn [negb]; [|done].
  destruct (Z.ltb_spec (MI_MAX_ARENAS - 4) (mi_arena_count s)); [done|].
  destruct (Z.eqb_spec (mi_option_arena_reserve os) 0); [done|].
  destruct H as [H|[H|[H|H]]]; [discriminate | contradiction | lia | contradiction].
Qed.

(** X21. [_mi_arena_alloc_aligned] reserves no new arena while the
    process is preloading, for a request that names an arena, once more
    than [MI_MAX_ARENAS - 4] arenas are registered, or when the
    [arena_reserve] option is 0: the arena count stays, and every slot
    holds the descriptor it held, changed at most by a claim. *)
Theorem X21_no_eager_reservation cfg os (size alignment align_offset : Z)
  (commit allow_large : bool) (req_arena_id : Z) (s : mi_state) :
  _mi_preloading os = true \/ req_arena_id <> _mi_arena_id_none
  \/ MI_MAX_ARENAS - 4 < mi_arena_get_count s \/ mi_option_arena_reserve os = 0 ->
  let s' := snd (_mi_arena_alloc_aligned cfg os size alignment align_offset commit
                   allow_large req_arena_id s) in
  mi_arena_get_count s' = mi_arena_get_count s /\ registry_evolves s s'.
Proof.
  intros Hcond s'. subst s'.
  assert (He : registry_evolves s
            (snd (_mi_arena_alloc_aligned cfg os size alignment align_offset commit
                    allow_large req_arena_id s))).
  { assert (Hfb : forall st,
      registry_evolves st
        (snd (mi_arena_alloc_fallback os size alignment align_offset commit allow_large
                req_arena_id st))).
    { intros st.
      destruct (mi_arena_alloc_fallback_spec os size alignment align_offset commit
                  allow_large req_arena_id st) as (Ha & Hc & _).
      by apply registry_evolves_same. }
    unfold _mi_arena_alloc_aligned.
    destruct (_ && _); [|apply Hfb].
    pose proof (mi_arena_try_alloc_evolves cfg os (_mi_os_numa_node os) size alignment
                  commit allow_large req_arena_id (_mi_thread_seq_id os) s) as H1.
    destruct (mi_arena_try_alloc _ _ _ _ _ _ _ _ _ _) as [[r|] s1] eqn:E;
      cbn [snd] in H1; [exact H1|].
    apply mi_arena_try_alloc_None in E as ->.
    destruct (req_arena_id =? _mi_arena_id_none); [|apply Hfb].
    rewrite (mi_arena_reserve_refuses cfg os size allow_large req_arena_id s Hcond).
    apply Hfb. }
  split; [apply He | exact He].
Qed.

(** ** The properties above at concrete inputs *)








(** X3 after a free under a purge delay of 100 ms. *)
Lemma X3_no_purge_witness :
  mi_arena_from_index 0 (run_calls cfg64 calls_example s_init) = Some arena_freed2
  /\ blocks_purge arena_freed2 = 0 /\ purge_expire arena_freed2 = 0.
Proof.
  assert (H : mi_arena_from_index 0 (run_calls cfg64 calls_example s_init)
              = Some arena_freed2) by (vm_compute; reflexivity).
  split; [exact H|].
  exact (X3_no_purge_is_ever_scheduled cfg64 calls_example 0 arena_freed2 H).
Defined.

(** X6 at the first claim of 8 MiB from a fresh arena of 64 MiB. *)
Lemma X6_placement_witness :
  let cfg := cfg64 in
  let s := run_calls cfg calls_reserve s_init in
  let p := block_addr 1 in
  let memid := memid_arena1 1 true in
  let alignment := 4 * MiB in
  let allow_large := false in
  let req_arena_id := 0 in
  (0 < MI_BITMAP_CHUNK_COUNT cfg
   /\ mi_arena_try_alloc cfg os_nopurge 0 (8 * MiB) alignment true allow_large
        req_arena_id 0 s = (Some (p, memid), snd try1))
  /\ exists idx arena,
       0 <= idx < mi_arena_get_count s
       /\ mi_arena_from_index idx s = Some arena
       /\ memkind memid = MI_MEM_ARENA
       /\ mem_arena_id memid = mi_arena_id_create idx
       /\ _mi_arena_memid_is_suitable memid req_arena_id = true
       /\ (req_arena_id <> _mi_arena_id_none -> mem_arena_id memid = req_arena_id)
       /\ (req_arena_id = _mi_arena_id_none -> exclusive arena = false)
       /\ (allow_large = false -> is_large arena = false)
       /\ alignment <= MI_ARENA_BLOCK_ALIGN cfg
       /\ is_pinned memid = is_pinned (arena_memid arena)
       /\ p = mi_arena_block_start cfg arena (mem_arena_block_index memid).
Proof.
  intros cfg s p memid alignment allow_large req_arena_id.
  assert (H1 : 0 < MI_BITMAP_CHUNK_COUNT cfg) by reflexivity.
  assert (H2 : mi_arena_try_alloc cfg os_nopurge 0 (8 * MiB) alignment true allow_large
                 req_arena_id 0 s = (Some (p, memid), snd try1))
    by (vm_compute; reflexivity).
  split; [exact (conj H1 H2)|].
  exact (X6_placement_respects_request cfg os_nopurge calls_reserve 0 (8 * MiB)
           alignment true allow_large req_arena_id 0 p memid (snd try1) H1 H2).
Defined.

(** X7 at two claims of 8 MiB: blocks 1-2 and 3-4. *)
Lemma X7_disjoint_witness :
  let cfg := cfg64 in
  let s := run_calls cfg calls_reserve s_init in
  let p1 := block_addr 1 in
  let p2 := block_addr 3 in
  let memid1 := memid_arena1 1 true in
  let memid2 := memid_arena1 3 true in
  let size1 := 8 * MiB in
  let size2 := 8 * MiB in
  (0 < MI_BITMAP_CHUNK_COUNT cfg
   /\ 0 < MI_ARENA_BLOCK_SIZE cfg
   /\ MI_BITMAP_MAX_BITS cfg * MI_ARENA_BLOCK_SIZE cfg < 2 ^ MI_SIZE_BITS cfg
   /\ mi_arena_try_alloc cfg os_nopurge 0 size1 (4 * MiB) true false 0 0 s
      = (Some (p1, memid1), snd try1)
   /\ mi_arena_try_alloc cfg os_nopurge 0 size2 (4 * MiB) true false 0 0 (snd try1)
      = (Some (p2, memid2), snd try2)
   /\ mem_arena_id memid1 = mem_arena_id memid2)
  /\ let n1 := mi_block_count_of_size cfg size1 in
     let n2 := mi_block_count_of_size cfg size2 in
     (mem_arena_block_index memid1 + n1 <= mem_arena_block_index memid2
      \/ mem_arena_block_index memid2 + n2 <= mem_arena_block_index memid1)
     /\ (p1 + n1 * MI_ARENA_BLOCK_SIZE cfg <= p2
         \/ p2 + n2 * MI_ARENA_BLOCK_SIZE cfg <= p1).
Proof.
  intros cfg s p1 p2 memid1 memid2 size1 size2.
  assert (H1 : 0 < MI_BITMAP_CHUNK_COUNT cfg) by reflexivity.
  assert (H2 : 0 < MI_ARENA_BLOCK_SIZE cfg) by reflexivity.
  assert (H3 : MI_BITMAP_MAX_BITS cfg * MI_ARENA_BLOCK_SIZE cfg < 2 ^ MI_SIZE_BITS cfg)
    by reflexivity.
  assert (H4 : mi_arena_try_alloc cfg os_nopurge 0 size1 (4 * MiB) true false 0 0 s
               = (Some (p1, memid1), snd try1)) by (vm_compute; reflexivity).
  assert (H5 : mi_arena_try_alloc cfg os_nopurge 0 size2 (4 * MiB) true false 0 0
                 (snd try1) = (Some (p2, memid2), snd try2))
    by (vm_compute; reflexivity).
  assert (H6 : mem_arena_id memid1 = mem_arena_id memid2) by reflexivity.
  split; [exact (conj H1 (conj H2 (conj H3 (conj H4 (conj H5 H6)))))|].
  exact (X7_successive_claims_are_disjoint cfg os_nopurge os_nopurge calls_reserve
           0 size1 (4 * MiB) true false 0 0 0 size2 (4 * MiB) true false 0 0
           p1 p2 memid1 memid2 (snd try1) (snd try2) H1 H2 H3 H4 H5 H6).
Defined.


(** X9 at the first claim from an arena on zeroed memory: reported zero,
    and the two blocks become dirty. *)
Lemma X9_zero_witness :
  let cfg := cfg64 in
  let os := os_nopurge in
  let arena := arena16 in
  let arena_index := 0 in
  let needed_bcount := 2 in
  let commit := true in
  let s := s_arena16 in
  let p := block_addr 1 in
  let memid := memid_arena1 1 true in
  let s1 := snd (mi_arena_try_alloc_at cfg os arena arena_index needed_bcount commit
                   0 s) in
  mi_arena_try_alloc_at cfg os arena arena_index needed_bcount commit 0 s
  = (Some (p, memid), s1)
  /\ let bi := mem_arena_block_index memid in
     let size := mi_size_of_blocks cfg needed_bcount in
     let never_used :=
       mi_bitmap_is_xsetN MI_BIT_CLEAR (blocks_dirty arena) bi needed_bcount in
     let was_committed :=
       mi_bitmap_is_xsetN MI_BIT_SET (blocks_committed arena) bi needed_bcount in
     let os_commit := _mi_os_commit os (trace s) p size in
     initially_zero memid
     = (initially_zero (arena_memid arena) && never_used)
       || (commit && negb was_committed && fst os_commit && snd os_commit)
     /\ exists arena',
          mi_arena_from_index arena_index s1 = Some arena'
          /\ blocks_dirty arena'
             = if initially_zero (arena_memid arena)
               then Z.lor (blocks_dirty arena) (mi_bits_mask bi needed_bcount)
               else blocks_dirty arena.
Proof.
  intros cfg os arena arena_index needed_bcount commit s p memid s1.
  assert (H : mi_arena_try_alloc_at cfg os arena arena_index needed_bcount commit 0 s
              = (Some (p, memid), s1)) by (vm_compute; reflexivity).
  split; [exact H|].
  exact (X9_zero_flag cfg os arena arena_index needed_bcount commit 0 s p memid s1 H).
Defined.

(** X10 at 64 MiB and 5 bytes of external memory at 8 GiB, with the
    arena of [s_arena16] registered at 4 GiB. *)
Lemma X10_manage_witness :
  let cfg := cfg64 in
  let start := 2 ^ 33 in
  let size := 64 * MiB + 5 in
  let s := s_arena16 in
  (0 <= MI_SIZE_BITS cfg /\ 0 < MI_ARENA_BLOCK_SIZE cfg
   /\ forall idx arena,
        mi_arena_from_index idx s = Some arena ->
        starts_apart cfg (mi_arena_start arena) start)
  /\ let r := mi_manage_os_memory_ex cfg start size false false false (-1) false 0 s in
     let bcount := size / MI_ARENA_BLOCK_SIZE cfg in
     (fst (fst r) = true
      <-> start <> 0 /\ start mod MI_ARENA_BLOCK_SIZE cfg = 0
          /\ mi_arena_info_blocks cfg + 1 <= bcount <= MI_BITMAP_MAX_BITS cfg
          /\ mi_arena_get_count s < MI_MAX_ARENAS)
     /\ (fst (fst r) = true ->
         snd (fst r) = mi_arena_id_create (mi_arena_get_count s)
         /\ mi_arena_get_count (snd r) = mi_arena_get_count s + 1
         /\ mi_arena_from_index (mi_arena_get_count s) (snd r) <> None
         /\ forall idx, idx <> mi_arena_get_count s ->
              mi_arena_from_index idx (snd r) = mi_arena_from_index idx s)
     /\ (fst (fst r) = false ->
         mi_arenas (snd r) = mi_arenas s
         /\ mi_arena_get_count (snd r) = mi_arena_get_count s).
Proof.
  intros cfg start size s.
  assert (H1 : 0 <= MI_SIZE_BITS cfg) by (vm_compute; discriminate).
  assert (H2 : 0 < MI_ARENA_BLOCK_SIZE cfg) by reflexivity.
  assert (E : map_to_list (mi_arenas s) = [(0, arena16)]) by (vm_compute; reflexivity).
  assert (H3 : forall idx arena,
                 mi_arena_from_index idx s = Some arena ->
                 starts_apart cfg (mi_arena_start arena) start).
  { intros idx arena Hslot. unfold mi_arena_from_index in Hslot.
    apply elem_of_map_to_list in Hslot. rewrite E in Hslot.
    apply list_elem_of_singleton in Hslot. injection Hslot as -> ->.
    split; [discriminate|]. left. vm_compute. discriminate. }
  split; [exact (conj H1 (conj H2 H3))|].
  exact (X10_manage_os_memory_acceptance cfg start size false false false (-1) false 0
           s H1 H2 H3).
Defined.

(** X11 at the same memory: an arena of 16 blocks, the 5 bytes unused. *)
Lemma X11_layout_witness :
  let cfg := cfg64 in
  let start := 2 ^ 32 in
  let size := 64 * MiB + 5 in
  let is_committed := false in
  let large := false in
  let is_zero := false in
  let numa_node := -1 in
  let excl := false in
  let s := s_init in
  let r := mi_manage_os_memory_ex cfg start size is_committed large is_zero numa_node
             excl 0 s in
  let bcount := size / MI_ARENA_BLOCK_SIZE cfg in
  (0 <= MI_SIZE_BITS cfg /\ 0 < MI_ARENA_BLOCK_SIZE cfg
   /\ 0 <= mi_arena_get_count s /\ fst (fst r) = true /\ bcount = 16)
  /\ mi_arena_area cfg (snd (fst r)) (snd r) = (start, mi_size_of_blocks cfg bcount)
  /\ exists arena,
       mi_arena_from_index (mi_arena_id_index (snd (fst r))) (snd r) = Some arena
       /\ mi_arena_start arena = start
       /\ block_count arena = bcount
       /\ arena_ident arena = snd (fst r)
       /\ memkind (arena_memid arena) = MI_MEM_EXTERNAL
       /\ initially_committed (arena_memid arena) = is_committed
       /\ initially_zero (arena_memid arena) = is_zero
       /\ is_pinned (arena_memid arena) = large
       /\ arena_numa_node arena = numa_node
       /\ exclusive arena = excl
       /\ is_large arena = large
       /\ (forall i, Z.testbit (blocks_free arena) i
                     = (mi_arena_info_blocks cfg <=? i) && (i <? bcount))
       /\ (forall i, Z.testbit (blocks_committed arena) i
                     = (0 <=? i)
                       && (i <? if is_committed then bcount
                                else mi_arena_info_blocks cfg)).
Proof.
  intros cfg start size is_committed large is_zero numa_node excl s r bcount.
  assert (H1 : 0 <= MI_SIZE_BITS cfg) by (vm_compute; discriminate).
  assert (H2 : 0 < MI_ARENA_BLOCK_SIZE cfg) by reflexivity.
  assert (H3 : 0 <= mi_arena_get_count s) by (vm_compute; discriminate).
  assert (H4 : fst (fst r) = true) by (vm_compute; reflexivity).
  assert (H5 : bcount = 16) by (vm_compute; reflexivity).
  split; [exact (conj H1 (conj H2 (conj H3 (conj H4 H5))))|].
  exact (X11_managed_arena_layout cfg start size is_committed large is_zero numa_node
           excl 0 s H1 H2 H3 H4).
Defined.

(** X12 at a reservation of 64 MiB. *)
Lemma X12_reserve_witness :
  let cfg := cfg64 in
  let os := os_nopurge in
  let size := 64 * MiB in
  let commit := false in
  let allow_large := false in
  let excl := false in
  let s := s_init in
  (0 <= MI_SIZE_BITS cfg /\ 0 < MI_ARENA_BLOCK_SIZE cfg)
  /\ let r := mi_reserve_os_memory_ex cfg os size commit allow_large excl s in
     let asize := _mi_align_up cfg size (MI_ARENA_BLOCK_SIZE cfg) in
     let os_mem :=
       _mi_os_alloc_aligned os (trace s) asize (MI_ARENA_BLOCK_ALIGN cfg) commit
         allow_large in
     (fst (fst r) = 0 \/ fst (fst r) = ENOMEM)
     /\ (fst (fst r) = 0 ->
         fst os_mem <> 0
         /\ snd (fst r) = mi_arena_id_create (mi_arena_get_count s)
         /\ mi_arena_get_count (snd r) = mi_arena_get_count s + 1
         /\ exists arena,
              mi_arenas (snd r) = <[mi_arena_get_count s := arena]> (mi_arenas s)
              /\ mi_arena_start arena = fst os_mem
              /\ block_count arena = asize / MI_ARENA_BLOCK_SIZE cfg
              /\ arena_memid arena = snd os_mem
              /\ exclusive arena = excl
              /\ is_large arena = is_pinned (snd os_mem))
     /\ (fst (fst r) <> 0 ->
         mi_arenas (snd r) = mi_arenas s
         /\ mi_arena_get_count (snd r) = mi_arena_get_count s
         /\ (fst os_mem <> 0 ->
             exists evs,
               trace (snd r) = trace s ++ evs ++ [EvOsFree (fst os_mem) asize])).
Proof.
  intros cfg os size commit allow_large excl s.
  assert (H1 : 0 <= MI_SIZE_BITS cfg) by (vm_compute; discriminate).
  assert (H2 : 0 < MI_ARENA_BLOCK_SIZE cfg) by reflexivity.
  split; [exact (conj H1 H2)|].
  exact (X12_reserve_os_memory_outcome cfg os size commit allow_large excl s H1 H2).
Defined.

(** X13 at a reservation of one huge page of 1 GiB on node 0. *)
Lemma X13_huge_witness :
  let cfg := cfg64 in
  let os := os_nopurge in
  let pages := 1 in
  let numa_node := 0 in
  let timeout_msecs := 0 in
  let excl := false in
  let s := s_init in
  (0 <= MI_SIZE_BITS cfg /\ 0 < MI_ARENA_BLOCK_SIZE cfg)
  /\ let r := mi_reserve_huge_os_pages_at_ex cfg os pages numa_node timeout_msecs excl
                s in
     let node := mi_huge_numa_node os numa_node in
     let os_mem := _mi_os_alloc_huge_os_pages os (trace s) pages node timeout_msecs in
     let p := fst (fst (fst os_mem)) in
     let pages_reserved := snd (fst (fst os_mem)) in
     let hsize := snd (fst os_mem) in
     (pages = 0 -> r = (0, -1, s))
     /\ (fst (fst r) = 0 \/ fst (fst r) = ENOMEM)
     /\ (pages <> 0 -> fst (fst r) = 0 ->
         p <> 0 /\ pages_reserved <> 0
         /\ snd (fst r) = mi_arena_id_create (mi_arena_get_count s)
         /\ mi_arena_get_count (snd r) = mi_arena_get_count s + 1
         /\ exists arena,
              mi_arenas (snd r) = <[mi_arena_get_count s := arena]> (mi_arenas s)
              /\ mi_arena_start arena = p
              /\ block_count arena = hsize / MI_ARENA_BLOCK_SIZE cfg
              /\ arena_memid arena = snd os_mem
              /\ arena_numa_node arena = node
              /\ exclusive arena = excl
              /\ is_large arena = true)
     /\ (fst (fst r) <> 0 ->
         mi_arenas (snd r) = mi_arenas s
         /\ mi_arena_get_count (snd r) = mi_arena_get_count s
         /\ (p <> 0 -> pages_reserved <> 0 ->
             exists evs, trace (snd r) = trace s ++ evs ++ [EvOsFree p hsize]))
     /\ (pages <> 0 -> p = 0 \/ pages_reserved = 0 ->
         fst (fst r) = ENOMEM
         /\ trace (snd r)
            = trace s ++ [EvOsAllocHuge pages node timeout_msecs;
                          EvWarning "failed to reserve huge pages"]).
Proof.
  intros cfg os pages numa_node timeout_msecs excl s.
  assert (H1 : 0 <= MI_SIZE_BITS cfg) by (vm_compute; discriminate).
  assert (H2 : 0 < MI_ARENA_BLOCK_SIZE cfg) by reflexivity.
  split; [exact (conj H1 H2)|].
  exact (X13_reserve_huge_pages_outcome cfg os pages numa_node timeout_msecs excl s
           H1 H2).
Defined.

(** X15 at a third claim of 8 MiB, after the free of the second one:
    blocks 3 and 4 of the 16. *)
Lemma X15_inside_witness :
  let cfg := cfg64 in
  let os := os_nopurge in
  let calls := calls_example in
  let size := 8 * MiB in
  let alignment := 4 * MiB in
  let s := run_calls cfg calls s_init in
  let p := block_addr 3 in
  let memid := memid_arena1 3 false in
  let s1 := snd (mi_arena_try_alloc cfg os 0 size alignment true false 0 0 s) in
  (0 < MI_BITMAP_CHUNK_COUNT cfg
   /\ 0 <= MI_SIZE_BITS cfg
   /\ 0 < MI_ARENA_BLOCK_SIZE cfg
   /\ MI_BITMAP_MAX_BITS cfg * MI_ARENA_BLOCK_SIZE cfg < 2 ^ MI_SIZE_BITS cfg
   /\ calls_in_range cfg calls s_init
   /\ mi_arena_try_alloc cfg os 0 size alignment true false 0 0 s
      = (Some (p, memid), s1))
  /\ let n := mi_block_count_of_size cfg size in
     let bi := mem_arena_block_index memid in
     exists idx arena,
       0 <= idx < mi_arena_get_count s
       /\ mi_arena_from_index idx s = Some arena
       /\ mem_arena_id memid = arena_ident arena
       /\ 0 < n
       /\ mi_arena_info_blocks cfg <= bi
       /\ bi + n <= block_count arena
       /\ p = mi_arena_start arena + bi * MI_ARENA_BLOCK_SIZE cfg
       /\ mi_arena_size cfg arena = block_count arena * MI_ARENA_BLOCK_SIZE cfg
       /\ mi_arena_start arena + mi_arena_info_blocks cfg * MI_ARENA_BLOCK_SIZE cfg
          <= p
       /\ p + n * MI_ARENA_BLOCK_SIZE cfg
          <= mi_arena_start arena + mi_arena_size cfg arena
       /\ _mi_arena_contains cfg p s1 = true.
Proof.
  intros cfg os calls size alignment s p memid s1.
  assert (H1 : 0 < MI_BITMAP_CHUNK_COUNT cfg) by reflexivity.
  assert (H2 : 0 <= MI_SIZE_BITS cfg) by (vm_compute; discriminate).
  assert (H3 : 0 < MI_ARENA_BLOCK_SIZE cfg) by reflexivity.
  assert (H4 : MI_BITMAP_MAX_BITS cfg * MI_ARENA_BLOCK_SIZE cfg < 2 ^ MI_SIZE_BITS cfg)
    by reflexivity.
  assert (H5 : calls_in_range cfg calls s_init).
  { cbn [calls_in_range calls calls_example call_in_range]. repeat split.
    intros arena _ H. vm_compute in H. injection H as <-. vm_compute. discriminate. }
  assert (H6 : mi_arena_try_alloc cfg os 0 size alignment true false 0 0 s
               = (Some (p, memid), s1)) by (vm_compute; reflexivity).
  split; [exact (conj H1 (conj H2 (conj H3 (conj H4 (conj H5 H6)))))|].
  exact (X15_allocation_lies_inside_its_arena cfg os calls 0 size alignment true false
           0 0 p memid s1 H1 H2 H3 H4 H5 H6).
Defined.


(** X17 at a request of 64 MiB that the one arena of 16 blocks cannot
    serve, with 1 GiB of [arena_reserve]. *)
Lemma X17_keeps_arenas_witness :
  let cfg := cfg64 in
  let s := s_arena16 in
  (0 <= MI_SIZE_BITS cfg /\ 0 < MI_ARENA_BLOCK_SIZE cfg)
  /\ let s' := snd (_mi_arena_alloc_aligned cfg os_reserve_1g (64 * MiB) (4 * MiB) 0
                      true false 0 s) in
     (mi_arena_get_count s' = mi_arena_get_count s
      \/ mi_arena_get_count s' = mi_arena_get_count s + 1)
     /\ (forall idx arena,
           mi_arena_from_index idx s = Some arena -> idx <> mi_arena_get_count s ->
           exists arena',
             mi_arena_from_index idx s' = Some arena' /\ arena_evolves arena arena')
     /\ (mi_arena_get_count s' = mi_arena_get_count s -> registry_evolves s s')
     /\ (mi_arena_get_count s' = mi_arena_get_count s + 1 ->
         mi_arena_from_index (mi_arena_get_count s) s' <> None).
Proof.
  intros cfg s.
  assert (H1 : 0 <= MI_SIZE_BITS cfg) by (vm_compute; discriminate).
  assert (H2 : 0 < MI_ARENA_BLOCK_SIZE cfg) by reflexivity.
  split; [exact (conj H1 H2)|].
  exact (X17_allocation_keeps_arenas cfg os_reserve_1g (64 * MiB) (4 * MiB) 0 true
           false 0 s H1 H2).
Defined.

(** X18 at the third claim of 8 MiB, blocks 3 and 4, freed again. *)
Lemma X18_round_trip_witness :
  let cfg := cfg64 in
  let os := os_nopurge in
  let os' := os_delayed in
  let calls := calls_example in
  let size := 8 * MiB in
  let alignment := 4 * MiB in
  let committed_size := 8 * MiB in
  let s := run_calls cfg calls s_init in
  let p := block_addr 3 in
  let memid := memid_arena1 3 false in
  let s1 := snd (mi_arena_try_alloc cfg os 0 size alignment true false 0 0 s) in
  (0 < MI_BITMAP_CHUNK_COUNT cfg
   /\ 0 <= MI_SIZE_BITS cfg
   /\ 0 < MI_ARENA_BLOCK_SIZE cfg
   /\ calls_in_range cfg calls s_init
   /\ mi_arena_try_alloc cfg os 0 size alignment true false 0 0 s
      = (Some (p, memid), s1)
   /\ p <> 0 /\ size <> 0
   /\ mi_arena_info_blocks cfg < mem_arena_block_index memid)
  /\ let s2 := _mi_arena_free cfg os' p size committed_size memid s1 in
     forall idx,
       blocks_free <$> mi_arena_from_index idx s2
       = blocks_free <$> mi_arena_from_index idx s.
Proof.
  intros cfg os os' calls size alignment committed_size s p memid s1.
  assert (H1 : 0 < MI_BITMAP_CHUNK_COUNT cfg) by reflexivity.
  assert (H2 : 0 <= MI_SIZE_BITS cfg) by (vm_compute; discriminate).
  assert (H3 : 0 < MI_ARENA_BLOCK_SIZE cfg) by reflexivity.
  assert (H4 : calls_in_range cfg calls s_init).
  { cbn [calls_in_range calls calls_example call_in_range]. repeat split.
    intros arena _ H. vm_compute in H. injection H as <-. vm_compute. discriminate. }
  assert (H5 : mi_arena_try_alloc cfg os 0 size alignment true false 0 0 s
               = (Some (p, memid), s1)) by (vm_compute; reflexivity).
  assert (H6 : p <> 0) by (vm_compute; discriminate).
  assert (H7 : size <> 0) by (vm_compute; discriminate).
  assert (H8 : mi_arena_info_blocks cfg < mem_arena_block_index memid)
    by reflexivity.
  split;
    [exact (conj H1 (conj H2 (conj H3 (conj H4 (conj H5 (conj H6 (conj H7 H8)))))))|].
  exact (X18_claim_then_free_restores_free_blocks cfg os os' calls 0 size alignment
           true false 0 0 p memid s1 committed_size H1 H2 H3 H4 H5 H6 H7 H8).
Defined.

(** X19 at a request that names arena 2 where only arena 1 exists. *)
Lemma X19_unserved_witness :
  let r := mi_arena_try_alloc cfg64 os_nopurge 0 (8 * MiB) (4 * MiB) true false 2 0
             s_arena16 in
  fst r = None /\ snd r = s_arena16.
Proof.
  intros r.
  assert (H : fst r = None) by (vm_compute; reflexivity).
  split; [exact H|].
  exact (X19_unserved_request_changes_nothing cfg64 os_nopurge 0 (8 * MiB) (4 * MiB)
           true false 2 0 s_arena16 H).
Defined.

(** X20 at a claim of two blocks for node 1 from [s_numa]: the arena of
    node 1 in slot 1 has one free block, and the claim is served from the
    arena of node 0 in slot 0. *)
Lemma X20_numa_witness :
  let cfg := cfg64 in
  let os := os_nopurge in
  let numa_node := 1 in
  let size := 8 * MiB in
  let alignment := 4 * MiB in
  let s := s_numa in
  let p := 4299161600 in
  let memid := memid_node0 in
  (0 < MI_BITMAP_CHUNK_COUNT cfg
   /\ mi_arena_try_alloc cfg os numa_node size alignment true false _mi_arena_id_none
        0 s = (Some (p, memid), snd try_numa))
  /\ exists idx arena,
       0 <= idx < mi_arena_get_count s
       /\ mi_arena_from_index idx s = Some arena
       /\ mem_arena_id memid = arena_ident arena
       /\ ((numa_node < 0 \/ arena_numa_node arena < 0
            \/ arena_numa_node arena = numa_node)
           \/ (0 <= numa_node
               /\ forall j, 0 <= j < mi_arena_get_count s ->
                    mi_arena_try_alloc_at_id cfg os (mi_arena_id_create j) true
                      numa_node size alignment true false _mi_arena_id_none 0 s
                    = (None, s))).
Proof.
  intros cfg os numa_node size alignment s p memid.
  assert (H1 : 0 < MI_BITMAP_CHUNK_COUNT cfg) by reflexivity.
  assert (H2 : mi_arena_try_alloc cfg os numa_node size alignment true false
                 _mi_arena_id_none 0 s = (Some (p, memid), snd try_numa))
    by (vm_compute; reflexivity).
  split; [exact (conj H1 H2)|].
  exact (X20_numa_local_arenas_first cfg os numa_node size alignment true false 0 s p
           memid (snd try_numa) H1 H2).
Defined.

(** In [s_numa] the arena that serves the claim above is the one of
    node 0, in slot 0, and the arena of node 1 is in slot 1. *)
Lemma s_numa_slots :
  mi_arena_from_index 0 s_numa = Some arena_node0
  /\ mi_arena_from_index 1 s_numa = Some arena_node1
  /\ arena_numa_node arena_node0 = 0 /\ arena_numa_node arena_node1 = 1
  /\ mem_arena_id memid_node0 = arena_ident arena_node0.
Proof. vm_compute. by repeat split. Qed.

(** X21 at a request that the one arena cannot serve, with the
    [arena_reserve] option at 0. *)
Lemma X21_no_reservation_witness :
  let cfg := cfg64 in
  let os := os_nopurge in
  let s := s_arena16 in
  let req_arena_id := 0 in
  (_mi_preloading os = true \/ req_arena_id <> _mi_arena_id_none
   \/ MI_MAX_ARENAS - 4 < mi_arena_get_count s \/ mi_option_arena_reserve os = 0)
  /\ let s' := snd (_mi_arena_alloc_aligned cfg os (64 * MiB) (4 * MiB) 0 true false
                      req_arena_id s) in
     mi_arena_get_count s' = mi_arena_get_count s /\ registry_evolves s s'.
Proof.
  intros cfg os s req_arena_id.
  assert (H : _mi_preloading os = true \/ req_arena_id <> _mi_arena_id_none
              \/ MI_MAX_ARENAS - 4 < mi_arena_get_count s
              \/ mi_option_arena_reserve os = 0)
    by (right; right; right; reflexivity).
  split; [exact H|].
  exact (X21_no_eager_reservation cfg os (64 * MiB) (4 * MiB) 0 true false req_arena_id
           s H).
Defined.
